(** * Gantt chart generation: the data pipeline of [app.py]

    A shallow embedding of [process_dataframe], [create_gantt_chart] and the
    module-level driver of [src/app.py], with the properties the
    specification states about them.

    Modelling conventions.
    - A pandas [DataFrame] is the list of its rows, in row order; a column
      that is a pure function of the other columns of its row ([Y_Label]) is
      a function on rows.
    - A [Timestamp] is the number of nanoseconds since the epoch, a
      [Timedelta] a number of nanoseconds (pandas stores both like this).
      Missing dates ([NaT]) inside a column are not modelled; the minimum or
      maximum of an empty column, which pandas gives as [NaT], is [None].
    - Strings are strings of 8-bit characters; the decimal digits and the
      white space of Python are their ASCII subsets.  A Predecessors cell is
      given by the text [str] makes of it.  A Duration cell is a string, an
      Outline_Level cell an integer and a Not appear cell a Boolean.
    - Python [int] is [Z]; [astype(int)] casts to a 64-bit integer and
      raises [OverflowError] for a value outside its range.  The limit of
      the interpreter on the length of a decimal string that [int] reads
      is not modelled.
    - A raised exception is an explicit [Raise] result.
    - What pandas does when a label column is assigned on a frame without
      rows is a parameter of the pipeline ([empty_apply_raises]).
    - Hover texts, colours of the layout and the floating-point half height
      of a bar are presentation only and are left out or kept symbolic. *)

From Stdlib Require Import ZArith String Ascii List Lia Bool.
From stdpp Require Import base option list sorting gmap strings.

Local Open Scope Z_scope.

(** ** Exceptions and the error monad *)

Inductive Exception :=
| DateParseError (column : string)
| IntCastingNaNError
| OverflowError
| KeyError
| ValueError.

Inductive result (A : Type) :=
| Ok (a : A)
| Raise (e : Exception).
Arguments Ok {A} a.
Arguments Raise {A} e.

#[global] Instance result_ret : MRet result := fun _ a => Ok a.
#[global] Instance result_bind : MBind result := fun _ _ k m =>
  match m with
  | Ok a => k a
  | Raise e => Raise e
  end.

(** A comprehension over a column: the first element that raises aborts. *)
Fixpoint rmap {A B} (f : A -> result B) (l : list A) : result (list B) :=
  match l with
  | [] => Ok []
  | a :: l' => b ← f a; bs ← rmap f l'; Ok (b :: bs)
  end.

Definition is_ok {A} (m : result A) : Prop := exists a, m = Ok a.

(** ** Python strings *)

Definition is_digit (c : ascii) : bool :=
  let n := nat_of_ascii c in (Nat.leb 48 n && Nat.leb n 57)%bool.

Definition digit_value (c : ascii) : Z := Z.of_nat (nat_of_ascii c) - 48.

(** [str.isspace] on the ASCII range: TAB..CR, FS..US and the space. *)
Definition is_space (c : ascii) : bool :=
  let n := nat_of_ascii c in
  ((Nat.leb 9 n && Nat.leb n 13) || (Nat.leb 28 n && Nat.leb n 32))%bool.

Fixpoint lstrip (s : string) : string :=
  match s with
  | EmptyString => EmptyString
  | String c s' => if is_space c then lstrip s' else s
  end.

Fixpoint rstrip (s : string) : string :=
  match s with
  | EmptyString => EmptyString
  | String c s' =>
      match rstrip s' with
      | EmptyString => if is_space c then EmptyString else String c EmptyString
      | t => String c t
      end
  end.

Definition strip (s : string) : string := rstrip (lstrip s).

(** [s.split(sep)] for a one-character separator: never the empty list. *)
Fixpoint split (sep : ascii) (s : string) : list string :=
  match s with
  | EmptyString => [EmptyString]
  | String c s' =>
      if Ascii.eqb c sep then EmptyString :: split sep s'
      else match split sep s' with
           | [] => [String c EmptyString]
           | t :: ts => String c t :: ts
           end
  end.

(** [sep.join(l)], the inverse of [split]. *)
Fixpoint join (sep : ascii) (l : list string) : string :=
  match l with
  | [] => EmptyString
  | [t] => t
  | t :: ts => t +:+ String sep (join sep ts)
  end.

(** ['  ' * n]: a non-positive count gives the empty string. *)
Fixpoint repeat_nat (s : string) (n : nat) : string :=
  match n with
  | O => EmptyString
  | S n' => s +:+ repeat_nat s n'
  end.

Definition str_mul (s : string) (n : Z) : string := repeat_nat s (Z.to_nat n).

(** The decimal value of a string of digits. *)
Fixpoint decimal_from (acc : Z) (s : string) : Z :=
  match s with
  | EmptyString => acc
  | String c s' => decimal_from (10 * acc + digit_value c) s'
  end.

Definition decimal (s : string) : Z := decimal_from 0 s.

Fixpoint all_digits (s : string) : bool :=
  match s with
  | EmptyString => true
  | String c s' => is_digit c && all_digits s'
  end.

Fixpoint no_digit (s : string) : bool :=
  match s with
  | EmptyString => true
  | String c s' => negb (is_digit c) && no_digit s'
  end.

(** The body of a decimal literal as [int] reads it: digits, with single
    underscores allowed between two digits. *)
Fixpoint int_digits (after_digit : bool) (acc : Z) (s : string) : option Z :=
  match s with
  | EmptyString => if after_digit then Some acc else None
  | String c s' =>
      if is_digit c then int_digits true (10 * acc + digit_value c) s'
      else if (Ascii.eqb c "_" && after_digit)%bool then int_digits false acc s'
      else None
  end.

(** [int(s)] in base ten; [None] stands for [ValueError]. *)
Definition py_int (s : string) : option Z :=
  match strip s with
  | String "-" t => Z.opp <$> int_digits false 0 t
  | String "+" t => int_digits false 0 t
  | t => int_digits false 0 t
  end.

(** ** Dates *)

Definition Timestamp := Z.

Definition ns_per_day : Z := 86400000000000.

(** [pd.Timedelta(days=d)] and the [.days] attribute of a difference. *)
Definition Timedelta (d : Z) : Z := d * ns_per_day.
Definition days (delta : Z) : Z := delta / ns_per_day.

(** Midnight of a day of the proleptic Gregorian calendar, for writing
    concrete dates. *)
Definition days_from_civil (y m d : Z) : Z :=
  let y' := if m <=? 2 then y - 1 else y in
  let era := y' / 400 in
  let yoe := y' - era * 400 in
  let mp := if m <=? 2 then m + 9 else m - 3 in
  let doy := (153 * mp + 2) / 5 + d - 1 in
  let doe := yoe * 365 + yoe / 4 - yoe / 100 + doy in
  era * 146097 + doe - 719468.

Definition date (y m d : Z) : Timestamp := days_from_civil y m d * ns_per_day.

(** ** The input rows *)

(** A date cell as [pd.to_datetime] sees it. *)
Inductive DateCell :=
| Parsable (t : Timestamp)
| Unparsable.

Record RawRow := {
  raw_Name : string;
  raw_Start_Date : DateCell;
  raw_Finish_Date : DateCell;
  raw_Duration : string;
  raw_Outline_Level : Z;
  raw_Predecessors : option string;   (* [None] is the empty cell (NaN) *)
  raw_Not_appear : bool
}.

(** A row of [df] once [process_dataframe] has added its columns. *)
Record Row := {
  index : Z;
  Name : string;
  Start_Date : Timestamp;
  Finish_Date : Timestamp;
  Duration : string;
  Outline_Level : Z;
  Predecessors : option string;
  Not_appear : bool;
  Duration_days : Z;
  Plot_Duration : Z;
  Parsed_Predecessors : list Z
}.

(** ** process_dataframe *)

Definition to_datetime (column : string) (cells : list DateCell)
  : result (list Timestamp) :=
  rmap (fun c => match c with
                 | Parsable t => Ok t
                 | Unparsable => Raise (DateParseError column)
                 end) cells.

(** The longest run of digits at the head of a string. *)
Fixpoint take_digits (s : string) : string :=
  match s with
  | EmptyString => EmptyString
  | String c s' => if is_digit c then String c (take_digits s') else EmptyString
  end.

(** [str.extract('(\\d+)')]: the first match, [None] (NaN) without one. *)
Fixpoint str_extract (s : string) : option string :=
  match s with
  | EmptyString => None
  | String c s' => if is_digit c then Some (take_digits s) else str_extract s'
  end.

Definition int64_min : Z := - 2 ^ 63.
Definition int64_max : Z := 2 ^ 63 - 1.

(** [.astype(int)] on a cell of the column of matches: a missing match
    (NaN) cannot be cast, and a value outside the 64-bit range overflows. *)
Definition astype_int (o : option string) : result Z :=
  match o ≫= py_int with
  | Some n =>
      if (int64_min <=? n) && (n <=? int64_max) then Ok n
      else Raise OverflowError
  | None => Raise IntCastingNaNError
  end.

Definition parse_predecessors (predecessors_str : option string) : list Z :=
  match predecessors_str with
  | None => []
  | Some s =>
      match mapM (fun p => py_int (strip p)) (split "," s) with
      | Some predecessors => predecessors
      | None => []
      end
  end.

(** A row of the frame after the column assignments. *)
Definition make_row (i : Z) (r : RawRow) (s f : Timestamp) (d : Z) : Row :=
  {| index := i;
     Name := raw_Name r;
     Start_Date := s;
     Finish_Date := f;
     Duration := raw_Duration r;
     Outline_Level := raw_Outline_Level r;
     Predecessors := raw_Predecessors r;
     Not_appear := raw_Not_appear r;
     Duration_days := d;
     Plot_Duration := days (f - s);
     Parsed_Predecessors := parse_predecessors (raw_Predecessors r) |}.

(** The frame, its rows numbered from [i] ([df.index = range(1, len(df) + 1)]
    for [i = 1]). *)
Fixpoint assemble (i : Z) (raw : list RawRow)
    (starts finishes ddays : list Z) : list Row :=
  match raw, starts, finishes, ddays with
  | r :: raw', s :: starts', f :: finishes', d :: ddays' =>
      make_row i r s f d :: assemble (i + 1) raw' starts' finishes' ddays'
  | _, _, _, _ => []
  end.

Definition selected_outline_levels : list Z := [1; 2; 3; 4].

(** The state of the collapse loop. *)
Record CollapseState := {
  indices_to_hide : gset Z;
  is_collapsing : bool;
  parent_outline_level : Z
}.

Definition collapse_init : CollapseState :=
  {| indices_to_hide := ∅; is_collapsing := false; parent_outline_level := -1 |}.

(** One iteration of the loop over [df.iterrows()]. *)
Definition collapse_step (st : CollapseState) (row_full_df : Row) : CollapseState :=
  if Not_appear row_full_df then
    {| indices_to_hide := indices_to_hide st;
       is_collapsing := true;
       parent_outline_level := Outline_Level row_full_df |}
  else if is_collapsing st then
    if parent_outline_level st <? Outline_Level row_full_df then
      {| indices_to_hide := {[ index row_full_df ]} ∪ indices_to_hide st;
         is_collapsing := true;
         parent_outline_level := parent_outline_level st |}
    else
      {| indices_to_hide := indices_to_hide st;
         is_collapsing := false;
         parent_outline_level := -1 |}
  else st.

Definition collapse_loop (df : list Row) : CollapseState :=
  fold_left collapse_step df collapse_init.

(** Lines 36 to 60 of [process_dataframe]: the index and the new columns
    of [df]. *)
Definition normalize (raw : list RawRow) : result (list Row) :=
  starts ← to_datetime "Start_Date" (raw_Start_Date <$> raw);
  finishes ← to_datetime "Finish_Date" (raw_Finish_Date <$> raw);
  ddays ← rmap astype_int (str_extract <$> (raw_Duration <$> raw));
  Ok (assemble 1 raw starts finishes ddays).

(** Lines 46 to 48 and 62 to 86: the regular and the milestone frame after
    the level filter and the collapse filter. *)
Definition select_frames (df : list Row) : list Row * list Row :=
  let df_milestones := filter (fun r => Duration_days r = 0) df in
  let df_regular := filter (fun r => Duration_days r ≠ 0) df in
  let df_regular :=
    filter (fun r => Outline_Level r ∈ selected_outline_levels) df_regular in
  let df_milestones :=
    filter (fun r => Outline_Level r ∈ selected_outline_levels) df_milestones in
  let hide := indices_to_hide (collapse_loop df) in
  let df_regular := filter (fun r => index r ∉ hide) df_regular in
  let df_milestones := filter (fun r => index r ∉ hide) df_milestones in
  (df_regular, df_milestones).

Definition Y_Label (row : Row) : string :=
  str_mul "  " (Outline_Level row - 1) +:+ Name row.

Section Pipeline.

(** [frame['Y_Label'] = frame.apply(f, axis=1)] on a frame without rows.
    For such a frame pandas does not map [f] over the rows: it calls [f]
    once on a row of NaN to see whether [f] reduces, here that call raises
    (a string cannot be repeated NaN times), so [apply] gives back a copy of
    the empty frame with all its columns, and the assignment of a frame of
    several columns to the one column [Y_Label] raises [ValueError].  The
    source does not show this behaviour of the library, so the development
    does not fix it: [empty_apply_raises] says whether the assignment on a
    frame without rows raises ([true], pandas as just described) or gives
    the empty column ([false]).  Every property below holds for both. *)
Variable empty_apply_raises : bool.

Definition assign_Y_Label (frame : list Row) : result (list Row) :=
  match frame with
  | [] => if empty_apply_raises then Raise ValueError else Ok []
  | _ => Ok frame
  end.

Definition process_dataframe (raw : list RawRow)
  : result (list Row * list Row * list Row) :=
  df ← normalize raw;
  let '(df_regular, df_milestones) := select_frames df in
  df_regular ← assign_Y_Label df_regular;
  df_milestones ← assign_Y_Label df_milestones;
  Ok (df, df_regular, df_milestones).

(** ** create_gantt_chart *)

(** [sort_index()]: the rows in increasing index order. *)
Fixpoint insert_by_index (r : Row) (l : list Row) : list Row :=
  match l with
  | [] => [r]
  | r' :: l' => if index r <=? index r' then r :: l else r' :: insert_by_index r l'
  end.

Definition sort_index (frame : list Row) : list Row :=
  fold_right insert_by_index [] frame.

(** [drop_duplicates()]: the first occurrence of each value is kept. *)
Fixpoint drop_duplicates_from (seen : list string) (l : list string) : list string :=
  match l with
  | [] => []
  | x :: l' =>
      if bool_decide (x ∈ seen) then drop_duplicates_from seen l'
      else x :: drop_duplicates_from (x :: seen) l'
  end.

Definition drop_duplicates (l : list string) : list string :=
  drop_duplicates_from [] l.

Fixpoint enumerate_from {A} (i : nat) (l : list A) : list (nat * A) :=
  match l with
  | [] => []
  | x :: l' => (i, x) :: enumerate_from (S i) l'
  end.

Definition enumerate {A} (l : list A) : list (nat * A) := enumerate_from 0 l.

(** [{label: i for i, label in enumerate(sorted_y_labels)}] *)
Definition label_positions (sorted_y_labels : list string) : gmap string nat :=
  fold_left (fun m p => <[ p.2 := p.1 ]> m) (enumerate sorted_y_labels) ∅.

(** [d[k]] *)
Definition getitem (d : gmap string nat) (k : string) : result nat :=
  match d !! k with
  | Some v => Ok v
  | None => Raise KeyError
  end.

(** [k in frame.index], and [frame.loc[k]] for a frame whose index has no
    duplicates (the one row with that index). *)
Definition in_index (k : Z) (frame : list Row) : bool :=
  bool_decide (k ∈ index <$> frame).

Definition loc (frame : list Row) (k : Z) : result Row :=
  match head (filter (fun r => index r = k) frame) with
  | Some r => Ok r
  | None => Raise KeyError
  end.

(** A bar; its vertical span is [y_pos - bar_height/2 .. y_pos + bar_height/2]
    with [bar_height = 0.4]. *)
Record Rect := {
  x0 : Timestamp;
  x1 : Timestamp;
  y_pos : nat;
  fillcolor : string
}.

Inductive Trace :=
| HoverTrace (start finish : Timestamp) (y : nat) (task : string)
| MilestoneTrace (symbol : string) (x : list Timestamp) (y : list nat)
    (names : list string)
| DependencyTrace (x : Timestamp * Timestamp) (y : nat * nat)
    (from to : string).

Record Figure := {
  traces : list Trace;
  shapes : list Rect;
  xaxis_range : option Timestamp * option Timestamp;
  tickvals : list nat;
  ticktext : list string;
  height : Z
}.

Definition bar_color (row : Row) : string :=
  if Outline_Level row =? 1 then "black"
  else if Outline_Level row =? 2 then "dimgray"
  else if Outline_Level row =? 3 then "darkgray"
  else "steelblue".

Definition bar_of (y_label_to_pos : gmap string nat) (row : Row)
  : result (Rect * Trace) :=
  y ← getitem y_label_to_pos (Y_Label row);
  Ok ({| x0 := Start_Date row; x1 := Finish_Date row; y_pos := y;
         fillcolor := bar_color row |},
      HoverTrace (Start_Date row) (Finish_Date row) y (Name row)).

Definition milestone_traces (y_label_to_pos : gmap string nat)
    (df_milestones : list Row) : result (list Trace) :=
  if (0 <? length df_milestones)%nat then
    milestone_y_positions ← rmap (getitem y_label_to_pos) (Y_Label <$> df_milestones);
    Ok [MilestoneTrace "diamond" (Finish_Date <$> df_milestones)
          milestone_y_positions (Name <$> df_milestones)]
  else Ok [].

Definition predecessor_data (df_regular df_milestones : list Row) (pred_idx : Z)
  : result (option Row) :=
  if in_index pred_idx df_regular then
    pred ← loc df_regular pred_idx; Ok (Some pred)
  else if in_index pred_idx df_milestones then
    pred ← loc df_milestones pred_idx; Ok (Some pred)
  else Ok None.

Definition dependency_trace (y_label_to_pos : gmap string nat)
    (df_regular df_milestones : list Row) (row : Row) (task_y_pos : nat)
    (pred_idx : Z) : result (list Trace) :=
  data ← predecessor_data df_regular df_milestones pred_idx;
  match data with
  | Some pred =>
      pred_y_pos ← getitem y_label_to_pos (Y_Label pred);
      Ok [DependencyTrace (Finish_Date pred, Start_Date row)
            (pred_y_pos, task_y_pos) (Name pred) (Name row)]
  | None => Ok []
  end.

Definition dependency_traces_of (y_label_to_pos : gmap string nat)
    (df df_regular df_milestones : list Row) (row : Row) : result (list Trace) :=
  task_y_pos ← getitem y_label_to_pos (Y_Label row);
  full ← loc df (index row);
  ts ← rmap (dependency_trace y_label_to_pos df_regular df_milestones row task_y_pos)
         (Parsed_Predecessors full);
  Ok (concat ts).

Fixpoint min_of (l : list Z) : option Z :=
  match l with
  | [] => None
  | x :: l' => match min_of l' with
               | Some m => Some (Z.min x m)
               | None => Some x
               end
  end.

Fixpoint max_of (l : list Z) : option Z :=
  match l with
  | [] => None
  | x :: l' => match max_of l' with
               | Some m => Some (Z.max x m)
               | None => Some x
               end
  end.

Definition create_gantt_chart (df df_regular df_milestones : list Row)
  : result Figure :=
  let combined_filtered_df := sort_index (df_regular ++ df_milestones) in
  let sorted_y_labels := drop_duplicates (Y_Label <$> combined_filtered_df) in
  let y_label_to_pos := label_positions sorted_y_labels in
  bars ← rmap (bar_of y_label_to_pos) df_regular;
  milestones ← milestone_traces y_label_to_pos df_milestones;
  deps ← rmap (dependency_traces_of y_label_to_pos df df_regular df_milestones)
           df_regular;
  let min_date := min_of (Start_Date <$> df) in
  let max_date := max_of (Finish_Date <$> df) in
  Ok {| traces := (snd <$> bars) ++ milestones ++ concat deps;
        shapes := fst <$> bars;
        xaxis_range := ((fun t => t - Timedelta 5) <$> min_date,
                        (fun t => t + Timedelta 30) <$> max_date);
        tickvals := seq 0 (length sorted_y_labels);
        ticktext := sorted_y_labels;
        height := Z.max 600 (Z.of_nat (length sorted_y_labels) * 25) |}.

(** ** The driver *)

Record Stats := {
  regular_count : nat;
  milestone_count : nat;
  project_duration : option Z
}.

Definition stats_of (df df_regular df_milestones : list Row) : Stats :=
  {| regular_count := length df_regular;
     milestone_count := length df_milestones;
     project_duration :=
       mx ← max_of (Finish_Date <$> df);
       mn ← min_of (Start_Date <$> df);
       Some (days (mx - mn)) |}.

(** The body of the [try] block: an exception leaves neither chart nor stats. *)
Definition main (raw : list RawRow) : result (Figure * Stats) :=
  frames ← process_dataframe raw;
  let '(df, df_regular, df_milestones) := frames in
  fig ← create_gantt_chart df df_regular df_milestones;
  Ok (fig, stats_of df df_regular df_milestones).

(** ** Vocabulary of the statements *)

(** What may follow the first run of digits of a string. *)
Definition starts_without_digit (s : string) : bool :=
  match s with
  | EmptyString => true
  | String c _ => negb (is_digit c)
  end.

Fixpoint all_space (s : string) : bool :=
  match s with
  | EmptyString => true
  | String c s' => is_space c && all_space s'
  end.

(** Whether the loop, in state [st], hides the row it is looking at. *)
Definition hidden_by (st : CollapseState) (r : Row) : bool :=
  negb (Not_appear r) && is_collapsing st
  && (parent_outline_level st <? Outline_Level r).

(** The rows that survive the level filter and the collapse filter. *)
Definition visible (df : list Row) (r : Row) : Prop :=
  Outline_Level r ∈ selected_outline_levels /\
  index r ∉ indices_to_hide (collapse_loop df).

#[global] Instance visible_dec df r : Decision (visible df r).
Proof. unfold visible. apply _. Defined.

Definition visible_rows (df : list Row) : list Row := filter (visible df) df.

Definition regular_rows (df : list Row) : list Row :=
  filter (fun r => Duration_days r <> 0) (visible_rows df).

Definition milestone_rows (df : list Row) : list Row :=
  filter (fun r => Duration_days r = 0) (visible_rows df).

(** Both label columns can be assigned: no frame is empty, or the
    assignment on an empty frame does not raise. *)
Definition frames_assignable (df : list Row) : Prop :=
  empty_apply_raises = true -> regular_rows df <> [] /\ milestone_rows df <> [].

Definition index_lt (a b : Row) : Prop := index a < index b.

(** The collapse filter in the words of the specification.  The state
    [(collapsing, parentLevel)] is [Some parentLevel] while collapsing and
    [None] otherwise (the parent level is then undefined).  A step gives the
    next state and whether the row is hidden. *)
Definition spec_collapse_step (st : option Z) (hideDescendants : bool)
    (outlineLevel : Z) : option Z * bool :=
  if hideDescendants then (Some outlineLevel, false)
  else match st with
       | Some parentLevel =>
           if parentLevel <? outlineLevel then (Some parentLevel, true)
           else (None, false)
       | None => (None, false)
       end.

Fixpoint spec_collapse_scan (st : option Z) (rows : list (bool * Z)) : list bool :=
  match rows with
  | [] => []
  | (hideDescendants, outlineLevel) :: rows' =>
      let '(st', hidden) := spec_collapse_step st hideDescendants outlineLevel in
      hidden :: spec_collapse_scan st' rows'
  end.

(** The state of the loop as a state of the specification. *)
Definition spec_state (st : CollapseState) : option Z :=
  if is_collapsing st then Some (parent_outline_level st) else None.

(** A raw row whose dates parse and whose duration has a digit. *)
Definition parsable (rr : RawRow) : Prop :=
  raw_Start_Date rr <> Unparsable /\ raw_Finish_Date rr <> Unparsable /\
  no_digit (raw_Duration rr) = false.

(** The exceptions of the normalisation step. *)
Definition parse_error (e : Exception) : Prop :=
  e = DateParseError "Start_Date" \/ e = DateParseError "Finish_Date" \/
  e = IntCastingNaNError \/ e = OverflowError.

(** [d] is the value of the first run of digits of [s]. *)
Definition first_integer (s : string) (d : Z) : Prop :=
  exists pre ds rest,
    s = pre +:+ ds +:+ rest /\ no_digit pre = true /\
    all_digits ds = true /\ ds <> EmptyString /\
    starts_without_digit rest = true /\ d = decimal ds.

(** The first integer of a duration text is a 64-bit integer. *)
Definition fits_int64 (s : string) : Prop :=
  exists d, first_integer s d /\ d <= int64_max.

(** A raw row the three conversions accept. *)
Definition convertible (rr : RawRow) : Prop :=
  raw_Start_Date rr <> Unparsable /\ raw_Finish_Date rr <> Unparsable /\
  fits_int64 (raw_Duration rr).

(** Two raw rows that differ at most in their dates, which parse in both. *)
Definition same_but_dates (rr rr' : RawRow) : Prop :=
  raw_Name rr = raw_Name rr' /\ raw_Duration rr = raw_Duration rr' /\
  raw_Outline_Level rr = raw_Outline_Level rr' /\
  raw_Predecessors rr = raw_Predecessors rr' /\
  raw_Not_appear rr = raw_Not_appear rr' /\
  raw_Start_Date rr <> Unparsable /\ raw_Finish_Date rr <> Unparsable /\
  raw_Start_Date rr' <> Unparsable /\ raw_Finish_Date rr' <> Unparsable.

(** Two rows of a frame that agree on the columns the filters read. *)
Definition same_selection (r r' : Row) : Prop :=
  index r = index r' /\ Outline_Level r = Outline_Level r' /\
  Not_appear r = Not_appear r' /\ Duration_days r = Duration_days r'.

Definition is_max (m : Z) (l : list Z) : Prop := m ∈ l /\ forall x, x ∈ l -> x <= m.
Definition is_min (m : Z) (l : list Z) : Prop := m ∈ l /\ forall x, x ∈ l -> m <= x.

(** ** The figure of a run, in closed form *)

(** The dictionary [y_label_to_pos] that [create_gantt_chart] builds. *)
Definition positions (df_regular df_milestones : list Row) : gmap string nat :=
  label_positions
    (drop_duplicates (Y_Label <$> sort_index (df_regular ++ df_milestones))).

Definition position_of (m : gmap string nat) (r : Row) : nat :=
  default 0%nat (m !! Y_Label r).

Definition bar_rect (m : gmap string nat) (r : Row) : Rect :=
  {| x0 := Start_Date r; x1 := Finish_Date r; y_pos := position_of m r;
     fillcolor := bar_color r |}.

Definition hover_trace (m : gmap string nat) (r : Row) : Trace :=
  HoverTrace (Start_Date r) (Finish_Date r) (position_of m r) (Name r).

Definition marker_trace (m : gmap string nat) (mil : list Row) : Trace :=
  MilestoneTrace "diamond" (Finish_Date <$> mil) (position_of m <$> mil)
    (Name <$> mil).

Definition marker_traces (m : gmap string nat) (mil : list Row) : list Trace :=
  match mil with
  | [] => []
  | _ => [marker_trace m mil]
  end.

(** The row of a frame with a given index, if any. *)
Definition find_row (frame : list Row) (k : Z) : option Row :=
  head (filter (fun r => index r = k) frame).

(** The visible row a predecessor id resolves to: a regular row first, a
    milestone otherwise. *)
Definition visible_predecessor (reg mil : list Row) (k : Z) : option Row :=
  match find_row reg k with
  | Some r => Some r
  | None => find_row mil k
  end.

Definition connector (m : gmap string nat) (row pred : Row) : Trace :=
  DependencyTrace (Finish_Date pred, Start_Date row)
    (position_of m pred, position_of m row) (Name pred) (Name row).

Definition connectors_of (m : gmap string nat) (reg mil : list Row) (row : Row)
  : list Trace :=
  concat ((fun k => match visible_predecessor reg mil k with
                    | Some pred => [connector m row pred]
                    | None => []
                    end) <$> Parsed_Predecessors row).

Definition is_connector (t : Trace) : bool :=
  match t with
  | DependencyTrace _ _ _ _ => true
  | _ => false
  end.

Definition is_marker_trace (t : Trace) : bool :=
  match t with
  | MilestoneTrace _ _ _ _ => true
  | _ => false
  end.

Definition chart_of (df reg mil : list Row) : Figure :=
  let m := positions reg mil in
  let labels := drop_duplicates (Y_Label <$> sort_index (reg ++ mil)) in
  {| traces := (hover_trace m <$> reg) ++ marker_traces m mil
               ++ concat (connectors_of m reg mil <$> reg);
     shapes := bar_rect m <$> reg;
     xaxis_range := ((fun t => t - Timedelta 5) <$> min_of (Start_Date <$> df),
                     (fun t => t + Timedelta 30) <$> max_of (Finish_Date <$> df));
     tickvals := seq 0 (length labels);
     ticktext := labels;
     height := Z.max 600 (Z.of_nat (length labels) * 25) |}.

(** The x-axis domain in the words of the specification: the padding is
    put around the dates of the visible tasks only. *)
Definition spec_xaxis_range (reg mil : list Row) : option Z * option Z :=
  ((fun t => t - Timedelta 5) <$> min_of (Start_Date <$> (reg ++ mil)),
   (fun t => t + Timedelta 30) <$> max_of (Finish_Date <$> (reg ++ mil))).

(** The label of a row in the words of the specification: two spaces for
    every level below the first, followed by the name. *)
Fixpoint indent (n : nat) (s : string) : string :=
  match n with
  | O => s
  | S n' => String " " (String " " (indent n' s))
  end.

Definition spec_label (r : Row) : string :=
  indent (Z.to_nat (Outline_Level r - 1)) (Name r).

(** The position of a label in the words of the specification: the number
    of distinct labels that appear before its first appearance. *)
Fixpoint before_first (l : string) (labels : list string) : option (list string) :=
  match labels with
  | [] => None
  | x :: rest =>
      if decide (x = l) then Some [] else (cons x) <$> before_first l rest
  end.

Definition count_distinct (labels : list string) : nat :=
  size (list_to_set labels : gset string).

Definition spec_position (labels : list string) (l : string) : option nat :=
  count_distinct <$> before_first l labels.

(** The vertical positions of the points of the marker traces of a figure,
    and the vertical position at which a figure draws each row of the two
    frames: the bar of a regular row, the point of a milestone. *)
Definition marker_ys (fig : Figure) : list nat :=
  concat ((fun t => match t with
                    | MilestoneTrace _ _ y _ => y
                    | _ => []
                    end) <$> traces fig).

Definition drawn_positions (fig : Figure) (df_regular df_milestones : list Row)
  : list (Row * nat) :=
  zip df_regular (y_pos <$> shapes fig) ++ zip df_milestones (marker_ys fig).

(** ** Sample inputs *)

Definition task (n : string) (s f : Timestamp) (d : string) (lvl : Z)
    (p : option string) (h : bool) : RawRow :=
  {| raw_Name := n; raw_Start_Date := Parsable s; raw_Finish_Date := Parsable f;
     raw_Duration := d; raw_Outline_Level := lvl; raw_Predecessors := p;
     raw_Not_appear := h |}.

(** The normalised frame of an input, empty when a cell does not parse. *)
Definition frame_of (raw : list RawRow) : list Row :=
  match normalize raw with
  | Ok df => df
  | Raise _ => []
  end.

(** The frames of a run, empty when the run raises. *)
Definition frames_of (raw : list RawRow) : list Row * list Row * list Row :=
  match process_dataframe raw with
  | Ok frames => frames
  | Raise _ => ([], [], [])
  end.

(** Levels 1,2,3,2,1 with the second row marked. *)
Definition sample_collapse : list RawRow :=
  [ task "Project" (date 2024 1 1) (date 2024 3 1) "60 days" 1 None false;
    task "Design" (date 2024 1 1) (date 2024 1 20) "19 days" 2 None true;
    task "Sketch" (date 2024 1 1) (date 2024 1 10) "9 days" 3 None false;
    task "Build" (date 2024 1 20) (date 2024 2 20) "31 days" 2 (Some "2") false;
    task "Launch" (date 2024 3 1) (date 2024 3 1) "0 days" 1 (Some "4") false ].

(** A marked row at level 3 inside the collapse span of a marked row at
    level 1. *)
Definition sample_nested : list RawRow :=
  [ task "Project" (date 2024 1 1) (date 2024 3 1) "60 days" 1 None true;
    task "Design" (date 2024 1 1) (date 2024 1 20) "19 days" 2 None false;
    task "Sketch" (date 2024 1 1) (date 2024 1 10) "9 days" 3 None true;
    task "Review" (date 2024 1 10) (date 2024 1 12) "2 days" 3 None false;
    task "Freeze" (date 2024 1 20) (date 2024 1 20) "0 days" 2 None false ].

(** A duration without a digit in the second row. *)
Definition sample_no_digit : list RawRow :=
  [ task "Project" (date 2024 1 1) (date 2024 3 1) "60 days" 1 None false;
    task "Design" (date 2024 1 1) (date 2024 1 20) "soon" 2 None false;
    task "Launch" (date 2024 3 1) (date 2024 3 1) "0 days" 1 None false ].

(** The second row finishes before it starts. *)
Definition sample_backwards : list RawRow :=
  [ task "Project" (date 2024 1 1) (date 2024 3 1) "60 days" 1 None false;
    task "Design" (date 2024 1 20) (date 2024 1 5) "15 days" 2 (Some "1") false;
    task "Launch" (date 2024 3 1) (date 2024 3 1) "0 days" 1 None false ].

(** The second and the third row have the same label. *)
Definition sample_same_label : list RawRow :=
  [ task "Project" (date 2024 1 1) (date 2024 3 1) "60 days" 1 None false;
    task "Test" (date 2024 1 1) (date 2024 1 20) "19 days" 2 None false;
    task "Test" (date 2024 2 1) (date 2024 2 20) "19 days" 2 None false;
    task "Launch" (date 2024 3 1) (date 2024 3 1) "0 days" 1 None false ].

(** The first row is marked, so the second one is hidden; the hidden row
    starts before and finishes after the visible ones. *)
Definition sample_hidden_span : list RawRow :=
  [ task "Project" (date 2024 1 1) (date 2024 3 1) "60 days" 1 None true;
    task "Survey" (date 2023 6 1) (date 2024 6 1) "366 days" 2 None false;
    task "Launch" (date 2024 3 1) (date 2024 3 1) "0 days" 1 None false ].

(** No milestone. *)
Definition sample_no_milestone : list RawRow :=
  [ task "Project" (date 2024 1 1) (date 2024 3 1) "60 days" 1 None false;
    task "Design" (date 2024 1 1) (date 2024 1 20) "19 days" 2 None false ].

(** The first integer of the duration of the first row is 2^63. *)
Definition sample_int64 : list RawRow :=
  [ task "Project" (date 2024 1 1) (date 2024 3 1) "9223372036854775808 days" 1
      None false;
    task "Launch" (date 2024 3 1) (date 2024 3 1) "0 days" 1 None false ].

(** A duration that overflows before a duration without a digit, and the
    same two rows in the other order. *)
Definition sample_overflow_first : list RawRow :=
  [ task "Project" (date 2024 1 1) (date 2024 3 1) "9223372036854775808 days" 1
      None false;
    task "Design" (date 2024 1 1) (date 2024 1 20) "soon" 2 None false ].

Definition sample_no_digit_first : list RawRow :=
  [ task "Design" (date 2024 1 1) (date 2024 1 20) "soon" 2 None false;
    task "Project" (date 2024 1 1) (date 2024 3 1) "9223372036854775808 days" 1
      None false ].

(** [sample_backwards] with the dates of its second row in order. *)
Definition sample_forwards : list RawRow :=
  [ task "Project" (date 2024 1 1) (date 2024 3 1) "60 days" 1 None false;
    task "Design" (date 2024 1 5) (date 2024 1 20) "15 days" 2 (Some "1") false;
    task "Launch" (date 2024 3 1) (date 2024 3 1) "0 days" 1 None false ].

(** ** The page of the app *)

Definition required_columns : list string :=
  ["Name"; "Start_Date"; "Finish_Date"; "Duration"; "Outline_Level";
   "Predecessors"; "Not appear"]%string.

(** [[col for col in required_columns if col not in df.columns]] *)
Definition missing_columns (columns : list string) : list string :=
  filter (fun col => col ∉ columns) required_columns.

(** [sep.join(l)] for a separator of any length. *)
Fixpoint str_join (sep : string) (l : list string) : string :=
  match l with
  | [] => EmptyString
  | [t] => t
  | t :: ts => t +:+ sep +:+ str_join sep ts
  end.

(** What [pd.read_excel] returns: the column names of the sheet, and its
    rows read under the required columns (they are looked at only when no
    required column is missing). *)
Record Upload := {
  columns : list string;
  rows : list RawRow
}.

(** What the script shows: the hint to upload a file, the list of missing
    columns (followed by [st.stop()]), the message of a caught exception, or
    the chart with its three metrics. *)
Inductive Page :=
| InfoPage
| MissingColumnsPage (listing : string)
| ErrorPage (e : Exception)
| ChartPage (fig : Figure) (stats : Stats).

(** The script below the two functions. *)
Definition app (uploaded_file : option Upload) : Page :=
  match uploaded_file with
  | None => InfoPage
  | Some df =>
      match missing_columns (columns df) with
      | [] =>
          match main (rows df) with
          | Ok (fig, stats) => ChartPage fig stats
          | Raise e => ErrorPage e
          end
      | missing => MissingColumnsPage (str_join ", " missing)
      end
  end.

(** ** More vocabulary *)

Fixpoint all_zeros (s : string) : bool :=
  match s with
  | EmptyString => true
  | String c s' => Ascii.eqb c "0" && all_zeros s'
  end.

(** A sheet with all required columns but one, and one more column. *)
Definition sample_columns : list string :=
  ["Not appear"; "Name"; "Start_Date"; "Resource"; "Duration"; "Outline_Level";
   "Predecessors"]%string.

(** All required columns, in another order. *)
Definition sample_all_columns : list string :=
  ["Predecessors"; "Not appear"; "Name"; "Finish_Date"; "Start_Date"; "Notes";
   "Duration"; "Outline_Level"]%string.

(** A start date that does not parse and a duration without a digit, both
    in the second row. *)
Definition sample_bad_cells : list RawRow :=
  [ task "Project" (date 2024 1 1) (date 2024 3 1) "60 days" 1 None false;
    {| raw_Name := "Design"; raw_Start_Date := Unparsable;
       raw_Finish_Date := Parsable (date 2024 1 20); raw_Duration := "soon";
       raw_Outline_Level := 2; raw_Predecessors := None;
       raw_Not_appear := false |} ].

(** The duration of the second row starts with a zero. *)
Definition sample_half_day : list RawRow :=
  [ task "Project" (date 2024 1 1) (date 2024 3 1) "60 days" 1 None false;
    task "Review" (date 2024 1 10) (date 2024 1 11) "0.5 days" 2 None false ].

(** A marked row at level 5, which the level filter drops, before a row at
    level 6. *)
Definition sample_excluded_marker : list RawRow :=
  [ task "Project" (date 2024 1 1) (date 2024 3 1) "60 days" 1 None false;
    task "Detail" (date 2024 1 1) (date 2024 1 20) "19 days" 5 None true;
    task "Step" (date 2024 1 1) (date 2024 1 10) "9 days" 6 None false;
    task "Launch" (date 2024 3 1) (date 2024 3 1) "0 days" 1 None false ].

(** The second row names itself, a row that does not exist and the row 0. *)
Definition sample_self_reference : list RawRow :=
  [ task "Project" (date 2024 1 1) (date 2024 3 1) "60 days" 1 (Some "0, 99") false;
    task "Design" (date 2024 1 1) (date 2024 1 20) "19 days" 2 (Some "2") false;
    task "Launch" (date 2024 3 1) (date 2024 3 1) "0 days" 1 None false ].

(** The same name at level 1 and at level 2. *)
Definition sample_same_name : list RawRow :=
  [ task "Test" (date 2024 1 1) (date 2024 3 1) "60 days" 1 None false;
    task "Test" (date 2024 1 1) (date 2024 1 20) "19 days" 2 None false;
    task "Launch" (date 2024 3 1) (date 2024 3 1) "0 days" 1 None false ].

(** * Properties *)

(** ** The error monad *)

Section ResultLemmas.
Context {A B : Type} (f : A -> result B).

Lemma rmap_ok_Forall2 l bs :
  rmap f l = Ok bs -> Forall2 (fun a b => f a = Ok b) l bs.
Proof.
  revert bs. induction l as [|a l IH]; intros bs H; simpl in H.
  - injection H as <-. constructor.
  - destruct (f a) as [b|e] eqn:Ha; simpl in H; [|discriminate].
    destruct (rmap f l) as [bs'|e] eqn:Hl; simpl in H; [|discriminate].
    injection H as <-. constructor; auto.
Qed.

Lemma rmap_total l :
  Forall (fun a => is_ok (f a)) l -> is_ok (rmap f l).
Proof.
  induction 1 as [|a l [b Hb] _ [bs Hbs]]; simpl.
  - by exists [].
  - exists (b :: bs). by rewrite Hb; simpl; rewrite Hbs.
Qed.

Lemma rmap_raise_kind (P : Exception -> Prop) l e :
  (forall a e', a ∈ l -> f a = Raise e' -> P e') ->
  rmap f l = Raise e -> P e.
Proof.
  induction l as [|a l IH]; simpl; intros HP H; [discriminate|].
  destruct (f a) as [b|e'] eqn:Ha; simpl in H.
  - destruct (rmap f l) as [bs|e'] eqn:Hl; simpl in H; [discriminate|].
    injection H as <-. apply IH; [|done].
    intros a' e'' Hin. apply HP. by right.
  - injection H as <-. apply (HP a); [left|done].
Qed.

End ResultLemmas.

(** ** Strings *)

Lemma digit_not_space c : is_digit c = true -> is_space c = false.
Proof.
  unfold is_digit, is_space. intros H.
  apply andb_true_iff in H as [H1 H2].
  apply Nat.leb_le in H1. apply Nat.leb_le in H2.
  apply orb_false_iff. split; apply andb_false_iff.
  - right. apply Nat.leb_gt. lia.
  - right. apply Nat.leb_gt. lia.
Qed.

Lemma take_digits_app ds rest :
  all_digits ds = true -> starts_without_digit rest = true ->
  take_digits (ds +:+ rest) = ds.
Proof.
  induction ds as [|c ds IH]; simpl; intros Hd Hr.
  - destruct rest as [|c r]; simpl in *; [done|].
    by apply negb_true_iff in Hr as ->.
  - apply andb_true_iff in Hd as [-> Hd]. by rewrite IH.
Qed.

Lemma str_extract_app pre ds rest :
  no_digit pre = true -> all_digits ds = true -> ds <> EmptyString ->
  starts_without_digit rest = true ->
  str_extract (pre +:+ ds +:+ rest) = Some ds.
Proof.
  intros Hp Hd Hne Hr. induction pre as [|c pre IH]; simpl in *.
  - destruct ds as [|c ds]; [done|]. simpl in *.
    apply andb_true_iff in Hd as [Hc Hd]. rewrite Hc.
    by rewrite take_digits_app.
  - apply andb_true_iff in Hp as [Hc Hp]. apply negb_true_iff in Hc as ->. auto.
Qed.

Lemma take_digits_all s : all_digits (take_digits s) = true.
Proof.
  induction s as [|c s IH]; simpl; [done|].
  destruct (is_digit c) eqn:Hc; simpl; [|done]. by rewrite Hc.
Qed.

Lemma str_extract_Some s ds :
  str_extract s = Some ds -> all_digits ds = true /\ ds <> EmptyString.
Proof.
  induction s as [|c s IH]; simpl; [done|].
  destruct (is_digit c) eqn:Hc; [|done].
  intros [= <-]. split; [|done]. simpl. by rewrite Hc, take_digits_all.
Qed.

Lemma str_extract_None s : str_extract s = None <-> no_digit s = true.
Proof.
  induction s as [|c s IH]; simpl; [done|].
  destruct (is_digit c); simpl; [split; discriminate|done].
Qed.

Lemma int_digits_all ds b acc :
  all_digits ds = true -> ds <> EmptyString \/ b = true ->
  int_digits b acc ds = Some (decimal_from acc ds).
Proof.
  revert b acc. induction ds as [|c ds IH]; simpl; intros b acc Hd Hb.
  - by destruct Hb as [?| ->].
  - apply andb_true_iff in Hd as [-> Hd]. apply IH; auto.
Qed.

Lemma lstrip_spaces w s : all_space w = true -> lstrip (w +:+ s) = lstrip s.
Proof.
  induction w as [|c w IH]; simpl; [done|].
  intros H. apply andb_true_iff in H as [-> H]. auto.
Qed.

Lemma rstrip_spaces w : all_space w = true -> rstrip w = EmptyString.
Proof.
  induction w as [|c w IH]; simpl; [done|].
  intros H. apply andb_true_iff in H as [-> H]. by rewrite IH.
Qed.

Lemma rstrip_digits ds w :
  all_digits ds = true -> all_space w = true -> rstrip (ds +:+ w) = ds.
Proof.
  intros Hd Hw. induction ds as [|c ds IH]; simpl in *.
  - by apply rstrip_spaces.
  - apply andb_true_iff in Hd as [Hc Hd]. rewrite IH by done.
    destruct ds; [|done]. by rewrite (digit_not_space _ Hc).
Qed.

Lemma strip_digits w1 ds w2 :
  all_space w1 = true -> all_digits ds = true -> all_space w2 = true ->
  strip (w1 +:+ ds +:+ w2) = ds.
Proof.
  intros H1 Hd H2. unfold strip. rewrite lstrip_spaces by done.
  destruct ds as [|c ds]; simpl.
  - clear Hd. induction w2 as [|c w IH]; simpl in *; [done|].
    apply andb_true_iff in H2 as [-> H2]. auto.
  - simpl in Hd. pose proof Hd as Hd'. apply andb_true_iff in Hd as [Hc Hd].
    rewrite (digit_not_space _ Hc). by apply (rstrip_digits (String c ds)).
Qed.

Lemma append_empty_r s : s +:+ EmptyString = s.
Proof. induction s as [|c s IH]; [done|]. exact (f_equal (String c) IH). Qed.

Lemma strip_all_digits ds : all_digits ds = true -> strip ds = ds.
Proof.
  intros Hd.
  pose proof (strip_digits EmptyString ds EmptyString eq_refl Hd eq_refl) as H.
  simpl in H. by rewrite append_empty_r in H.
Qed.

Lemma py_int_all_digits ds :
  all_digits ds = true -> ds <> EmptyString -> py_int ds = Some (decimal ds).
Proof.
  intros Hd Hne. unfold py_int. rewrite strip_all_digits by done.
  destruct ds as [|c ds]; [done|].
  assert (int_digits false 0 (String c ds) = Some (decimal (String c ds))) as Hi
    by (apply int_digits_all; auto).
  simpl in Hd. apply andb_true_iff in Hd as [Hc _].
  destruct c as [[] [] [] [] [] [] [] []]; try discriminate Hc; exact Hi.
Qed.

Lemma py_int_digits w1 ds w2 :
  all_space w1 = true -> all_digits ds = true -> ds <> EmptyString ->
  all_space w2 = true ->
  py_int (strip (w1 +:+ ds +:+ w2)) = Some (decimal ds).
Proof.
  intros H1 Hd Hne H2. rewrite strip_digits by done.
  by apply py_int_all_digits.
Qed.

Lemma split_nonempty sep s : split sep s <> [].
Proof.
  destruct s as [|c s]; simpl; [done|].
  destruct (Ascii.eqb c sep); [done|]. by destruct (split sep s).
Qed.

Lemma join_split sep s : join sep (split sep s) = s.
Proof.
  induction s as [|c s IH]; [done|].
  pose proof (split_nonempty sep s) as Hne. simpl.
  destruct (Ascii.eqb c sep) eqn:Hc.
  - apply Ascii.eqb_eq in Hc as ->.
    destruct (split sep s) as [|t ts]; [done|].
    change (String sep (join sep (t :: ts)) = String sep s). by rewrite IH.
  - destruct (split sep s) as [|t ts]; [done|].
    destruct ts as [|t' ts]; simpl in *; by rewrite <- IH.
Qed.

Lemma parse_predecessors_all s vs :
  Forall2 (fun tok v => py_int (strip tok) = Some v) (split "," s) vs ->
  parse_predecessors (Some s) = vs.
Proof. intros H. unfold parse_predecessors. by rewrite (mapM_Some_2 _ _ _ H). Qed.

Lemma parse_predecessors_any s tok :
  tok ∈ split "," s -> py_int (strip tok) = None ->
  parse_predecessors (Some s) = [].
Proof.
  intros Hin Htok. unfold parse_predecessors.
  destruct (mapM _ _) as [vs|] eqn:Hm; [|done].
  apply mapM_Some_1 in Hm.
  destruct (proj1 (list_elem_of_lookup _ _) Hin) as [i Hi].
  destruct (Forall2_lookup_l _ _ _ _ _ Hm Hi) as (v & _ & Hv). congruence.
Qed.

(** C4. The Predecessors cell is read as a comma-separated list of integers
    with the white space around each token trimmed: an empty cell gives the
    empty list; the tokens are the pieces between the commas; when every
    token is an integer the result is the list of their values, a run of
    digits between white space reading as its decimal value; when any token
    is not an integer the whole result is the empty list, never a partial
    one, and nothing is raised (the function is total).  In particular
    ["1, abc, 3"] gives [[]] and not [[1; 3]]. *)
Theorem C4_parse_predecessors_all_or_nothing :
  parse_predecessors None = [] /\
  (forall s, join "," (split "," s) = s) /\
  (forall s vs,
     Forall2 (fun tok v => py_int (strip tok) = Some v) (split "," s) vs ->
     parse_predecessors (Some s) = vs) /\
  (forall w1 ds w2,
     all_space w1 = true -> all_digits ds = true -> ds <> EmptyString ->
     all_space w2 = true ->
     py_int (strip (w1 +:+ ds +:+ w2)) = Some (decimal ds)) /\
  (forall s tok,
     tok ∈ split "," s -> py_int (strip tok) = None ->
     parse_predecessors (Some s) = []) /\
  split "," "1, abc, 3" = ["1"; " abc"; " 3"]%string /\
  parse_predecessors (Some "1, abc, 3"%string) = [] /\
  parse_predecessors (Some "1, 2 ,3"%string) = [1; 2; 3].
Proof.
  split; [done|]. split; [apply join_split|].
  split; [apply parse_predecessors_all|].
  split; [apply py_int_digits|].
  split; [apply parse_predecessors_any|].
  by vm_compute.
Qed.

(** ** The frame built by process_dataframe *)

Lemma assemble_lookup i raw ss fs ds k r :
  assemble i raw ss fs ds !! k = Some r ->
  exists rr s f d,
    raw !! k = Some rr /\ ss !! k = Some s /\ fs !! k = Some f /\
    ds !! k = Some d /\ r = make_row (i + Z.of_nat k) rr s f d.
Proof.
  revert i ss fs ds k.
  induction raw as [|rr raw IH]; intros i [|s ss] [|f fs] [|d ds] k H;
    try discriminate H.
  destruct k as [|k]; simpl in H.
  - injection H as <-. exists rr, s, f, d. rewrite Z.add_0_r. by repeat split.
  - destruct (IH _ _ _ _ _ H) as (rr' & s' & f' & d' & ? & ? & ? & ? & ->).
    exists rr', s', f', d'. repeat split; try done. f_equal. lia.
Qed.

Lemma assemble_length i raw ss fs ds :
  length ss = length raw -> length fs = length raw -> length ds = length raw ->
  length (assemble i raw ss fs ds) = length raw.
Proof.
  revert i ss fs ds.
  induction raw as [|rr raw IH]; intros i [|s ss] [|f fs] [|d ds] ???;
    simplify_eq/=; [done|]. f_equal. by apply IH.
Qed.

Lemma assemble_index_ge i raw ss fs ds :
  Forall (fun r => i <= index r) (assemble i raw ss fs ds).
Proof.
  apply Forall_lookup. intros k r H.
  destruct (assemble_lookup _ _ _ _ _ _ _ H) as (?&?&?&?&_&_&_&_&->). simpl. lia.
Qed.

Lemma assemble_sorted i raw ss fs ds :
  StronglySorted index_lt (assemble i raw ss fs ds).
Proof.
  revert i ss fs ds.
  induction raw as [|rr raw IH]; intros i [|s ss] [|f fs] [|d ds];
    try (simpl; constructor).
  - apply IH.
  - eapply Forall_impl; [apply assemble_index_ge|].
    intros r Hr. unfold index_lt. simpl in *. lia.
Qed.

Lemma sorted_index_NoDup l : StronglySorted index_lt l -> NoDup (index <$> l).
Proof.
  induction 1 as [|a l _ IH Hall]; csimpl; constructor; [|done].
  intros Hin. apply list_elem_of_fmap in Hin as (b & Hab & Hb).
  rewrite Forall_forall in Hall. specialize (Hall b Hb). unfold index_lt in Hall. lia.
Qed.

Lemma sorted_filter (P : Row -> Prop) `{!forall x, Decision (P x)} l :
  StronglySorted index_lt l -> StronglySorted index_lt (filter P l).
Proof.
  induction 1 as [|a l _ IH Hall]; [constructor|].
  rewrite filter_cons. case_decide; [|done].
  constructor; [done|]. apply Forall_forall. intros b Hb.
  apply list_elem_of_filter in Hb as [_ Hb].
  rewrite Forall_forall in Hall. auto.
Qed.

Lemma assemble_flags i raw ss fs ds :
  length ss = length raw -> length fs = length raw -> length ds = length raw ->
  (fun r => (Not_appear r, Outline_Level r)) <$> assemble i raw ss fs ds
  = (fun rr => (raw_Not_appear rr, raw_Outline_Level rr)) <$> raw.
Proof.
  revert i ss fs ds.
  induction raw as [|rr raw IH]; intros i [|s ss] [|f fs] [|d ds] ???;
    simplify_eq/=; [done|]. f_equal. by apply IH.
Qed.

Lemma normalize_Ok raw df :
  normalize raw = Ok df ->
  exists ss fs ds,
    Forall2 (fun rr s => raw_Start_Date rr = Parsable s) raw ss /\
    Forall2 (fun rr f => raw_Finish_Date rr = Parsable f) raw fs /\
    Forall2 (fun rr d => astype_int (str_extract (raw_Duration rr)) = Ok d) raw ds /\
    df = assemble 1 raw ss fs ds.
Proof.
  unfold normalize, to_datetime. intros H.
  destruct (rmap _ (raw_Start_Date <$> raw)) as [ss|] eqn:Hs; [|discriminate].
  destruct (rmap _ (raw_Finish_Date <$> raw)) as [fs|] eqn:Hf; [|discriminate].
  destruct (rmap astype_int _) as [ds|] eqn:Hd; [|discriminate].
  simpl in H. injection H as <-.
  apply rmap_ok_Forall2 in Hs, Hf, Hd.
  rewrite <- list_fmap_compose in Hd.
  apply Forall2_fmap_l in Hs, Hf, Hd.
  exists ss, fs, ds. repeat split.
  - eapply Forall2_impl; [exact Hs|]. intros rr s. simpl.
    by destruct (raw_Start_Date rr); intros [=->].
  - eapply Forall2_impl; [exact Hf|]. intros rr s. simpl.
    by destruct (raw_Finish_Date rr); intros [=->].
  - exact Hd.
Qed.

Lemma select_frames_eq df :
  select_frames df = (regular_rows df, milestone_rows df).
Proof.
  unfold select_frames, regular_rows, milestone_rows, visible_rows.
  rewrite !list_filter_filter.
  f_equal; apply list_filter_iff; unfold visible; tauto.
Qed.

Lemma assign_Y_Label_Ok frame frame' :
  assign_Y_Label frame = Ok frame' ->
  frame' = frame /\ (empty_apply_raises = true -> frame <> []).
Proof.
  unfold assign_Y_Label. destruct frame as [|r frame].
  - destruct empty_apply_raises; [discriminate|]. by intros [= <-].
  - by intros [= <-].
Qed.

Lemma process_dataframe_unfold raw :
  process_dataframe raw
  = match normalize raw with
    | Ok df =>
        match assign_Y_Label (regular_rows df) with
        | Ok reg =>
            match assign_Y_Label (milestone_rows df) with
            | Ok mil => Ok (df, reg, mil)
            | Raise e => Raise e
            end
        | Raise e => Raise e
        end
    | Raise e => Raise e
    end.
Proof.
  unfold process_dataframe. destruct (normalize raw) as [df|e]; [|done].
  cbv beta iota delta [mbind result_bind].
  by rewrite (select_frames_eq df).
Qed.

(** A run of [process_dataframe] returns the normalised frame and its
    regular and milestone rows, when both label columns can be assigned. *)
Lemma process_dataframe_inv raw df reg mil :
  process_dataframe raw = Ok (df, reg, mil) ->
  normalize raw = Ok df /\ reg = regular_rows df /\ mil = milestone_rows df /\
  frames_assignable df.
Proof.
  rewrite process_dataframe_unfold.
  destruct (normalize raw) as [df'|] eqn:Hn; [|discriminate].
  destruct (assign_Y_Label (regular_rows df')) as [reg'|] eqn:Hr; [|discriminate].
  destruct (assign_Y_Label (milestone_rows df')) as [mil'|] eqn:Hm; [|discriminate].
  intros [= <- <- <-].
  apply assign_Y_Label_Ok in Hr as [-> Hr], Hm as [-> Hm].
  split; [done|]. split; [done|]. split; [done|].
  intros Hb. split; auto.
Qed.

Lemma process_dataframe_intro raw df :
  normalize raw = Ok df -> frames_assignable df ->
  process_dataframe raw = Ok (df, regular_rows df, milestone_rows df).
Proof.
  intros Hn Ha. rewrite process_dataframe_unfold, Hn.
  unfold assign_Y_Label, frames_assignable in *.
  destruct empty_apply_raises.
  - destruct Ha as [Hr Hm]; [done|].
    destruct (regular_rows df); [done|]. by destruct (milestone_rows df).
  - destruct (regular_rows df); by destruct (milestone_rows df).
Qed.

(** If [process_dataframe] raises after the normalisation, a label column
    could not be assigned. *)
Lemma process_dataframe_raise_inv raw df e :
  normalize raw = Ok df -> process_dataframe raw = Raise e ->
  e = ValueError /\ empty_apply_raises = true /\
  (regular_rows df = [] \/ milestone_rows df = []).
Proof.
  intros Hn. rewrite process_dataframe_unfold, Hn. unfold assign_Y_Label.
  destruct (regular_rows df) as [|r reg].
  - destruct empty_apply_raises; simpl.
    + intros [= <-]. auto.
    + destruct (milestone_rows df); discriminate.
  - simpl. destruct (milestone_rows df) as [|m mil]; [|discriminate].
    destruct empty_apply_raises; simpl; [|discriminate].
    intros [= <-]. auto.
Qed.

(** What a successful run of [process_dataframe] returns. *)
Lemma process_dataframe_Ok raw df reg mil :
  process_dataframe raw = Ok (df, reg, mil) ->
  exists ss fs ds,
    Forall2 (fun rr s => raw_Start_Date rr = Parsable s) raw ss /\
    Forall2 (fun rr f => raw_Finish_Date rr = Parsable f) raw fs /\
    Forall2 (fun rr d => astype_int (str_extract (raw_Duration rr)) = Ok d) raw ds /\
    df = assemble 1 raw ss fs ds /\
    reg = filter (fun r => Duration_days r <> 0) (visible_rows df) /\
    mil = filter (fun r => Duration_days r = 0) (visible_rows df).
Proof.
  intros (Hn & -> & -> & _)%process_dataframe_inv.
  destruct (normalize_Ok _ _ Hn) as (ss & fs & ds & ? & ? & ? & ?).
  by exists ss, fs, ds.
Qed.

(** ** The collapse loop *)

Lemma collapse_step_hide st r :
  indices_to_hide (collapse_step st r)
  = if hidden_by st r then {[ index r ]} ∪ indices_to_hide st
    else indices_to_hide st.
Proof.
  unfold collapse_step, hidden_by.
  destruct (Not_appear r), (is_collapsing st); simpl; try done.
  by destruct (parent_outline_level st <? Outline_Level r).
Qed.

Lemma collapse_fold_mono l st i :
  i ∈ indices_to_hide st -> i ∈ indices_to_hide (fold_left collapse_step l st).
Proof.
  revert st. induction l as [|r l IH]; intros st Hi; simpl; [done|].
  apply IH. rewrite collapse_step_hide. destruct (hidden_by st r); set_solver.
Qed.

Lemma collapse_fold_subset l st i :
  i ∈ indices_to_hide (fold_left collapse_step l st) ->
  i ∈ indices_to_hide st \/ i ∈ index <$> l.
Proof.
  revert st. induction l as [|r l IH]; intros st Hi; simpl in *; [by left|].
  destruct (IH _ Hi) as [H|H].
  - rewrite collapse_step_hide in H.
    destruct (hidden_by st r); [|by left].
    apply elem_of_union in H as [H|H]; [|by left].
    apply elem_of_singleton in H as ->. right. csimpl. left.
  - right. csimpl. by right.
Qed.

Lemma collapse_loop_subset l i :
  i ∈ indices_to_hide (collapse_loop l) -> i ∈ index <$> l.
Proof.
  intros H. destruct (collapse_fold_subset _ _ _ H) as [H'|H']; [|done].
  by apply not_elem_of_empty in H'.
Qed.

(** With distinct indices a row is hidden exactly when the loop, in the
    state it has reached before the row, hides it. *)
Lemma hidden_iff pre r suf :
  NoDup (index <$> (pre ++ r :: suf)) ->
  index r ∈ indices_to_hide (collapse_loop (pre ++ r :: suf))
  <-> hidden_by (collapse_loop pre) r = true.
Proof.
  intros Hnd. unfold collapse_loop. rewrite fold_left_app. simpl.
  fold (collapse_loop pre).
  rewrite fmap_app, fmap_cons in Hnd.
  apply NoDup_app in Hnd as (_ & Hpre & Hsuf).
  apply NoDup_cons in Hsuf as [Hsuf _].
  split.
  - intros H. apply collapse_fold_subset in H as [H|H]; [|done].
    rewrite collapse_step_hide in H.
    destruct (hidden_by (collapse_loop pre) r); [done|].
    apply collapse_loop_subset in H. exfalso. apply (Hpre _ H). left.
  - intros H. apply collapse_fold_mono. rewrite collapse_step_hide, H. set_solver.
Qed.

Lemma spec_collapse_step_refines st r :
  spec_collapse_step (spec_state st) (Not_appear r) (Outline_Level r)
  = (spec_state (collapse_step st r), hidden_by st r).
Proof.
  unfold spec_collapse_step, spec_state, collapse_step, hidden_by.
  destruct (Not_appear r), (is_collapsing st) eqn:Hc; simpl; try done.
  - by destruct (parent_outline_level st <? Outline_Level r).
  - by rewrite Hc.
Qed.

Lemma spec_collapse_scan_refines pre r suf st :
  spec_collapse_scan (spec_state st)
    ((fun r => (Not_appear r, Outline_Level r)) <$> (pre ++ r :: suf))
    !! length pre
  = Some (hidden_by (fold_left collapse_step pre st) r).
Proof.
  revert st. induction pre as [|a pre IH]; intros st; csimpl.
  - by rewrite spec_collapse_step_refines.
  - rewrite spec_collapse_step_refines. simpl. apply IH.
Qed.

Lemma lookup_split {A} (l : list A) k x :
  l !! k = Some x -> exists pre suf, l = pre ++ x :: suf /\ length pre = k.
Proof.
  intros H. exists (take k l), (drop (S k) l). split.
  - by rewrite take_drop_middle.
  - apply length_take_le. apply lookup_lt_Some in H. lia.
Qed.

(** The loop hides the row at position [k] exactly when the scan of the
    specification does. *)
Lemma collapse_loop_refines df k r :
  NoDup (index <$> df) -> df !! k = Some r ->
  index r ∈ indices_to_hide (collapse_loop df)
  <-> spec_collapse_scan None ((fun r => (Not_appear r, Outline_Level r)) <$> df)
        !! k = Some true.
Proof.
  intros Hnd Hk. destruct (lookup_split _ _ _ Hk) as (pre & suf & -> & <-).
  rewrite hidden_iff by done.
  change None with (spec_state collapse_init).
  rewrite spec_collapse_scan_refines. fold (collapse_loop pre).
  split; [by intros ->|by intros [=]].
Qed.

Lemma normalize_NoDup raw df : normalize raw = Ok df -> NoDup (index <$> df).
Proof.
  intros H. apply normalize_Ok in H as (ss & fs & ds & _ & _ & _ & ->).
  apply sorted_index_NoDup, assemble_sorted.
Qed.

Lemma normalize_flags raw df :
  normalize raw = Ok df ->
  (fun r => (Not_appear r, Outline_Level r)) <$> df
  = (fun rr => (raw_Not_appear rr, raw_Outline_Level rr)) <$> raw.
Proof.
  intros H. apply normalize_Ok in H as (ss & fs & ds & Hs & Hf & Hd & ->).
  apply Forall2_length in Hs, Hf, Hd. by apply assemble_flags.
Qed.

Lemma process_dataframe_NoDup raw df reg mil :
  process_dataframe raw = Ok (df, reg, mil) -> NoDup (index <$> df).
Proof. intros (Hn & _)%process_dataframe_inv. by eapply normalize_NoDup. Qed.

Lemma elem_of_select_frames df r :
  r ∈ (select_frames df).1 ++ (select_frames df).2 <-> r ∈ df /\ visible df r.
Proof.
  rewrite select_frames_eq. simpl.
  unfold regular_rows, milestone_rows, visible_rows.
  rewrite elem_of_app, !list_elem_of_filter.
  destruct (decide (Duration_days r = 0)); tauto.
Qed.

(** C1. The collapse filter is a single forward pass with the state
    (collapsing, parentLevel) over the rows in their original order: the
    loop of [process_dataframe] hides the row at a position exactly when
    the scan written from the specification ([spec_collapse_step]: a row
    with hideDescendants sets the state to its own level and stays visible;
    while collapsing a deeper row is hidden and a row at or above the parent
    level ends the collapse and is not hidden) marks that position, and the
    rows of the two frames are the rows of allowed level that the loop did
    not hide.  For levels [1,2,3,2,1] with hideDescendants on row 2, row 3
    is the only hidden row and row 4 is in the frames. *)
Theorem C1_collapse_single_forward_pass :
  (forall raw df,
     normalize raw = Ok df ->
     (forall k r, df !! k = Some r ->
        index r ∈ indices_to_hide (collapse_loop df)
        <-> spec_collapse_scan None
              ((fun rr => (raw_Not_appear rr, raw_Outline_Level rr)) <$> raw)
              !! k = Some true) /\
     (forall r, r ∈ (select_frames df).1 ++ (select_frames df).2 <->
        r ∈ df /\ Outline_Level r ∈ selected_outline_levels /\
        index r ∉ indices_to_hide (collapse_loop df))) /\
  (forall raw df,
     normalize raw = Ok df ->
     raw_Outline_Level <$> raw = [1; 2; 3; 2; 1] ->
     raw_Not_appear <$> raw = [false; true; false; false; false] ->
     indices_to_hide (collapse_loop df) = {[ 3 ]} /\
     (forall r, r ∈ (select_frames df).1 ++ (select_frames df).2 -> index r <> 3) /\
     (exists r, r ∈ (select_frames df).1 ++ (select_frames df).2 /\
                index r = 4 /\ Outline_Level r = 2)).
Proof.
  split.
  - intros raw df H. split.
    + intros k r Hk. rewrite <- (normalize_flags _ _ H).
      apply collapse_loop_refines; [|done]. by eapply normalize_NoDup.
    + intros r. by rewrite elem_of_select_frames.
  - intros raw df H Hl Hn.
    assert (indices_to_hide (collapse_loop df) = {[ 3 ]} /\
            exists r, r ∈ df /\ index r = 4 /\ Outline_Level r = 2) as [Hhide Hr].
    { apply normalize_Ok in H as (ss & fs & ds & Hs & Hf & Hd & ->).
      apply Forall2_length in Hs, Hf, Hd.
      destruct raw as [|r1 [|r2 [|r3 [|r4 [|r5 [|]]]]]]; try discriminate Hl.
      destruct ss as [|s1 [|s2 [|s3 [|s4 [|s5 [|]]]]]]; try discriminate Hs.
      destruct fs as [|f1 [|f2 [|f3 [|f4 [|f5 [|]]]]]]; try discriminate Hf.
      destruct ds as [|d1 [|d2 [|d3 [|d4 [|d5 [|]]]]]]; try discriminate Hd.
      injection Hl as Hl1 Hl2 Hl3 Hl4 Hl5. injection Hn as Hn1 Hn2 Hn3 Hn4 Hn5.
      split.
      - unfold collapse_loop, collapse_step. simpl.
        rewrite Hn1, Hn2, Hn3, Hn4, Hn5, Hl2, Hl3, Hl4. simpl. set_solver.
      - exists (make_row 4 r4 s4 f4 d4). split; [|done].
        simpl. do 3 right. left. }
    split; [done|]. split.
    + intros r (_ & _ & Hv)%elem_of_select_frames.
      rewrite Hhide in Hv. intros Hi. apply Hv. rewrite Hi. by apply elem_of_singleton.
    + destruct Hr as (r & Hin & Hi & Hlv). exists r. split; [|done].
      apply elem_of_select_frames. split; [done|]. split.
      * rewrite Hlv. unfold selected_outline_levels. right. left.
      * rewrite Hhide, Hi. by intros [=]%elem_of_singleton.
Qed.

Lemma elem_of_frames raw df reg mil r :
  process_dataframe raw = Ok (df, reg, mil) ->
  r ∈ reg ++ mil <-> r ∈ df /\ visible df r.
Proof.
  intros (_ & -> & -> & _)%process_dataframe_inv.
  rewrite <- elem_of_select_frames. by rewrite select_frames_eq.
Qed.

Ltac list_assoc := repeat (rewrite <- app_assoc; simpl); reflexivity.

Lemma collapse_loop_snoc pre r :
  collapse_loop (pre ++ [r]) = collapse_step (collapse_loop pre) r.
Proof. unfold collapse_loop. by rewrite fold_left_app. Qed.

Lemma collapse_loop_app pre l :
  collapse_loop (pre ++ l) = fold_left collapse_step l (collapse_loop pre).
Proof. unfold collapse_loop. by rewrite fold_left_app. Qed.

Lemma collapse_step_marker st r :
  Not_appear r = true ->
  is_collapsing (collapse_step st r) = true /\
  parent_outline_level (collapse_step st r) = Outline_Level r /\
  indices_to_hide (collapse_step st r) = indices_to_hide st.
Proof. intros H. unfold collapse_step. by rewrite H. Qed.

(** Unmarked rows deeper than the parent keep the loop collapsing. *)
Lemma collapse_descendants mid st :
  is_collapsing st = true ->
  Forall (fun m => Not_appear m = false /\
                   parent_outline_level st < Outline_Level m) mid ->
  is_collapsing (fold_left collapse_step mid st) = true /\
  parent_outline_level (fold_left collapse_step mid st) = parent_outline_level st.
Proof.
  revert st. induction mid as [|m mid IH]; intros st Hc Hall; simpl; [done|].
  apply Forall_cons in Hall as [[Hm Hlt] Hall].
  assert (is_collapsing (collapse_step st m) = true /\
          parent_outline_level (collapse_step st m) = parent_outline_level st)
    as [Hc' Hp'].
  { unfold collapse_step. rewrite Hm, Hc.
    by rewrite (proj2 (Z.ltb_lt _ _) Hlt). }
  destruct (IH (collapse_step st m)) as [? ?]; [done| |].
  - by rewrite Hp'.
  - split; [done|]. congruence.
Qed.

(** C10. A row marked hideDescendants is never hidden by the collapse rule,
    whatever the state of the scan when it is reached, also inside an active
    collapse span and at a deeper level than the current parent.  After such
    a row the scan is collapsing with the row's own level as parent level.
    So once the unmarked rows deeper than the marked row have been hidden,
    the next unmarked row at the marked row's level or above it ends the
    collapse and is not hidden, also when it lies deeper than the parent
    level of an outer collapse that was active before the marked row. *)
Theorem C10_marker_row_resets_parent_level raw df :
  normalize raw = Ok df ->
  (forall r, r ∈ df -> Not_appear r = true ->
     index r ∉ indices_to_hide (collapse_loop df)) /\
  (forall pre r suf, df = pre ++ r :: suf -> Not_appear r = true ->
     is_collapsing (collapse_loop (pre ++ [r])) = true /\
     parent_outline_level (collapse_loop (pre ++ [r])) = Outline_Level r) /\
  (forall pre r mid r' suf,
     df = pre ++ r :: mid ++ r' :: suf ->
     Not_appear r = true ->
     Forall (fun m => Not_appear m = false /\
                      Outline_Level r < Outline_Level m) mid ->
     Not_appear r' = false ->
     Outline_Level r' <= Outline_Level r ->
     Forall (fun m => index m ∈ indices_to_hide (collapse_loop df)) mid /\
     (index r' ∉ indices_to_hide (collapse_loop df)) /\
     is_collapsing (collapse_loop (pre ++ r :: mid ++ [r'])) = false).
Proof.
  intros H. pose proof (normalize_NoDup _ _ H) as Hnd.
  split; [|split].
  - intros r Hin Hr.
    apply list_elem_of_split in Hin as (pre & suf & ->).
    rewrite hidden_iff by done. unfold hidden_by. by rewrite Hr.
  - intros pre r suf _ Hr. rewrite collapse_loop_snoc.
    by destruct (collapse_step_marker (collapse_loop pre) r Hr) as (? & ? & _).
  - intros pre r mid r' suf -> Hr Hmid Hr' Hle.
    destruct (collapse_step_marker (collapse_loop pre) r Hr) as (Hc & Hp & _).
    assert (forall mid1,
              collapse_loop (pre ++ r :: mid1)
              = fold_left collapse_step mid1 (collapse_step (collapse_loop pre) r))
      as Hloop.
    { intros mid1. by rewrite (collapse_loop_app pre (r :: mid1)). }
    split; [|split].
    + apply Forall_forall. intros m Hm.
      apply list_elem_of_split in Hm as (mid1 & mid2 & ->).
      apply Forall_app in Hmid as [Hmid1 Hmid2].
      apply Forall_cons in Hmid2 as [[Hm Hlt] _].
      replace (pre ++ r :: (mid1 ++ m :: mid2) ++ r' :: suf)
        with ((pre ++ r :: mid1) ++ m :: (mid2 ++ r' :: suf)) in *
        by list_assoc.
      rewrite hidden_iff by done. rewrite Hloop.
      destruct (collapse_descendants mid1 (collapse_step (collapse_loop pre) r))
        as [Hc1 Hp1]; [done|by rewrite Hp|].
      unfold hidden_by. rewrite Hm, Hc1, Hp1, Hp. simpl.
      by apply Z.ltb_lt.
    + replace (pre ++ r :: mid ++ r' :: suf)
        with ((pre ++ r :: mid) ++ r' :: suf) in *
        by list_assoc.
      rewrite hidden_iff by done. rewrite Hloop.
      destruct (collapse_descendants mid (collapse_step (collapse_loop pre) r))
        as [Hc1 Hp1]; [done|by rewrite Hp|].
      unfold hidden_by. rewrite Hr', Hc1, Hp1, Hp. simpl.
      intros Hlt%Z.ltb_lt. lia.
    + replace (pre ++ r :: mid ++ [r']) with ((pre ++ r :: mid) ++ [r'])
        by list_assoc.
      rewrite collapse_loop_snoc, Hloop.
      destruct (collapse_descendants mid (collapse_step (collapse_loop pre) r))
        as [Hc1 Hp1]; [done|by rewrite Hp|].
      unfold collapse_step at 1. rewrite Hr', Hc1, Hp1, Hp.
      by rewrite (proj2 (Z.ltb_ge _ _) Hle).
Qed.

(** ** sort_index *)

Lemma insert_by_index_head a l :
  StronglySorted index_lt (a :: l) -> insert_by_index a l = a :: l.
Proof.
  intros H. apply StronglySorted_inv in H as [_ H].
  destruct l as [|b l]; [done|]. simpl.
  apply Forall_cons in H as [H _]. unfold index_lt in H.
  by rewrite (proj2 (Z.leb_le _ _)) by lia.
Qed.

Lemma insert_by_index_comm a b l :
  index a <> index b ->
  insert_by_index a (insert_by_index b l) = insert_by_index b (insert_by_index a l).
Proof.
  intros Hab. induction l as [|c l IH]; simpl.
  - destruct (Z.leb_spec (index a) (index b)), (Z.leb_spec (index b) (index a));
      try done; lia.
  - destruct (Z.leb_spec (index b) (index c)), (Z.leb_spec (index a) (index c));
      simpl;
      repeat match goal with
        | |- context [ ?x <=? ?y ] => destruct (Z.leb_spec x y); try lia
        end; try done.
    by rewrite IH.
Qed.

Lemma sort_index_middle X a Y :
  (forall x, x ∈ X -> index x <> index a) ->
  sort_index (X ++ a :: Y) = insert_by_index a (sort_index (X ++ Y)).
Proof.
  intros HX. induction X as [|x X IH]; [done|]. simpl.
  rewrite IH by (intros y Hy; apply HX; by right).
  apply insert_by_index_comm. apply HX. left.
Qed.

(** Two complementary selections of a frame, concatenated and sorted by
    index, give the frame back. *)
Lemma sort_index_partition (P Q : Row -> Prop)
    `{!forall x, Decision (P x), !forall x, Decision (Q x)} l :
  (forall x, Q x <-> ~ P x) ->
  StronglySorted index_lt l ->
  sort_index (filter P l ++ filter Q l) = l.
Proof.
  intros HPQ. induction 1 as [|a l Hl IH Hall]; [done|].
  rewrite !filter_cons.
  assert (insert_by_index a l = a :: l) as Hins
    by (apply insert_by_index_head; by constructor).
  destruct (decide (P a)) as [Ha|Ha].
  - rewrite decide_False by (rewrite HPQ; tauto).
    simpl. fold (sort_index (filter P l ++ filter Q l)). by rewrite IH.
  - rewrite decide_True by (by apply HPQ).
    rewrite sort_index_middle, IH; [done|].
    intros x [_ Hx]%list_elem_of_filter.
    rewrite Forall_forall in Hall. specialize (Hall x Hx).
    unfold index_lt in Hall. lia.
Qed.

(** ** drop_duplicates *)

Lemma drop_duplicates_from_ext s1 s2 l :
  (forall x, x ∈ s1 <-> x ∈ s2) ->
  drop_duplicates_from s1 l = drop_duplicates_from s2 l.
Proof.
  revert s1 s2. induction l as [|a l IH]; intros s1 s2 Hs; simpl; [done|].
  rewrite (bool_decide_ext _ _ (Hs a)).
  destruct (bool_decide (a ∈ s2)); [by apply IH|].
  f_equal. apply IH. intros x. rewrite !elem_of_cons, Hs. tauto.
Qed.

Lemma drop_duplicates_from_app seen l1 l2 :
  drop_duplicates_from seen (l1 ++ l2)
  = drop_duplicates_from seen l1 ++ drop_duplicates_from (l1 ++ seen) l2.
Proof.
  revert seen. induction l1 as [|a l1 IH]; intros seen; simpl; [done|].
  destruct (bool_decide (a ∈ seen)) eqn:Ha.
  - rewrite IH. f_equal. apply drop_duplicates_from_ext.
    apply bool_decide_eq_true in Ha.
    intros x. rewrite elem_of_cons, !elem_of_app.
    split; [tauto|]. intros [->|H]; tauto.
  - simpl. f_equal. rewrite IH. f_equal. apply drop_duplicates_from_ext.
    intros x. rewrite elem_of_cons, !elem_of_app, elem_of_cons. tauto.
Qed.

Lemma elem_of_drop_duplicates_from seen l x :
  x ∈ drop_duplicates_from seen l <-> x ∈ l /\ x ∉ seen.
Proof.
  revert seen. induction l as [|a l IH]; intros seen; simpl.
  - rewrite elem_of_nil. tauto.
  - destruct (bool_decide (a ∈ seen)) eqn:Ha.
    + apply bool_decide_eq_true in Ha. rewrite IH, elem_of_cons.
      split; [tauto|]. intros [[->|H] Hn]; tauto.
    + apply bool_decide_eq_false in Ha.
      rewrite !elem_of_cons, IH, elem_of_cons.
      split.
      * intros [->|[H Hn]]; tauto.
      * intros [[->|H] Hn]; [by left|].
        destruct (decide (x = a)); tauto.
Qed.

Lemma NoDup_drop_duplicates_from seen l : NoDup (drop_duplicates_from seen l).
Proof.
  revert seen. induction l as [|a l IH]; intros seen; simpl; [constructor|].
  destruct (bool_decide (a ∈ seen)); [done|].
  constructor; [|done].
  rewrite elem_of_drop_duplicates_from, elem_of_cons. tauto.
Qed.

Lemma elem_of_drop_duplicates l x : x ∈ drop_duplicates l <-> x ∈ l.
Proof.
  unfold drop_duplicates. rewrite elem_of_drop_duplicates_from, elem_of_nil. tauto.
Qed.

(** A value that appears for the first time comes right after the distinct
    values that appeared before it. *)
Lemma drop_duplicates_first l1 x l2 :
  x ∉ l1 ->
  drop_duplicates (l1 ++ x :: l2) !! length (drop_duplicates l1) = Some x.
Proof.
  intros Hx. unfold drop_duplicates. rewrite drop_duplicates_from_app. simpl.
  rewrite bool_decide_eq_false_2 by (by rewrite app_nil_r).
  by rewrite list_lookup_middle.
Qed.

(** ** The position dictionary *)

Lemma label_positions_from l n (m : gmap string nat) x i :
  NoDup l ->
  fold_left (fun m p => <[ p.2 := p.1 ]> m) (enumerate_from n l) m !! x = Some i
  <-> (exists j, l !! j = Some x /\ i = (n + j)%nat) \/ ((x ∉ l) /\ m !! x = Some i).
Proof.
  intros Hnd. revert n m. induction Hnd as [|a l Ha Hnd IH]; intros n m; simpl.
  - split; [intros H; right; split; [apply not_elem_of_nil|done]|].
    intros [(j & Hj & _)|[_ H]]; [done|done].
  - rewrite IH. split.
    + intros [(j & Hj & ->)|[Hx Hm]].
      * left. exists (S j). split; [done|lia].
      * destruct (decide (x = a)) as [->|Hne].
        -- rewrite lookup_insert_eq in Hm. injection Hm as <-.
           left. exists 0%nat. split; [done|lia].
        -- rewrite lookup_insert_ne in Hm by done.
           right. split; [|done]. rewrite elem_of_cons. tauto.
    + intros [(j & Hj & ->)|[Hx Hm]].
      * destruct j as [|j]; simpl in Hj.
        -- injection Hj as ->. right. split; [done|].
           rewrite lookup_insert_eq. f_equal. lia.
        -- left. exists j. split; [done|lia].
      * rewrite elem_of_cons in Hx. right. split; [tauto|].
        rewrite lookup_insert_ne by (intros ->; tauto). done.
Qed.

Lemma label_positions_lookup l x i :
  NoDup l -> label_positions l !! x = Some i <-> l !! i = Some x.
Proof.
  intros Hnd. unfold label_positions, enumerate.
  rewrite label_positions_from by done. simpl. split.
  - by intros [(j & Hj & ->)|[_ H]].
  - intros H. left. by exists i.
Qed.

(** ** create_gantt_chart never raises on the frames of a run *)

Lemma rmap_pure {A B} (f : A -> result B) (g : A -> B) l :
  (forall a, a ∈ l -> f a = Ok (g a)) -> rmap f l = Ok (g <$> l).
Proof.
  induction l as [|a l IH]; intros H; simpl; [done|].
  rewrite (H a) by left. simpl. rewrite IH by (intros; apply H; by right). done.
Qed.

Lemma find_row_Some frame k r :
  find_row frame k = Some r -> r ∈ frame /\ index r = k.
Proof.
  unfold find_row. intros H. apply head_Some_elem_of in H.
  apply list_elem_of_filter in H. tauto.
Qed.

Lemma find_row_None frame k :
  find_row frame k = None <-> k ∉ index <$> frame.
Proof.
  unfold find_row. rewrite head_None. split.
  - intros H (r & -> & Hr)%list_elem_of_fmap.
    assert (r ∈ filter (fun r' => index r' = index r) frame) as Hin
      by (by apply list_elem_of_filter).
    rewrite H in Hin. by apply elem_of_nil in Hin.
  - intros H. apply elem_of_nil_inv. intros r [Hr Hin]%list_elem_of_filter.
    apply H. apply list_elem_of_fmap. by exists r.
Qed.

Lemma find_row_unique frame r :
  NoDup (index <$> frame) -> r ∈ frame -> find_row frame (index r) = Some r.
Proof.
  unfold find_row. induction frame as [|a l IH]; csimpl; intros Hnd Hin.
  - by apply elem_of_nil in Hin.
  - apply NoDup_cons in Hnd as [Ha Hnd]. rewrite filter_cons.
    apply elem_of_cons in Hin as [->|Hin]; [by rewrite decide_True|].
    rewrite decide_False; [by apply IH|].
    intros Heq. apply Ha. rewrite Heq. apply list_elem_of_fmap. by exists r.
Qed.

Lemma predecessor_data_eq reg mil k :
  predecessor_data reg mil k = Ok (visible_predecessor reg mil k).
Proof.
  unfold predecessor_data, visible_predecessor, in_index, loc.
  fold (find_row reg k). fold (find_row mil k).
  destruct (find_row reg k) as [r|] eqn:Hr.
  - rewrite bool_decide_eq_true_2; [done|].
    apply find_row_Some in Hr as [Hin <-]. apply list_elem_of_fmap. by exists r.
  - rewrite bool_decide_eq_false_2 by (by apply find_row_None).
    destruct (find_row mil k) as [r|] eqn:Hm.
    + rewrite bool_decide_eq_true_2; [done|].
      apply find_row_Some in Hm as [Hin <-]. apply list_elem_of_fmap. by exists r.
    + by rewrite bool_decide_eq_false_2 by (by apply find_row_None).
Qed.

Lemma visible_predecessor_Some reg mil k pred :
  visible_predecessor reg mil k = Some pred ->
  pred ∈ reg ++ mil /\ index pred = k.
Proof.
  unfold visible_predecessor. rewrite elem_of_app.
  destruct (find_row reg k) as [r|] eqn:Hr.
  - intros [= <-]. apply find_row_Some in Hr. tauto.
  - intros Hm. apply find_row_Some in Hm. tauto.
Qed.

Lemma visible_predecessor_None reg mil k :
  visible_predecessor reg mil k = None <-> k ∉ index <$> (reg ++ mil).
Proof.
  unfold visible_predecessor. rewrite fmap_app, elem_of_app.
  destruct (find_row reg k) as [r|] eqn:Hr.
  - split; [done|]. intros H. exfalso. apply H. left.
    apply find_row_Some in Hr as [Hin <-]. apply list_elem_of_fmap. by exists r.
  - apply find_row_None in Hr. rewrite find_row_None. tauto.
Qed.

(** The visible rows of a run in index order. *)
Lemma sort_index_frames raw df reg mil :
  process_dataframe raw = Ok (df, reg, mil) ->
  sort_index (reg ++ mil) = visible_rows df.
Proof.
  intros H. apply process_dataframe_Ok in H as (ss & fs & ds & _ & _ & _ & -> & -> & ->).
  apply sort_index_partition.
  - intros x. split; [by intros -> ?|]. intros Hx.
    destruct (decide (Duration_days x = 0)); tauto.
  - apply sorted_filter, assemble_sorted.
Qed.

Lemma getitem_visible raw df reg mil r :
  process_dataframe raw = Ok (df, reg, mil) ->
  r ∈ reg ++ mil ->
  getitem (positions reg mil) (Y_Label r) = Ok (position_of (positions reg mil) r).
Proof.
  intros H Hr. unfold getitem, position_of, positions.
  assert (Y_Label r ∈ drop_duplicates (Y_Label <$> sort_index (reg ++ mil))) as Hin.
  { apply elem_of_drop_duplicates, list_elem_of_fmap. exists r. split; [done|].
    rewrite (sort_index_frames _ _ _ _ H).
    apply (elem_of_frames _ _ _ _ r H) in Hr as [Hdf Hv].
    by apply list_elem_of_filter. }
  apply list_elem_of_lookup in Hin as [i Hi].
  apply label_positions_lookup in Hi; [|apply NoDup_drop_duplicates_from].
  by rewrite Hi.
Qed.

Lemma dependency_traces_of_eq raw df reg mil row :
  process_dataframe raw = Ok (df, reg, mil) ->
  row ∈ reg ->
  dependency_traces_of (positions reg mil) df reg mil row
  = Ok (connectors_of (positions reg mil) reg mil row).
Proof.
  intros H Hrow. unfold dependency_traces_of.
  assert (row ∈ reg ++ mil) as Hvis by (apply elem_of_app; by left).
  rewrite (getitem_visible _ _ _ _ row H Hvis). simpl.
  unfold loc. fold (find_row df (index row)).
  rewrite find_row_unique.
  - simpl. rewrite (rmap_pure _ (fun k =>
        match visible_predecessor reg mil k with
        | Some pred => [connector (positions reg mil) row pred]
        | None => []
        end)); [done|].
    intros k _. unfold dependency_trace. rewrite predecessor_data_eq. simpl.
    destruct (visible_predecessor reg mil k) as [pred|] eqn:Hp; [|done].
    apply visible_predecessor_Some in Hp as [Hp _].
    by rewrite (getitem_visible _ _ _ _ pred H Hp).
  - by eapply process_dataframe_NoDup.
  - by apply (elem_of_frames _ _ _ _ row H) in Hvis as [? _].
Qed.

(** On the frames of a run the chart is built without an exception, and it
    is the chart [chart_of]. *)
Lemma create_gantt_chart_eq raw df reg mil :
  process_dataframe raw = Ok (df, reg, mil) ->
  create_gantt_chart df reg mil = Ok (chart_of df reg mil).
Proof.
  intros H. unfold create_gantt_chart. fold (positions reg mil).
  rewrite (rmap_pure _ (fun r => (bar_rect (positions reg mil) r,
                                  hover_trace (positions reg mil) r))).
  2:{ intros r Hr. unfold bar_of.
      by rewrite (getitem_visible _ _ _ _ r H) by (apply elem_of_app; by left). }
  simpl.
  assert (milestone_traces (positions reg mil) mil
          = Ok (marker_traces (positions reg mil) mil)) as ->.
  { unfold milestone_traces, marker_traces. destruct mil as [|a mil']; [done|].
    set (mil := a :: mil') in *. simpl Nat.ltb. cbv iota.
    rewrite (rmap_pure _ (fun l => default 0%nat (positions reg mil !! l))).
    - simpl. unfold marker_trace. by rewrite <- list_fmap_compose.
    - intros l (r & -> & Hr)%list_elem_of_fmap.
      apply (getitem_visible _ _ _ _ r H). apply elem_of_app. by right. }
  simpl.
  rewrite (rmap_pure _ (connectors_of (positions reg mil) reg mil))
    by (intros row Hrow; by apply (dependency_traces_of_eq raw)).
  simpl. unfold chart_of. f_equal. f_equal.
  - f_equal. by rewrite <- list_fmap_compose.
  - by rewrite <- list_fmap_compose.
Qed.

Lemma main_eq raw df reg mil :
  process_dataframe raw = Ok (df, reg, mil) ->
  main raw = Ok (chart_of df reg mil, stats_of df reg mil).
Proof.
  intros H. unfold main. rewrite H. simpl.
  by rewrite (create_gantt_chart_eq _ _ _ _ H).
Qed.

Lemma main_Ok raw fig st :
  main raw = Ok (fig, st) ->
  exists df reg mil,
    process_dataframe raw = Ok (df, reg, mil) /\
    fig = chart_of df reg mil /\ st = stats_of df reg mil.
Proof.
  intros H. destruct (process_dataframe raw) as [[[df reg] mil]|e] eqn:Hp.
  - rewrite (main_eq _ _ _ _ Hp) in H. injection H as <- <-. by exists df, reg, mil.
  - unfold main in H. rewrite Hp in H. discriminate.
Qed.

(** ** Normalisation: when it raises and what it computes *)

Lemma take_digits_split s :
  exists rest, s = take_digits s +:+ rest /\ starts_without_digit rest = true.
Proof.
  induction s as [|c s (rest & IH & Hr)]; [by exists EmptyString|].
  simpl. destruct (is_digit c) eqn:Hc.
  - exists rest. split; [|done]. exact (f_equal (String c) IH).
  - exists (String c s). split; [done|]. simpl. by rewrite Hc.
Qed.

Lemma str_extract_first s ds :
  str_extract s = Some ds -> first_integer s (decimal ds).
Proof.
  revert ds. induction s as [|c s IH]; intros ds H; [done|].
  pose proof (str_extract_Some _ _ H) as [Hd Hne].
  simpl in H. destruct (is_digit c) eqn:Hc.
  - injection H as H. destruct (take_digits_split (String c s)) as (rest & Hs & Hr).
    assert (take_digits (String c s) = ds) as Ht by (simpl; by rewrite Hc).
    rewrite Ht in Hs. by exists EmptyString, ds, rest.
  - destruct (IH _ H) as (pre & ds' & rest & -> & Hp & Hd' & Hne' & Hr & He).
    exists (String c pre), ds', rest. repeat split; try done.
    simpl. by rewrite Hc.
Qed.

Lemma digit_value_range c : is_digit c = true -> 0 <= digit_value c <= 9.
Proof.
  unfold is_digit, digit_value. intros [H1 H2]%andb_true_iff.
  apply Nat.leb_le in H1, H2. lia.
Qed.

Lemma decimal_from_nonneg ds acc :
  all_digits ds = true -> 0 <= acc -> 0 <= decimal_from acc ds.
Proof.
  revert acc. induction ds as [|c ds IH]; intros acc Hd Hacc; simpl; [done|].
  apply andb_true_iff in Hd as [Hc Hd].
  pose proof (digit_value_range c Hc). apply IH; [done|lia].
Qed.

Lemma first_integer_unique s d d' :
  first_integer s d -> first_integer s d' -> d = d'.
Proof.
  intros (pre & ds & rest & -> & Hp & Hd & Hne & Hr & ->)
         (pre' & ds' & rest' & Heq & Hp' & Hd' & Hne' & Hr' & ->).
  pose proof (str_extract_app pre ds rest Hp Hd Hne Hr) as H1.
  pose proof (str_extract_app pre' ds' rest' Hp' Hd' Hne' Hr') as H2.
  rewrite <- Heq in H2. congruence.
Qed.

Lemma first_integer_digit s d : first_integer s d -> no_digit s = false.
Proof.
  intros (pre & ds & rest & -> & Hp & Hd & Hne & Hr & _).
  destruct (no_digit (pre +:+ ds +:+ rest)) eqn:Hn; [|done].
  apply str_extract_None in Hn.
  by rewrite (str_extract_app pre ds rest Hp Hd Hne Hr) in Hn.
Qed.

(** The cast of the first match, case by case. *)
Lemma astype_int_cases s :
  (no_digit s = true /\ astype_int (str_extract s) = Raise IntCastingNaNError) \/
  (exists d, first_integer s d /\ 0 <= d /\
     ((d <= int64_max /\ astype_int (str_extract s) = Ok d) \/
      (int64_max < d /\ astype_int (str_extract s) = Raise OverflowError))).
Proof.
  unfold astype_int. destruct (str_extract s) as [ds|] eqn:Hs; simpl.
  - right. destruct (str_extract_Some _ _ Hs) as [Hd Hne].
    rewrite py_int_all_digits by done. exists (decimal ds).
    split; [by apply str_extract_first|].
    pose proof (decimal_from_nonneg ds 0 Hd ltac:(done)) as Hge.
    fold (decimal ds) in Hge. split; [done|].
    assert ((int64_min <=? decimal ds) = true) as ->
      by (apply Z.leb_le; unfold int64_min; lia).
    simpl. destruct (decimal ds <=? int64_max) eqn:Hle.
    + left. by apply Z.leb_le in Hle.
    + right. apply Z.leb_gt in Hle. done.
  - left. split; [|done]. destruct (no_digit s) eqn:Hn; [done|].
    destruct (str_extract s) eqn:Hs'; [done|].
    exfalso. clear Hs. revert Hs' Hn. induction s as [|c s IH]; [done|].
    simpl. destruct (is_digit c); [done|]. simpl. exact IH.
Qed.

Lemma astype_int_Ok s d :
  astype_int (str_extract s) = Ok d ->
  no_digit s = false /\ first_integer s d.
Proof.
  destruct (astype_int_cases s) as [[_ ->]|(d' & Hf & _ & [[_ ->]|[_ ->]])];
    try done.
  intros [= <-]. split; [by eapply first_integer_digit|done].
Qed.

Lemma astype_int_bound s d :
  astype_int (str_extract s) = Ok d -> 0 <= d <= int64_max.
Proof.
  destruct (astype_int_cases s) as [[_ ->]|(d' & Hf & ? & [[? ->]|[_ ->]])];
    try done.
  by intros [= <-].
Qed.

Lemma astype_int_fits s :
  fits_int64 s -> exists d, astype_int (str_extract s) = Ok d.
Proof.
  intros (d & Hd & Hle).
  destruct (astype_int_cases s) as [[Hn _]|(d' & Hf & _ & [[_ H]|[Hgt _]])].
  - apply first_integer_digit in Hd. congruence.
  - by exists d'.
  - rewrite (first_integer_unique _ _ _ Hd Hf) in Hle. lia.
Qed.

Lemma astype_int_raise s e :
  astype_int (str_extract s) = Raise e ->
  (e = IntCastingNaNError /\ no_digit s = true) \/
  (e = OverflowError /\ exists d, first_integer s d /\ int64_max < d).
Proof.
  destruct (astype_int_cases s) as [[Hn ->]|(d & Hf & _ & [[_ ->]|[Hgt ->]])];
    intros [= <-]; [left|right]; [done|].
  split; [done|]. by exists d.
Qed.

Lemma normalize_rows raw df :
  normalize raw = Ok df ->
  Forall2 (fun rr r =>
             exists i s f d,
               raw_Start_Date rr = Parsable s /\ raw_Finish_Date rr = Parsable f /\
               astype_int (str_extract (raw_Duration rr)) = Ok d /\
               r = make_row i rr s f d) raw df.
Proof.
  intros H. apply normalize_Ok in H as (ss & fs & ds & Hs & Hf & Hd & ->).
  apply Forall2_same_length_lookup_2.
  - symmetry. apply assemble_length; symmetry; by eapply Forall2_length.
  - intros k rr r Hrr Hr.
    apply assemble_lookup in Hr as (rr' & s & f & d & Hrr' & Hsk & Hfk & Hdk & ->).
    assert (rr' = rr) as -> by congruence.
    exists (1 + Z.of_nat k), s, f, d. repeat split.
    + by eapply (Forall2_lookup_lr _ _ _ _ _ _ Hs).
    + by eapply (Forall2_lookup_lr _ _ _ _ _ _ Hf).
    + by eapply (Forall2_lookup_lr _ _ _ _ _ _ Hd).
Qed.

Lemma normalize_total raw : Forall convertible raw -> is_ok (normalize raw).
Proof.
  intros Hall. unfold normalize, to_datetime.
  destruct (rmap_total
    (fun c => match c with
              | Parsable t => Ok t
              | Unparsable => Raise (DateParseError "Start_Date")
              end) (raw_Start_Date <$> raw)) as [ss ->].
  { apply Forall_fmap. eapply Forall_impl; [exact Hall|].
    intros rr (Hs & _ & _). simpl. destruct (raw_Start_Date rr); [by eexists|done]. }
  destruct (rmap_total
    (fun c => match c with
              | Parsable t => Ok t
              | Unparsable => Raise (DateParseError "Finish_Date")
              end) (raw_Finish_Date <$> raw)) as [fs ->].
  { apply Forall_fmap. eapply Forall_impl; [exact Hall|].
    intros rr (_ & Hf & _). simpl. destruct (raw_Finish_Date rr); [by eexists|done]. }
  destruct (rmap_total astype_int (str_extract <$> (raw_Duration <$> raw)))
    as [ds ->].
  { apply Forall_fmap, Forall_fmap. eapply Forall_impl; [exact Hall|].
    intros rr (_ & _ & Hd). simpl. by apply astype_int_fits. }
  simpl. by eexists.
Qed.

Lemma normalize_raises raw e : normalize raw = Raise e -> parse_error e.
Proof.
  unfold normalize, to_datetime, parse_error.
  destruct (rmap _ (raw_Start_Date <$> raw)) as [ss|e1] eqn:Hs.
  - destruct (rmap _ (raw_Finish_Date <$> raw)) as [fs|e2] eqn:Hf.
    + destruct (rmap astype_int _) as [ds|e3] eqn:Hd; simpl; [done|].
      intros [= <-]. right. right.
      apply (rmap_raise_kind _ (fun e => e = IntCastingNaNError \/ e = OverflowError))
        in Hd; [done|].
      intros o e' _. unfold astype_int.
      destruct (o ≫= py_int) as [n|]; [|intros [=]; by left].
      destruct (_ && _); intros [=]. by right.
    + simpl. intros [= <-]. right. left.
      apply (rmap_raise_kind _ (fun e => e = DateParseError "Finish_Date")) in Hf;
        [done|].
      intros c e' _. by destruct c; intros [=].
  - simpl. intros [= <-]. left.
    apply (rmap_raise_kind _ (fun e => e = DateParseError "Start_Date")) in Hs;
      [done|].
    intros c e' _. by destruct c; intros [=].
Qed.

Lemma normalize_parsable raw df : normalize raw = Ok df -> Forall parsable raw.
Proof.
  intros H. apply normalize_rows in H.
  apply Forall_forall. intros rr Hrr.
  apply list_elem_of_lookup in Hrr as [k Hk].
  destruct (Forall2_lookup_l _ _ _ _ _ H Hk) as (r & _ & i & s & f & d & Hs & Hf & Hd & _).
  unfold parsable. rewrite Hs, Hf. repeat split; try done.
  by apply astype_int_Ok in Hd as [? _].
Qed.

Lemma normalize_convertible raw df :
  normalize raw = Ok df -> Forall convertible raw.
Proof.
  intros H. apply normalize_rows in H.
  apply Forall_forall. intros rr Hrr.
  apply list_elem_of_lookup in Hrr as [k Hk].
  destruct (Forall2_lookup_l _ _ _ _ _ H Hk) as (r & _ & i & s & f & d & Hs & Hf & Hd & _).
  unfold convertible. rewrite Hs, Hf. repeat split; try done.
  exists d. split; [by apply astype_int_Ok in Hd as [_ ?]|].
  by apply astype_int_bound in Hd as [_ ?].
Qed.


(** The run raises exactly what [process_dataframe] raises. *)
Lemma main_raise raw e :
  main raw = Raise e -> process_dataframe raw = Raise e.
Proof.
  destruct (process_dataframe raw) as [[[df reg] mil]|e'] eqn:Hp.
  - by rewrite (main_eq _ _ _ _ Hp).
  - unfold main. rewrite Hp. simpl. by intros [= ->].
Qed.

Lemma main_total raw df :
  normalize raw = Ok df -> frames_assignable df ->
  main raw = Ok (chart_of df (regular_rows df) (milestone_rows df),
                 stats_of df (regular_rows df) (milestone_rows df)).
Proof. intros Hn Ha. by apply main_eq, process_dataframe_intro. Qed.

Lemma convertible_or_not rr :
  convertible rr \/
  raw_Start_Date rr = Unparsable \/ raw_Finish_Date rr = Unparsable \/
  no_digit (raw_Duration rr) = true \/
  (exists d, first_integer (raw_Duration rr) d /\ int64_max < d).
Proof.
  destruct (raw_Start_Date rr) as [s|] eqn:Hs; [|by right; left].
  destruct (raw_Finish_Date rr) as [f|] eqn:Hf; [|by right; right; left].
  destruct (astype_int_cases (raw_Duration rr))
    as [[Hn _]|(d & Hd & _ & [[Hle _]|[Hgt _]])].
  - by right; right; right; left.
  - left. unfold convertible. rewrite Hs, Hf. repeat split; try done. by exists d.
  - right; right; right; right. by exists d.
Qed.

Lemma convertible_task n s f d lvl p h ds :
  str_extract d = Some ds -> decimal ds <= int64_max ->
  convertible (task n s f d lvl p h).
Proof.
  intros Hs Hle. repeat split; try done.
  exists (decimal ds). split; [by apply str_extract_first|done].
Qed.

(** C8, amended. If a Start_Date or a Finish_Date of any row does not
    parse, or the Duration of any row has no digit, or the first integer in
    the Duration of any row is above 2^63 - 1, the whole run raises one of
    the errors of the conversions and so returns neither a chart nor stats.
    Every row is of one of these kinds or convertible.  When all rows are
    convertible the normalisation returns its frame, in which the
    Duration_days of every row is the value of the first run of digits of
    its Duration string, the run raises no error of the conversions, and it
    returns a chart whenever the label columns of both frames can be
    assigned. *)
Theorem C8_parse_errors_are_fatal :
  (forall raw rr,
     rr ∈ raw ->
     raw_Start_Date rr = Unparsable \/ raw_Finish_Date rr = Unparsable \/
     no_digit (raw_Duration rr) = true \/
     (exists d, first_integer (raw_Duration rr) d /\ int64_max < d) ->
     exists e, main raw = Raise e /\ parse_error e) /\
  (forall rr,
     convertible rr \/
     raw_Start_Date rr = Unparsable \/ raw_Finish_Date rr = Unparsable \/
     no_digit (raw_Duration rr) = true \/
     (exists d, first_integer (raw_Duration rr) d /\ int64_max < d)) /\
  (forall raw,
     Forall convertible raw ->
     exists df,
       normalize raw = Ok df /\
       Forall2 (fun rr r =>
                  Duration r = raw_Duration rr /\
                  first_integer (raw_Duration rr) (Duration_days r) /\
                  forall d, first_integer (raw_Duration rr) d -> d = Duration_days r)
         raw df /\
       (forall e, main raw = Raise e -> ~ parse_error e) /\
       (frames_assignable df -> exists fig st, main raw = Ok (fig, st))).
Proof.
  split; [|split; [exact convertible_or_not|]].
  - intros raw rr Hin Hbad.
    destruct (normalize raw) as [df|e] eqn:Hn.
    + exfalso. apply normalize_convertible in Hn.
      rewrite Forall_forall in Hn.
      destruct (Hn rr Hin) as (Hs & Hf & d & Hd & Hle).
      destruct Hbad as [H|[H|[H|(d' & Hd' & Hgt)]]]; try congruence.
      * apply first_integer_digit in Hd. congruence.
      * rewrite (first_integer_unique _ _ _ Hd Hd') in Hle. lia.
    + exists e. split; [|by eapply normalize_raises].
      unfold main. rewrite process_dataframe_unfold, Hn. done.
  - intros raw Hall. destruct (normalize_total raw Hall) as [df Hn].
    exists df. split; [done|]. split; [|split].
    + eapply Forall2_impl; [by eapply normalize_rows|].
      intros rr r (i & s & f & d & _ & _ & Hd & ->). simpl. split; [done|].
      apply astype_int_Ok in Hd as [_ Hd]. split; [done|].
      intros d' Hd'. by eapply first_integer_unique.
    + intros e He%main_raise.
      destruct (process_dataframe_raise_inv _ _ _ Hn He) as (-> & _ & _).
      unfold parse_error. by intros [|[|[|]]].
    + intros Ha. eexists _, _. by apply main_total.
Qed.

(** ** Bars *)

Lemma normalize_lookup raw df :
  normalize raw = Ok df ->
  length df = length raw /\
  forall k rr, raw !! k = Some rr ->
    exists s f d,
      raw_Start_Date rr = Parsable s /\ raw_Finish_Date rr = Parsable f /\
      astype_int (str_extract (raw_Duration rr)) = Ok d /\
      df !! k = Some (make_row (1 + Z.of_nat k) rr s f d).
Proof.
  intros H. apply normalize_Ok in H as (ss & fs & ds & Hs & Hf & Hd & ->).
  assert (length (assemble 1 raw ss fs ds) = length raw) as Hlen
    by (apply assemble_length; symmetry; by eapply Forall2_length).
  split; [done|]. intros k rr Hk.
  destruct (lookup_lt_is_Some_2 (assemble 1 raw ss fs ds) k) as [r Hr].
  { rewrite Hlen. by eapply lookup_lt_Some. }
  pose proof Hr as Hr'.
  apply assemble_lookup in Hr' as (rr' & s & f & d & Hrr' & Hsk & Hfk & Hdk & ->).
  assert (rr' = rr) as -> by congruence.
  exists s, f, d. repeat split; [| |  |done].
  - by eapply (Forall2_lookup_lr _ _ _ _ _ _ Hs).
  - by eapply (Forall2_lookup_lr _ _ _ _ _ _ Hf).
  - by eapply (Forall2_lookup_lr _ _ _ _ _ _ Hd).
Qed.

(** A run returns a chart exactly when every row is convertible and both
    label columns can be assigned. *)
Lemma main_Ok_iff raw :
  (exists fig st, main raw = Ok (fig, st))
  <-> Forall convertible raw /\ frames_assignable (frame_of raw).
Proof.
  split.
  - intros (fig & st & (df & reg & mil & Hp & _)%main_Ok).
    apply process_dataframe_inv in Hp as (Hn & _ & _ & Ha).
    split; [by eapply normalize_convertible|]. unfold frame_of. by rewrite Hn.
  - intros [Hp Ha]. destruct (normalize_total _ Hp) as [df Hn].
    unfold frame_of in Ha. rewrite Hn in Ha.
    eexists _, _. by apply main_total.
Qed.

(** *** The selection does not read the dates *)

Lemma collapse_step_same st r r' :
  same_selection r r' -> collapse_step st r = collapse_step st r'.
Proof. intros (Hi & Hl & Hn & _). unfold collapse_step. by rewrite Hi, Hl, Hn. Qed.

Lemma collapse_loop_same df df' :
  Forall2 same_selection df df' -> collapse_loop df = collapse_loop df'.
Proof.
  intros H. unfold collapse_loop. generalize collapse_init.
  induction H as [|r r' df df' Hr _ IH]; intros st; [done|].
  simpl. rewrite (collapse_step_same st r r' Hr). apply IH.
Qed.

Lemma Forall2_filter_same {A} (R : A -> A -> Prop) (P Q : A -> Prop)
    `{!forall x, Decision (P x)} `{!forall x, Decision (Q x)} l l' :
  Forall2 R l l' -> (forall x y, R x y -> P x <-> Q y) ->
  Forall2 R (filter P l) (filter Q l').
Proof.
  intros Hall HPQ. induction Hall as [|x y l l' Hxy _ IH]; [constructor|].
  rewrite !filter_cons. specialize (HPQ x y Hxy).
  destruct (decide (P x)), (decide (Q y)); try tauto. by constructor.
Qed.

Lemma frames_same df df' :
  Forall2 same_selection df df' ->
  Forall2 same_selection (regular_rows df) (regular_rows df') /\
  Forall2 same_selection (milestone_rows df) (milestone_rows df').
Proof.
  intros H.
  assert (Forall2 same_selection (visible_rows df) (visible_rows df')) as Hv.
  { apply Forall2_filter_same; [done|]. intros r r' (Hi & Hl & _).
    unfold visible. by rewrite (collapse_loop_same _ _ H), Hi, Hl. }
  split; (apply Forall2_filter_same; [done|]); intros r r' (_ & _ & _ & Hd);
    by rewrite Hd.
Qed.

Lemma normalize_same raw raw' df df' :
  Forall2 same_but_dates raw raw' ->
  normalize raw = Ok df -> normalize raw' = Ok df' ->
  Forall2 same_selection df df'.
Proof.
  intros H Hn Hn'.
  destruct (normalize_lookup _ _ Hn) as [Hlen Hrow].
  destruct (normalize_lookup _ _ Hn') as [Hlen' Hrow'].
  apply Forall2_same_length_lookup_2.
  - rewrite Hlen, Hlen'. by eapply Forall2_length.
  - intros k r r' Hr Hr'.
    destruct (lookup_lt_is_Some_2 raw k) as [rr Hrr].
    { rewrite <- Hlen. by eapply lookup_lt_Some. }
    destruct (Forall2_lookup_l _ _ _ _ _ H Hrr)
      as (rr' & Hrr' & _ & Hdur & Hlvl & _ & Hna & _).
    destruct (Hrow _ _ Hrr) as (s & f & d & _ & _ & Hd & Hk).
    destruct (Hrow' _ _ Hrr') as (s' & f' & d' & _ & _ & Hd' & Hk').
    rewrite Hk in Hr. rewrite Hk' in Hr'. injection Hr as <-. injection Hr' as <-.
    rewrite <- Hdur, Hd in Hd'. injection Hd' as <-.
    by repeat split.
Qed.

Lemma convertible_same raw raw' :
  Forall2 same_but_dates raw raw' -> Forall convertible raw ->
  Forall convertible raw'.
Proof.
  induction 1 as [|rr rr' raw raw' Hr _ IH]; [done|].
  intros [Hc Hall]%Forall_cons. constructor; [|by apply IH].
  destruct Hr as (_ & Hdur & _ & _ & _ & _ & _ & Hs & Hf).
  destruct Hc as (_ & _ & Hfit). unfold convertible. by rewrite <- Hdur.
Qed.

Lemma same_but_dates_sym raw raw' :
  Forall2 same_but_dates raw raw' -> Forall2 same_but_dates raw' raw.
Proof.
  intros H. apply Forall2_flip. eapply Forall2_impl; [exact H|].
  intros rr rr' (? & ? & ? & ? & ? & ? & ? & ? & ?). by repeat split.
Qed.

Lemma main_same_one_way raw raw' :
  Forall2 same_but_dates raw raw' ->
  (exists fig st, main raw = Ok (fig, st)) ->
  exists fig st, main raw' = Ok (fig, st).
Proof.
  intros H [Hc Ha]%main_Ok_iff. apply main_Ok_iff.
  pose proof (convertible_same _ _ H Hc) as Hc'. split; [done|].
  destruct (normalize_total _ Hc) as [df Hn].
  destruct (normalize_total _ Hc') as [df' Hn'].
  unfold frame_of in *. rewrite Hn in Ha. rewrite Hn'.
  destruct (frames_same _ _ (normalize_same _ _ _ _ H Hn Hn')) as [Hreg Hmil].
  apply Forall2_length in Hreg, Hmil.
  intros He. destruct (Ha He) as [Hr Hm]. split.
  - intros Hnil. rewrite Hnil in Hreg. by destruct (regular_rows df).
  - intros Hnil. rewrite Hnil in Hmil. by destruct (milestone_rows df).
Qed.

(** C9. A row whose finish lies before its start is not rejected: no step
    of the run compares the two dates.  A sheet whose dates all parse
    completes exactly when the sheet with any other parsable dates in their
    place completes, so putting the dates of a backwards row in order
    changes nothing; it completes whenever every row is convertible and the
    label columns of both frames can be assigned.  In a run that completes,
    a row of the sheet with start s, finish f and f < s is the row of the
    frame at the same place with Start_Date s, Finish_Date f and a negative
    Plot_Duration, and when it is a visible regular row the chart has its
    bar with x0 = s and x1 = f, so of negative width. *)
Theorem C9_backwards_row_keeps_its_bar raw :
  (forall raw',
     Forall2 same_but_dates raw raw' ->
     (exists fig st, main raw = Ok (fig, st))
     <-> (exists fig st, main raw' = Ok (fig, st))) /\
  (Forall convertible raw -> frames_assignable (frame_of raw) ->
   exists fig st, main raw = Ok (fig, st)) /\
  (forall fig st k rr s f,
     main raw = Ok (fig, st) ->
     raw !! k = Some rr ->
     raw_Start_Date rr = Parsable s -> raw_Finish_Date rr = Parsable f ->
     f < s ->
     exists r,
       frame_of raw !! k = Some r /\
       Start_Date r = s /\ Finish_Date r = f /\ Plot_Duration r < 0 /\
       (r ∈ regular_rows (frame_of raw) ->
        exists b, b ∈ shapes fig /\ x0 b = s /\ x1 b = f /\ x1 b < x0 b)).
Proof.
  split; [|split].
  - intros raw' H. split; [by apply main_same_one_way|].
    apply main_same_one_way. by apply same_but_dates_sym.
  - intros Hc Ha. apply main_Ok_iff. by split.
  - intros fig st k rr s f (df & reg & mil & Hp & -> & _)%main_Ok Hk Hs Hf Hlt.
    apply process_dataframe_inv in Hp as (Hn & -> & -> & _).
    destruct (normalize_lookup _ _ Hn) as [_ Hrow].
    destruct (Hrow _ _ Hk) as (s' & f' & d & Hs' & Hf' & _ & Hr).
    assert (s' = s) as -> by congruence. assert (f' = f) as -> by congruence.
    unfold frame_of. rewrite Hn. eexists. split; [exact Hr|].
    simpl. split; [done|]. split; [done|]. split.
    + unfold days. apply Z.div_lt_upper_bound; [done|]. lia.
    + intros Hreg. eexists (bar_rect _ _). split.
      * simpl. apply list_elem_of_fmap. eexists. split; [reflexivity|exact Hreg].
      * simpl. done.
Qed.

(** ** Milestones and bars *)

Lemma filter_is_marker_hover m reg :
  List.filter is_marker_trace (hover_trace m <$> reg) = [].
Proof. induction reg as [|r reg IH]; [done|]. csimpl. exact IH. Qed.

Lemma filter_is_marker_connectors m reg mil rows :
  List.filter is_marker_trace (concat (connectors_of m reg mil <$> rows)) = [].
Proof.
  induction rows as [|row rows IH]; [done|]. csimpl.
  rewrite List.filter_app, IH, app_nil_r. unfold connectors_of.
  induction (Parsed_Predecessors row) as [|k ks IHk]; [done|]. csimpl.
  rewrite List.filter_app, IHk, app_nil_r.
  by destruct (visible_predecessor reg mil k).
Qed.

Lemma frames_kinds raw df reg mil :
  process_dataframe raw = Ok (df, reg, mil) ->
  forall r, (r ∈ reg <-> r ∈ df /\ visible df r /\ Duration_days r <> 0) /\
            (r ∈ mil <-> r ∈ df /\ visible df r /\ Duration_days r = 0).
Proof.
  intros H r.
  apply process_dataframe_Ok in H as (ss & fs & ds & _ & _ & _ & _ & -> & ->).
  unfold visible_rows. rewrite !list_elem_of_filter. tauto.
Qed.

(** C5. A row is a milestone exactly when its Duration_days is 0: the
    visible rows with Duration_days = 0 are the milestone rows and the other
    visible rows are the regular rows.  The run returns a chart whenever the
    label columns of both frames can be assigned.  In the chart of a run the
    bars are the bars of the regular rows, one each and in their order, so
    no milestone has a bar; the marker traces are one diamond trace with the
    points (finish, position) of the milestone rows, and no regular row
    among them, when there is a visible milestone.  Without a visible
    milestone the guard of the marker trace is reached, and there is no
    marker trace, only if the assignment of the label column on the empty
    milestone frame does not raise; when it raises, as with pandas, the run
    raises ValueError and returns no chart at all. *)
Theorem C5_milestones_are_markers_only raw df :
  normalize raw = Ok df ->
  (forall r, r ∈ df -> visible df r ->
     (Duration_days r = 0 -> r ∈ milestone_rows df /\ r ∉ regular_rows df) /\
     (Duration_days r <> 0 -> r ∈ regular_rows df /\ r ∉ milestone_rows df)) /\
  Forall (fun r => Duration_days r <> 0) (regular_rows df) /\
  Forall (fun r => Duration_days r = 0) (milestone_rows df) /\
  (frames_assignable df -> exists fig st, main raw = Ok (fig, st)) /\
  (forall fig st,
     main raw = Ok (fig, st) ->
     let m := positions (regular_rows df) (milestone_rows df) in
     shapes fig = bar_rect m <$> regular_rows df /\
     (forall r, r ∈ regular_rows df ++ milestone_rows df ->
        m !! Y_Label r = Some (position_of m r)) /\
     (milestone_rows df <> [] ->
        List.filter is_marker_trace (traces fig)
        = [MilestoneTrace "diamond" (Finish_Date <$> milestone_rows df)
             (position_of m <$> milestone_rows df) (Name <$> milestone_rows df)]) /\
     (milestone_rows df = [] ->
        empty_apply_raises = false /\
        List.filter is_marker_trace (traces fig) = [])) /\
  (empty_apply_raises = true -> milestone_rows df = [] ->
   main raw = Raise ValueError).
Proof.
  intros Hn.
  assert (forall r,
            (r ∈ regular_rows df <-> r ∈ df /\ visible df r /\ Duration_days r <> 0) /\
            (r ∈ milestone_rows df <-> r ∈ df /\ visible df r /\ Duration_days r = 0))
    as Hk.
  { intros r. unfold regular_rows, milestone_rows, visible_rows.
    rewrite !list_elem_of_filter. tauto. }
  split; [|split; [|split; [|split; [|split]]]].
  - intros r Hr Hv. split; intros Hd; split; try (apply Hk; tauto).
    + intros H%Hk. tauto.
    + intros H%Hk. tauto.
  - apply Forall_forall. intros r Hr%Hk. tauto.
  - apply Forall_forall. intros r Hr%Hk. tauto.
  - intros Ha. eexists _, _. by apply main_total.
  - intros fig st (df' & reg & mil & Hp & -> & ->)%main_Ok.
    pose proof (process_dataframe_inv _ _ _ _ Hp) as (Hn' & -> & -> & Ha).
    assert (df' = df) as -> by congruence.
    assert (List.filter is_marker_trace
              (traces (chart_of df (regular_rows df) (milestone_rows df)))
            = marker_traces (positions (regular_rows df) (milestone_rows df))
                (milestone_rows df)) as Hm.
    { simpl. rewrite !List.filter_app, filter_is_marker_hover,
        filter_is_marker_connectors, app_nil_r. simpl.
      by destruct (milestone_rows df). }
    cbv zeta. split; [reflexivity|]. split; [|split].
    + intros r Hr. pose proof (getitem_visible _ _ _ _ r Hp Hr) as Hg.
      unfold getitem, position_of in *.
      by destruct (positions (regular_rows df) (milestone_rows df) !! Y_Label r).
    + intros Hne. rewrite Hm. by destruct (milestone_rows df).
    + intros He. split; [|by rewrite Hm, He].
      unfold frames_assignable in Ha. destruct empty_apply_raises; [|done].
      by destruct Ha as [_ ?].
  - intros Hraise He. unfold main.
    rewrite process_dataframe_unfold, Hn, He. unfold assign_Y_Label.
    rewrite Hraise. by destruct (regular_rows df).
Qed.

(** ** Dependency connectors *)

Lemma filter_is_connector_hover m reg :
  List.filter is_connector (hover_trace m <$> reg) = [].
Proof. induction reg as [|r reg IH]; [done|]. csimpl. exact IH. Qed.

Lemma filter_is_connector_markers m mil :
  List.filter is_connector (marker_traces m mil) = [].
Proof. by destruct mil. Qed.

Lemma filter_is_connector_connectors m reg mil rows :
  List.filter is_connector (concat (connectors_of m reg mil <$> rows))
  = concat (connectors_of m reg mil <$> rows).
Proof.
  induction rows as [|row rows IH]; [done|]. csimpl.
  rewrite List.filter_app, IH. f_equal. unfold connectors_of.
  induction (Parsed_Predecessors row) as [|k ks IHk]; [done|]. csimpl.
  rewrite List.filter_app, IHk. f_equal.
  by destruct (visible_predecessor reg mil k).
Qed.

Lemma elem_of_concat {A} (x : A) (ls : list (list A)) :
  x ∈ concat ls <-> exists l, x ∈ l /\ l ∈ ls.
Proof.
  rewrite list_elem_of_In, in_concat. split.
  - intros (l & Hl & Hx). exists l. by rewrite !list_elem_of_In.
  - intros (l & Hx & Hl). exists l. by rewrite <- !list_elem_of_In.
Qed.

Lemma elem_of_connectors_of m reg mil row t :
  t ∈ connectors_of m reg mil row ->
  exists pred,
    index pred ∈ Parsed_Predecessors row /\ pred ∈ reg ++ mil /\
    t = connector m row pred.
Proof.
  unfold connectors_of. intros (l & Hl & Ht)%elem_of_concat.
  apply list_elem_of_fmap in Ht as (k & -> & Hk).
  destruct (visible_predecessor reg mil k) as [pred|] eqn:Hp.
  - apply list_elem_of_singleton in Hl as ->.
    apply visible_predecessor_Some in Hp as [Hin <-]. by exists pred.
  - by apply elem_of_nil in Hl.
Qed.

Lemma length_connectors_of m reg mil row :
  length (connectors_of m reg mil row)
  = length (filter (fun k => k ∈ index <$> (reg ++ mil)) (Parsed_Predecessors row)).
Proof.
  unfold connectors_of.
  induction (Parsed_Predecessors row) as [|k ks IH]; [done|]. csimpl.
  rewrite length_app, IH, filter_cons.
  destruct (visible_predecessor reg mil k) as [pred|] eqn:Hp.
  - apply visible_predecessor_Some in Hp as [Hin <-].
    rewrite decide_True; [done|]. apply list_elem_of_fmap. by exists pred.
  - apply visible_predecessor_None in Hp. by rewrite decide_False.
Qed.

(** C3. Building the connectors raises nothing.  The connectors of the
    chart are those of the visible regular rows, in order.  Every connector
    joins a visible regular row, the dependent, to a visible row, regular or
    milestone, whose index is among the dependent's parsed predecessors; a
    milestone is never the dependent.  A regular row has one connector for
    each of its predecessor ids that is the index of a visible row, and none
    for an id that names no row or a row removed by the level or the
    collapse filter. *)
Theorem C3_connectors_join_visible_rows raw df reg mil :
  process_dataframe raw = Ok (df, reg, mil) ->
  exists fig st,
    main raw = Ok (fig, st) /\
    List.filter is_connector (traces fig)
    = concat (connectors_of (positions reg mil) reg mil <$> reg) /\
    (forall t, t ∈ traces fig -> is_connector t = true ->
       exists row pred,
         row ∈ df /\ visible df row /\ Duration_days row <> 0 /\
         pred ∈ df /\ visible df pred /\
         index pred ∈ Parsed_Predecessors row /\
         t = connector (positions reg mil) row pred) /\
    (forall row, row ∈ reg ->
       length (connectors_of (positions reg mil) reg mil row)
       = length (filter (fun k => k ∈ index <$> (reg ++ mil))
                   (Parsed_Predecessors row))) /\
    (forall row k, row ∈ reg -> k ∈ Parsed_Predecessors row ->
       k ∉ index <$> (reg ++ mil) ->
       forall t, t ∈ connectors_of (positions reg mil) reg mil row ->
         exists pred, t = connector (positions reg mil) row pred /\ index pred <> k).
Proof.
  intros H. exists (chart_of df reg mil), (stats_of df reg mil).
  split; [by apply main_eq|].
  assert (List.filter is_connector (traces (chart_of df reg mil))
          = concat (connectors_of (positions reg mil) reg mil <$> reg)) as Hc.
  { simpl. by rewrite !List.filter_app, filter_is_connector_hover,
      filter_is_connector_markers, filter_is_connector_connectors. }
  split; [done|]. split; [|split].
  - intros t Ht Hcon.
    assert (t ∈ List.filter is_connector (traces (chart_of df reg mil))) as Hin
      by (apply list_elem_of_In, filter_In; split; [by apply list_elem_of_In|done]).
    rewrite Hc in Hin. apply elem_of_concat in Hin as (l & Hl & Hrow).
    apply list_elem_of_fmap in Hrow as (row & -> & Hrow).
    apply elem_of_connectors_of in Hl as (pred & Hk & Hpred & ->).
    apply (frames_kinds _ _ _ _ H) in Hrow as (? & ? & ?).
    apply (elem_of_frames _ _ _ _ pred H) in Hpred as [? ?].
    by exists row, pred.
  - intros row _. apply length_connectors_of.
  - intros row k _ _ Hk t (pred & _ & Hpred & ->)%elem_of_connectors_of.
    exists pred. split; [done|]. intros <-. apply Hk.
    apply list_elem_of_fmap. by exists pred.
Qed.

(** ** Labels and positions *)

Lemma positions_lookup raw df reg mil r p :
  process_dataframe raw = Ok (df, reg, mil) ->
  positions reg mil !! Y_Label r = Some p
  <-> drop_duplicates (Y_Label <$> visible_rows df) !! p = Some (Y_Label r).
Proof.
  intros H. unfold positions. rewrite (sort_index_frames _ _ _ _ H).
  apply label_positions_lookup, NoDup_drop_duplicates_from.
Qed.

Lemma position_of_lookup raw df reg mil r :
  process_dataframe raw = Ok (df, reg, mil) -> r ∈ reg ++ mil ->
  drop_duplicates (Y_Label <$> visible_rows df) !! position_of (positions reg mil) r
  = Some (Y_Label r).
Proof.
  intros H Hr. apply (positions_lookup _ _ _ _ r _ H).
  pose proof (getitem_visible _ _ _ _ r H Hr) as Hg.
  unfold getitem, position_of in *.
  by destruct (positions reg mil !! Y_Label r).
Qed.

Lemma indent_repeat n s : repeat_nat "  " n +:+ s = indent n s.
Proof.
  induction n as [|n IH]; [done|]. cbn [indent]. rewrite <- IH. reflexivity.
Qed.

Lemma Y_Label_spec r : Y_Label r = spec_label r.
Proof. unfold Y_Label, spec_label, str_mul. apply indent_repeat. Qed.

Lemma before_first_Some l labels pre :
  before_first l labels = Some pre
  <-> exists suf, labels = pre ++ l :: suf /\ l ∉ pre.
Proof.
  revert pre. induction labels as [|x labels IH]; intros pre; simpl.
  - split; [done|]. intros (suf & Heq & _). by destruct pre.
  - destruct (decide (x = l)) as [->|Hne].
    + split.
      * intros [= <-]. exists labels. split; [done|]. apply not_elem_of_nil.
      * intros (suf & Heq & Hni). destruct pre as [|y pre]; [done|].
        simpl in Heq. injection Heq as -> _. exfalso. apply Hni. left.
    + split.
      * destruct (before_first l labels) as [pre'|]; [|done].
        intros [= <-]. destruct (proj1 (IH pre') eq_refl) as (suf & -> & Hni).
        exists suf. split; [done|]. by apply not_elem_of_cons.
      * intros (suf & Heq & Hni). destruct pre as [|y pre]; simpl in Heq.
        { injection Heq as -> _. done. }
        injection Heq as -> Heq. apply not_elem_of_cons in Hni as [_ Hni].
        by rewrite (proj2 (IH pre) (ex_intro _ suf (conj Heq Hni))).
Qed.

Lemma count_distinct_drop_duplicates labels :
  count_distinct labels = length (drop_duplicates labels).
Proof.
  unfold count_distinct.
  rewrite <- (size_list_to_set (C:=gset string) (drop_duplicates labels))
    by apply NoDup_drop_duplicates_from.
  f_equal. apply set_eq. intros x.
  by rewrite !elem_of_list_to_set, elem_of_drop_duplicates.
Qed.

(** The list that [drop_duplicates] gives holds each label at the position
    the specification assigns to it. *)
Lemma drop_duplicates_spec labels l p :
  drop_duplicates labels !! p = Some l <-> spec_position labels l = Some p.
Proof.
  unfold spec_position. split.
  - intros Hp.
    assert (l ∈ labels) as Hin
      by (apply elem_of_drop_duplicates; by eapply list_elem_of_lookup_2).
    apply list_elem_of_split_l in Hin as (pre & suf & -> & Hni).
    rewrite (proj2 (before_first_Some l _ pre)) by eauto. simpl. f_equal.
    rewrite count_distinct_drop_duplicates.
    eapply NoDup_lookup; [apply NoDup_drop_duplicates_from| |exact Hp].
    by apply drop_duplicates_first.
  - destruct (before_first l labels) as [pre|] eqn:Hb; [|done]. simpl.
    intros [= <-]. apply before_first_Some in Hb as (suf & -> & Hni).
    rewrite count_distinct_drop_duplicates. by apply drop_duplicates_first.
Qed.

Lemma marker_ys_filter ts :
  concat ((fun t => match t with
                    | MilestoneTrace _ _ y _ => y
                    | _ => []
                    end) <$> ts)
  = concat ((fun t => match t with
                      | MilestoneTrace _ _ y _ => y
                      | _ => []
                      end) <$> List.filter is_marker_trace ts).
Proof.
  induction ts as [|t ts IH]; [done|]. destruct t; csimpl; by rewrite IH.
Qed.

Lemma marker_ys_chart df reg mil :
  marker_ys (chart_of df reg mil) = position_of (positions reg mil) <$> mil.
Proof.
  unfold marker_ys. rewrite marker_ys_filter. simpl.
  rewrite !List.filter_app, filter_is_marker_hover, filter_is_marker_connectors,
    app_nil_r. simpl.
  destruct mil as [|r mil]; [done|]. csimpl. by rewrite app_nil_r.
Qed.

Lemma zip_fmap_option {A} (g : A -> nat) (l : list A) :
  (fun p => (p.1, Some p.2)) <$> zip l (g <$> l) = (fun r => (r, Some (g r))) <$> l.
Proof. induction l as [|a l IH]; [done|]. csimpl. by rewrite IH. Qed.

Lemma spec_position_visible raw df reg mil r :
  process_dataframe raw = Ok (df, reg, mil) -> r ∈ reg ++ mil ->
  spec_position (spec_label <$> visible_rows df) (spec_label r)
  = Some (position_of (positions reg mil) r).
Proof.
  intros H Hr. apply drop_duplicates_spec.
  rewrite <- Y_Label_spec.
  replace (spec_label <$> visible_rows df) with (Y_Label <$> visible_rows df)
    by (apply list_fmap_ext; intros; apply Y_Label_spec).
  by eapply position_of_lookup.
Qed.

(** C6. In the chart of a run every visible row, regular or milestone, is
    drawn once, at the position of its label, where the label of a row is
    two spaces for every level below the first followed by its name, the
    level and the name being those of the row of the sheet at the same
    place, and the position of a label is the number of distinct labels that
    appear before its first appearance among the visible rows taken in the
    order of the sheet.  The tick text at a position is the label with that
    position.  So two visible rows are drawn at the same position exactly
    when their labels are equal, and the first visible row is drawn at
    position 0. *)
Theorem C6_positions_by_first_appearance raw df reg mil :
  process_dataframe raw = Ok (df, reg, mil) ->
  Forall2 (fun rr r => Outline_Level r = raw_Outline_Level rr /\
                       Name r = raw_Name rr) raw df /\
  sort_index (reg ++ mil) = visible_rows df /\
  exists fig st,
    main raw = Ok (fig, st) /\
    (forall l p,
       ticktext fig !! p = Some l
       <-> spec_position (spec_label <$> visible_rows df) l = Some p) /\
    (fun p => (p.1, Some p.2)) <$> drawn_positions fig reg mil
    = (fun r => (r, spec_position (spec_label <$> visible_rows df) (spec_label r)))
        <$> (reg ++ mil) /\
    (forall r y, (r, y) ∈ drawn_positions fig reg mil ->
       ticktext fig !! y = Some (spec_label r)) /\
    (forall r y r' y',
       (r, y) ∈ drawn_positions fig reg mil ->
       (r', y') ∈ drawn_positions fig reg mil ->
       spec_label r = spec_label r' <-> y = y') /\
    (forall r rest, visible_rows df = r :: rest ->
       (r, 0%nat) ∈ drawn_positions fig reg mil).
Proof.
  intros H. pose proof (sort_index_frames _ _ _ _ H) as Hsort.
  set (labels := spec_label <$> visible_rows df).
  assert (Y_Label <$> visible_rows df = labels) as Hlabels
    by (apply list_fmap_ext; intros; apply Y_Label_spec).
  split; [|split; [done|]].
  { apply process_dataframe_inv in H as (Hn & _).
    eapply Forall2_impl; [by apply normalize_rows|].
    intros rr r (i & s & f & d & _ & _ & _ & ->). by simpl. }
  exists (chart_of df reg mil), (stats_of df reg mil).
  split; [by apply main_eq|].
  assert (forall l p,
            ticktext (chart_of df reg mil) !! p = Some l
            <-> spec_position labels l = Some p) as Hticks.
  { intros l p. simpl. rewrite Hsort, Hlabels. apply drop_duplicates_spec. }
  assert ((fun p => (p.1, Some p.2)) <$> drawn_positions (chart_of df reg mil) reg mil
          = (fun r => (r, spec_position labels (spec_label r))) <$> (reg ++ mil))
    as Heq.
  { unfold drawn_positions. rewrite marker_ys_chart. simpl shapes.
    rewrite <- list_fmap_compose, !fmap_app, !zip_fmap_option. simpl.
    rewrite <- !fmap_app. apply Forall_fmap_ext, Forall_forall. intros r Hr.
    simpl. f_equal. symmetry. exact (spec_position_visible _ _ _ _ r H Hr). }
  assert (forall r y,
            (r, y) ∈ drawn_positions (chart_of df reg mil) reg mil
            <-> r ∈ reg ++ mil /\ spec_position labels (spec_label r) = Some y)
    as Hdrawn.
  { intros r y. split.
    - intros Hin.
      assert ((r, Some y) ∈ (fun p : Row * nat => (p.1, Some p.2))
                <$> drawn_positions (chart_of df reg mil) reg mil) as Hin'
        by (apply list_elem_of_fmap; by exists (r, y)).
      rewrite Heq in Hin'.
      apply list_elem_of_fmap in Hin' as (r0 & [= -> Hy] & Hr0). by split.
    - intros [Hr Hy].
      assert ((r, Some y) ∈ (fun r => (r, spec_position labels (spec_label r)))
                <$> (reg ++ mil)) as Hin
        by (apply list_elem_of_fmap; exists r; by rewrite Hy).
      rewrite <- Heq in Hin.
      by apply list_elem_of_fmap in Hin as ([r0 y0] & [= -> ->] & Hin). }
  split; [done|]. split; [done|]. split; [|split].
  - intros r y [_ Hy]%Hdrawn. by apply Hticks.
  - intros r y r' y' [_ Hy]%Hdrawn [_ Hy']%Hdrawn. split.
    + intros Hl. rewrite Hl in Hy. congruence.
    + intros <-. apply Hticks in Hy, Hy'. congruence.
  - intros r rest Hv. apply Hdrawn. split.
    + apply (elem_of_frames _ _ _ _ r H).
      assert (r ∈ visible_rows df) as Hr by (rewrite Hv; left).
      apply list_elem_of_filter in Hr. tauto.
    + subst labels. rewrite Hv. unfold spec_position. simpl.
      by rewrite decide_True.
Qed.

(** ** Extremes, stats and the axis range *)

Lemma min_of_spec l : l <> [] -> exists m, min_of l = Some m /\ is_min m l.
Proof.
  induction l as [|x l IH]; [done|]. intros _. simpl.
  destruct l as [|y l].
  - exists x. split; [done|]. split; [left|].
    intros z Hz%list_elem_of_singleton. lia.
  - destruct IH as (m & -> & Hin & Hle); [done|].
    exists (Z.min x m). split; [done|]. split.
    + destruct (Z.min_spec x m) as [[_ ->]|[_ ->]]; [left|by right].
    + intros z [->|Hz]%elem_of_cons; [lia|]. specialize (Hle z Hz). lia.
Qed.

Lemma max_of_spec l : l <> [] -> exists m, max_of l = Some m /\ is_max m l.
Proof.
  induction l as [|x l IH]; [done|]. intros _. simpl.
  destruct l as [|y l].
  - exists x. split; [done|]. split; [left|].
    intros z Hz%list_elem_of_singleton. lia.
  - destruct IH as (m & -> & Hin & Hle); [done|].
    exists (Z.max x m). split; [done|]. split.
    + destruct (Z.max_spec x m) as [[_ ->]|[_ ->]]; [by right|left].
    + intros z [->|Hz]%elem_of_cons; [lia|]. specialize (Hle z Hz). lia.
Qed.

Lemma is_min_unique m m' l : is_min m l -> is_min m' l -> m = m'.
Proof. intros [H1 H2] [H3 H4]. specialize (H2 _ H3). specialize (H4 _ H1). lia. Qed.

Lemma is_max_unique m m' l : is_max m l -> is_max m' l -> m = m'.
Proof. intros [H1 H2] [H3 H4]. specialize (H2 _ H3). specialize (H4 _ H1). lia. Qed.

Lemma min_of_is_min m l : is_min m l -> min_of l = Some m.
Proof.
  intros H. destruct (min_of_spec l) as (m' & -> & H').
  - intros ->. destruct H as [H _]. by apply elem_of_nil in H.
  - f_equal. by eapply is_min_unique.
Qed.

Lemma max_of_is_max m l : is_max m l -> max_of l = Some m.
Proof.
  intros H. destruct (max_of_spec l) as (m' & -> & H').
  - intros ->. destruct H as [H _]. by apply elem_of_nil in H.
  - f_equal. by eapply is_max_unique.
Qed.

Lemma min_of_ext l1 l2 : (forall x, x ∈ l1 <-> x ∈ l2) -> min_of l1 = min_of l2.
Proof.
  intros Hext. destruct l1 as [|a l1].
  - destruct l2 as [|b l2]; [done|].
    exfalso. apply (not_elem_of_nil b), Hext. left.
  - destruct (min_of_spec (a :: l1)) as (m & -> & [Hin Hle]); [done|].
    symmetry. apply min_of_is_min. split; [by apply Hext|].
    intros x Hx. apply Hle. by apply Hext.
Qed.

Lemma max_of_ext l1 l2 : (forall x, x ∈ l1 <-> x ∈ l2) -> max_of l1 = max_of l2.
Proof.
  intros Hext. destruct l1 as [|a l1].
  - destruct l2 as [|b l2]; [done|].
    exfalso. apply (not_elem_of_nil b), Hext. left.
  - destruct (max_of_spec (a :: l1)) as (m & -> & [Hin Hle]); [done|].
    symmetry. apply max_of_is_max. split; [by apply Hext|].
    intros x Hx. apply Hle. by apply Hext.
Qed.

Lemma days_Timedelta d : days (Timedelta d) = d.
Proof. unfold days, Timedelta. by apply Z.div_mul. Qed.

Lemma process_dataframe_length raw df reg mil :
  process_dataframe raw = Ok (df, reg, mil) -> length df = length raw.
Proof.
  intros (Hn & _)%process_dataframe_inv.
  symmetry. by eapply Forall2_length, normalize_rows.
Qed.

(** C7. The stats of a run are the number of visible regular rows, the
    number of visible milestones, and the whole days of the span from the
    earliest start to the latest finish, both taken over every row of the
    input, the rows hidden by the level or the collapse filter included. *)
Theorem C7_stats raw df reg mil :
  process_dataframe raw = Ok (df, reg, mil) ->
  exists fig st,
    main raw = Ok (fig, st) /\
    regular_count st
    = length (filter (fun r => Duration_days r <> 0) (visible_rows df)) /\
    milestone_count st
    = length (filter (fun r => Duration_days r = 0) (visible_rows df)) /\
    length df = length raw /\
    (raw <> [] ->
     exists mx mn,
       is_max mx (Finish_Date <$> df) /\ is_min mn (Start_Date <$> df) /\
       project_duration st = Some (days (mx - mn))) /\
    (forall d, days (Timedelta d) = d).
Proof.
  intros H. exists (chart_of df reg mil), (stats_of df reg mil).
  split; [by apply main_eq|].
  pose proof (process_dataframe_length _ _ _ _ H) as Hlen.
  pose proof H as H'.
  apply process_dataframe_Ok in H' as (ss & fs & ds & _ & _ & _ & _ & -> & ->).
  split; [done|]. split; [done|]. split; [done|]. split; [|apply days_Timedelta].
  intros Hraw.
  assert (df <> []) as Hdf by (intros ->; by destruct raw).
  destruct (max_of_spec (Finish_Date <$> df)) as (mx & Hmx & ?);
    [by destruct df|].
  destruct (min_of_spec (Start_Date <$> df)) as (mn & Hmn & ?);
    [by destruct df|].
  exists mx, mn. split; [done|]. split; [done|].
  simpl. by rewrite Hmx, Hmn.
Qed.

(** C2, amended. The x-axis domain of the chart is
    [min(start) - 5 days, max(finish) + 30 days] with the minimum and the
    maximum taken over every row of the input, the hidden rows included;
    it is the domain over the visible rows when every row is visible.
    When the rows span 2024-01-01 to 2024-03-01 the bounds are 2023-12-27
    and 2024-03-31. *)
Theorem C2_axis_range_over_all_rows raw df reg mil :
  process_dataframe raw = Ok (df, reg, mil) ->
  exists fig st,
    main raw = Ok (fig, st) /\
    length df = length raw /\
    (raw <> [] ->
     exists mn mx,
       is_min mn (Start_Date <$> df) /\ is_max mx (Finish_Date <$> df) /\
       xaxis_range fig = (Some (mn - Timedelta 5), Some (mx + Timedelta 30))) /\
    (visible_rows df = df -> xaxis_range fig = spec_xaxis_range reg mil) /\
    (is_min (date 2024 1 1) (Start_Date <$> df) ->
     is_max (date 2024 3 1) (Finish_Date <$> df) ->
     xaxis_range fig = (Some (date 2023 12 27), Some (date 2024 3 31))).
Proof.
  intros H. exists (chart_of df reg mil), (stats_of df reg mil).
  split; [by apply main_eq|].
  pose proof (process_dataframe_length _ _ _ _ H) as Hlen.
  split; [done|]. split; [|split].
  - intros Hraw.
    assert (df <> []) as Hdf by (intros ->; by destruct raw).
    destruct (min_of_spec (Start_Date <$> df)) as (mn & Hmn & ?);
      [by destruct df|].
    destruct (max_of_spec (Finish_Date <$> df)) as (mx & Hmx & ?);
      [by destruct df|].
    exists mn, mx. split; [done|]. split; [done|].
    simpl. by rewrite Hmn, Hmx.
  - intros Hall. simpl. unfold spec_xaxis_range.
    assert (forall r, r ∈ reg ++ mil <-> r ∈ df) as Hin.
    { intros r. rewrite (elem_of_frames _ _ _ _ r H). split; [tauto|].
      intros Hr. split; [done|]. rewrite <- Hall in Hr.
      by apply list_elem_of_filter in Hr as [? _]. }
    f_equal; f_equal.
    + apply min_of_ext. intros x. rewrite !list_elem_of_fmap.
      split; intros (r & -> & Hr); exists r; (split; [done|]); by apply Hin.
    + apply max_of_ext. intros x. rewrite !list_elem_of_fmap.
      split; intros (r & -> & Hr); exists r; (split; [done|]); by apply Hin.
  - intros Hmn Hmx. simpl.
    by rewrite (min_of_is_min _ _ Hmn), (max_of_is_max _ _ Hmx).
Qed.

(** * Further properties of the pipeline *)

(** ** The check of the columns *)

Lemma filter_ext_in {A} (P Q : A -> Prop)
    `{!forall x, Decision (P x), !forall x, Decision (Q x)} (l : list A) :
  (forall x, x ∈ l -> P x <-> Q x) -> filter P l = filter Q l.
Proof.
  induction l as [|a l IH]; intros Hext; [done|]. rewrite !filter_cons.
  rewrite IH by (intros x Hx; apply Hext; by right).
  destruct (decide (P a)) as [Ha|Ha].
  - by rewrite decide_True by (apply Hext; [left|done]).
  - by rewrite decide_False by (rewrite <- Hext; [done|left]).
Qed.

Lemma missing_columns_nil columns :
  missing_columns columns = [] <-> forall c, c ∈ required_columns -> c ∈ columns.
Proof.
  unfold missing_columns. split.
  - intros H c Hc. destruct (decide (c ∈ columns)) as [|Hn]; [done|].
    assert (c ∈ filter (fun col => col ∉ columns) required_columns) as Hin
      by (by apply list_elem_of_filter).
    rewrite H in Hin. by apply elem_of_nil in Hin.
  - intros H. apply elem_of_nil_inv. intros c [Hn Hc]%list_elem_of_filter.
    by apply Hn, H.
Qed.

(** X1. No column is reported missing exactly when each of the seven
    required names is a column of the sheet; the reported columns are the
    required names absent from the sheet, in the order of the required list
    and without repetition; other columns of the sheet and the order of its
    columns play no part. *)
Theorem missing_columns_spec (columns : list string) :
  (missing_columns columns = [] <-> forall c, c ∈ required_columns -> c ∈ columns) /\
  (forall c, c ∈ missing_columns columns <-> c ∈ required_columns /\ c ∉ columns) /\
  sublist (missing_columns columns) required_columns /\
  NoDup (missing_columns columns) /\
  (forall columns',
     (forall c, c ∈ required_columns -> c ∈ columns <-> c ∈ columns') ->
     missing_columns columns' = missing_columns columns).
Proof.
  split; [apply missing_columns_nil|].
  unfold missing_columns. split; [|split; [|split]].
  - intros c. rewrite list_elem_of_filter. tauto.
  - apply sublist_filter.
  - apply NoDup_filter. apply (bool_decide_unpack _). by vm_compute.
  - intros columns' H. apply filter_ext_in.
    intros c Hc. specialize (H c Hc). tauto.
Qed.

(** X2. The page shows the chart exactly when a file is uploaded, none of the
    required columns is missing, every row is convertible (its dates parse
    and the first integer of its duration exists and is at most 2^63 - 1),
    and the label columns of both frames can be assigned.  With a required
    column missing the page lists the missing columns and no row is looked
    at, whatever the rows hold; without a file it shows the hint. *)
Theorem app_shows_chart_iff (uploaded_file : option Upload) :
  ((exists fig stats, app uploaded_file = ChartPage fig stats) <->
   exists df,
     uploaded_file = Some df /\
     (forall c, c ∈ required_columns -> c ∈ columns df) /\
     Forall convertible (rows df) /\
     frames_assignable (frame_of (rows df))) /\
  (forall df,
     uploaded_file = Some df -> missing_columns (columns df) <> [] ->
     app uploaded_file
     = MissingColumnsPage (str_join ", " (missing_columns (columns df)))) /\
  (uploaded_file = None <-> app uploaded_file = InfoPage).
Proof.
  split; [|split].
  - split.
    + intros (fig & stats & H). destruct uploaded_file as [df|]; [|done].
      exists df. split; [done|]. simpl in H.
      destruct (missing_columns (columns df)) as [|c cs] eqn:Hm; [|done].
      split; [by apply missing_columns_nil|].
      destruct (main (rows df)) as [[fig' st']|e] eqn:Hmain; [|done].
      apply main_Ok_iff. by exists fig', st'.
    + intros (df & -> & Hc & Hp & Ha). simpl.
      rewrite (proj2 (missing_columns_nil (columns df)) Hc).
      destruct (proj2 (main_Ok_iff (rows df)) (conj Hp Ha)) as (fig & st & ->).
      by eexists _, _.
  - intros df -> Hm. simpl. by destruct (missing_columns (columns df)).
  - split; [by intros ->|]. destruct uploaded_file as [df|]; [|done].
    simpl. destruct (missing_columns (columns df)); [|done].
    by destruct (main (rows df)) as [[? ?]|].
Qed.

(** ** The normalisation *)

Lemma assemble_index i raw ss fs ds :
  index <$> assemble i raw ss fs ds
  = seqZ i (Z.of_nat (length (assemble i raw ss fs ds))).
Proof.
  revert i ss fs ds.
  induction raw as [|rr raw IH]; intros i [|s ss] [|f fs] [|d ds]; try done.
  simpl assemble. rewrite fmap_cons. cbn [length].
  rewrite Nat2Z.inj_succ, seqZ_cons by lia. simpl index. f_equal.
  rewrite IH. f_equal; lia.
Qed.

(** X3. The rows of the frame are numbered 1, 2, ... in the order of the
    input, whatever the sheet used as index, and the k-th row of the frame
    holds the name, level, mark, duration text and predecessors text of the
    k-th input row, its parsed dates, and the predecessors parsed from its
    own text. *)
Theorem normalize_reindexes raw df :
  normalize raw = Ok df ->
  index <$> df = seqZ 1 (Z.of_nat (length raw)) /\
  Forall2 (fun rr r =>
             Name r = raw_Name rr /\ Outline_Level r = raw_Outline_Level rr /\
             Not_appear r = raw_Not_appear rr /\ Duration r = raw_Duration rr /\
             raw_Start_Date rr = Parsable (Start_Date r) /\
             raw_Finish_Date rr = Parsable (Finish_Date r) /\
             Plot_Duration r = days (Finish_Date r - Start_Date r) /\
             Parsed_Predecessors r = parse_predecessors (raw_Predecessors rr))
    raw df.
Proof.
  intros H. split.
  - pose proof (Forall2_length _ _ _ (normalize_rows _ _ H)) as Hlen.
    apply normalize_Ok in H as (ss & fs & ds & _ & _ & _ & ->).
    by rewrite assemble_index, <- Hlen.
  - eapply Forall2_impl; [by apply normalize_rows|].
    intros rr r (i & s & f & d & Hs & Hf & _ & ->). by simpl.
Qed.

Lemma rmap_first_raise {A B} (f : A -> result B) l a e :
  a ∈ l -> f a = Raise e ->
  (forall a' e', a' ∈ l -> f a' = Raise e' -> e' = e) ->
  rmap f l = Raise e.
Proof.
  intros Hin Ha Hall. destruct (rmap f l) as [bs|e'] eqn:Hl.
  - apply rmap_ok_Forall2 in Hl.
    apply list_elem_of_lookup in Hin as [i Hi].
    destruct (Forall2_lookup_l _ _ _ _ _ Hl Hi) as (b & _ & Hb). congruence.
  - f_equal. eapply (rmap_raise_kind f (fun e' => e' = e)); [|exact Hl].
    intros a' e''. apply Hall.
Qed.

(** The first element that raises decides. *)
Lemma rmap_raise_at {A B} (f : A -> result B) pre a suf e :
  Forall (fun x => is_ok (f x)) pre -> f a = Raise e ->
  rmap f (pre ++ a :: suf) = Raise e.
Proof.
  intros Hpre Ha. induction Hpre as [|x pre [b Hx] _ IH]; simpl.
  - by rewrite Ha.
  - by rewrite Hx, IH.
Qed.

Lemma main_normalize_raise raw e : normalize raw = Raise e -> main raw = Raise e.
Proof. intros H. unfold main. by rewrite process_dataframe_unfold, H. Qed.

(** X4. The columns are converted one after the other, so the exception of
    a run tells the first column that fails: an unparsable start date
    anywhere gives the error of Start_Date, whatever else is wrong; when all
    start dates parse, an unparsable finish date gives the error of
    Finish_Date.  When all dates parse, the first row whose duration cannot
    be cast decides: the integer cast error when it has no digit, the
    overflow error when its first integer is above 2^63 - 1; so a duration
    without a digit gives the integer cast error when no row overflows. *)
Theorem parse_error_by_column raw rr :
  rr ∈ raw ->
  (raw_Start_Date rr = Unparsable ->
   main raw = Raise (DateParseError "Start_Date")) /\
  (Forall (fun r => raw_Start_Date r <> Unparsable) raw ->
   raw_Finish_Date rr = Unparsable ->
   main raw = Raise (DateParseError "Finish_Date")) /\
  (Forall (fun r => raw_Start_Date r <> Unparsable /\
                    raw_Finish_Date r <> Unparsable) raw ->
   (forall pre suf,
      raw = pre ++ rr :: suf ->
      Forall (fun r => fits_int64 (raw_Duration r)) pre ->
      (no_digit (raw_Duration rr) = true ->
       main raw = Raise IntCastingNaNError) /\
      ((exists d, first_integer (raw_Duration rr) d /\ int64_max < d) ->
       main raw = Raise OverflowError)) /\
   (Forall (fun r => forall d, first_integer (raw_Duration r) d -> d <= int64_max)
      raw ->
    no_digit (raw_Duration rr) = true ->
    main raw = Raise IntCastingNaNError)).
Proof.
  intros Hin.
  assert (forall (g : RawRow -> DateCell) col,
            Forall (fun r => g r <> Unparsable) raw ->
            is_ok (to_datetime col (g <$> raw))) as Hok.
  { intros g col Hall. apply rmap_total, Forall_fmap.
    eapply Forall_impl; [exact Hall|]. intros r Hr. simpl in *.
    destruct (g r) eqn:Hg; [by eexists|congruence]. }
  assert (forall (g : RawRow -> DateCell) col,
            g rr = Unparsable ->
            to_datetime col (g <$> raw) = Raise (DateParseError col)) as Hbad.
  { intros g col Hg. apply (rmap_first_raise _ _ (g rr)).
    - apply list_elem_of_fmap. by exists rr.
    - by rewrite Hg.
    - intros c e' _ H. destruct c; simpl in H; [discriminate|].
      by injection H as <-. }
  split; [|split].
  - intros Hs. apply main_normalize_raise. unfold normalize.
    by rewrite (Hbad raw_Start_Date "Start_Date"%string Hs).
  - intros Hall Hf. apply main_normalize_raise. unfold normalize.
    destruct (Hok raw_Start_Date "Start_Date"%string Hall) as [ss ->]. simpl.
    by rewrite (Hbad raw_Finish_Date "Finish_Date"%string Hf).
  - intros Hall.
    assert (forall e,
              rmap astype_int (str_extract <$> (raw_Duration <$> raw)) = Raise e ->
              main raw = Raise e) as Hcast.
    { intros e He. apply main_normalize_raise. unfold normalize.
      destruct (Hok raw_Start_Date "Start_Date"%string) as [ss ->].
      { eapply Forall_impl; [exact Hall|]. by intros r [? _]. }
      destruct (Hok raw_Finish_Date "Finish_Date"%string) as [fs ->].
      { eapply Forall_impl; [exact Hall|]. by intros r [_ ?]. }
      simpl. by rewrite He. }
    split.
    + intros pre suf -> Hpre.
      assert (forall e,
                astype_int (str_extract (raw_Duration rr)) = Raise e ->
                main (pre ++ rr :: suf) = Raise e) as Hat.
      { intros e He. apply Hcast. rewrite !fmap_app, !fmap_cons.
        apply rmap_raise_at; [|done].
        apply Forall_fmap, Forall_fmap. eapply Forall_impl; [exact Hpre|].
        intros r Hr. simpl. destruct (astype_int_fits _ Hr) as [d ->].
        by eexists. }
      split.
      * intros Hd. apply Hat. apply str_extract_None in Hd. by rewrite Hd.
      * intros (d & Hd & Hgt). apply Hat.
        destruct (astype_int_cases (raw_Duration rr))
          as [[Hn _]|(d' & Hd' & _ & [[Hle _]|[_ He]])]; [| |done].
        -- apply first_integer_digit in Hd. congruence.
        -- rewrite (first_integer_unique _ _ _ Hd Hd') in Hgt. lia.
    + intros Hfit Hd. apply Hcast.
      apply (rmap_first_raise astype_int _ (str_extract (raw_Duration rr))).
      * apply list_elem_of_fmap. exists (raw_Duration rr). split; [done|].
        apply list_elem_of_fmap. by exists rr.
      * apply str_extract_None in Hd. by rewrite Hd.
      * intros o e' (t & -> & (r & -> & Hr)%list_elem_of_fmap)%list_elem_of_fmap He.
        apply astype_int_raise in He as [[-> _]|(_ & d & Hf & Hgt)]; [done|].
        rewrite Forall_forall in Hfit. specialize (Hfit r Hr d Hf). lia.
Qed.


Lemma digit_value_zero c :
  is_digit c = true -> digit_value c = 0 <-> Ascii.eqb c "0" = true.
Proof.
  intros Hc. rewrite Ascii.eqb_eq. unfold digit_value. split.
  - intros H. rewrite <- (ascii_nat_embedding c).
    replace (nat_of_ascii c) with 48%nat by lia. reflexivity.
  - by intros ->.
Qed.

Lemma decimal_from_zero ds acc :
  all_digits ds = true -> 0 <= acc ->
  0 <= decimal_from acc ds /\
  (decimal_from acc ds = 0 <-> acc = 0 /\ all_zeros ds = true).
Proof.
  revert acc. induction ds as [|c ds IH]; intros acc Hd Hacc; simpl.
  - split; [done|]. tauto.
  - apply andb_true_iff in Hd as [Hc Hd].
    pose proof (digit_value_range c Hc) as Hv.
    destruct (IH (10 * acc + digit_value c) Hd) as [Hge Hz]; [lia|].
    split; [done|]. rewrite Hz, andb_true_iff, <- (digit_value_zero c Hc).
    split; [intros [H ?]|intros [? [? ?]]]; repeat split; try done; lia.
Qed.

(** X5. The duration in days is never negative, a sign before the digits
    is not read; and it is 0, which makes the row a milestone, exactly when
    the first run of digits of the duration text has only zeros, whatever
    follows it and whatever the dates are. *)
Theorem duration_days_zero_iff raw df :
  normalize raw = Ok df ->
  Forall (fun r =>
            0 <= Duration_days r /\
            exists pre ds rest,
              Duration r = pre +:+ ds +:+ rest /\ no_digit pre = true /\
              all_digits ds = true /\ ds <> EmptyString /\
              starts_without_digit rest = true /\
              (Duration_days r = 0 <-> all_zeros ds = true)) df.
Proof.
  intros H. apply Forall_forall. intros r Hr.
  apply list_elem_of_lookup in Hr as [k Hk].
  destruct (Forall2_lookup_r _ _ _ _ _ (normalize_rows _ _ H) Hk)
    as (rr & _ & i & s & f & d & _ & _ & Hd & ->).
  apply astype_int_Ok in Hd as [_ (pre & ds & rest & Hs & Hp & Hds & Hne & Hrest & ->)].
  simpl. destruct (decimal_from_zero ds 0 Hds) as [Hge Hz]; [done|].
  split; [done|]. exists pre, ds, rest. repeat split; try done.
  - intros Hdz. by apply Hz in Hdz as [_ ?].
  - intros Hdz. by apply Hz.
Qed.

(** ** The collapse filter, without the scan *)

Lemma snoc_eq_middle {A} (pre : list A) x pre1 m mid :
  pre ++ [x] = pre1 ++ m :: mid ->
  (mid = [] /\ pre1 = pre /\ m = x) \/
  (exists mid', mid = mid' ++ [x] /\ pre = pre1 ++ m :: mid').
Proof.
  destruct mid as [|y mid _] using rev_ind.
  - intros H. left. apply app_inj_tail in H as [-> ->]. done.
  - intros H. right. exists mid.
    replace (pre1 ++ m :: mid ++ [y]) with ((pre1 ++ m :: mid) ++ [y]) in H
      by (by rewrite <- app_assoc).
    apply app_inj_tail in H as [-> ->]. done.
Qed.

(** The loop is collapsing under parent level [p] exactly when the rows
    scanned end with a marked row of level [p] followed by unmarked rows
    that are all deeper than [p]. *)
Lemma collapse_loop_state pre p :
  is_collapsing (collapse_loop pre) = true /\
  parent_outline_level (collapse_loop pre) = p
  <-> exists pre1 m mid,
        pre = pre1 ++ m :: mid /\ Not_appear m = true /\ Outline_Level m = p /\
        Forall (fun x => Not_appear x = false /\ p < Outline_Level x) mid.
Proof.
  revert p. induction pre as [|x pre IH] using rev_ind; intros p.
  - split; [by intros [? _]|]. intros (pre1 & m & mid & H & _). by destruct pre1.
  - rewrite collapse_loop_snoc. split.
    + unfold collapse_step. destruct (Not_appear x) eqn:Hx.
      * simpl. intros [_ <-]. exists pre, x, []. by repeat split.
      * destruct (is_collapsing (collapse_loop pre)) eqn:Hc; [|by intros [? _]; congruence].
        destruct (parent_outline_level (collapse_loop pre) <? Outline_Level x) eqn:Hlt;
          simpl; [|by intros [? _]].
        intros [_ Hp]. apply Z.ltb_lt in Hlt.
        destruct (proj1 (IH p)) as (pre1 & m & mid & -> & Hm & Hl & Hmid); [done|].
        exists pre1, m, (mid ++ [x]). split; [by rewrite <- app_assoc|].
        split; [done|]. split; [done|].
        apply Forall_app. split; [done|]. constructor; [|done]. split; [done|lia].
    + intros (pre1 & m & mid & Heq & Hm & Hl & Hmid).
      apply snoc_eq_middle in Heq as [(-> & -> & ->)|(mid' & -> & ->)].
      * unfold collapse_step. by rewrite Hm.
      * apply Forall_app in Hmid as [Hmid' Hx].
        apply Forall_cons in Hx as [[Hx Hlt] _].
        assert (is_collapsing (collapse_loop (pre1 ++ m :: mid')) = true /\
                parent_outline_level (collapse_loop (pre1 ++ m :: mid')) = p)
          as [Hc Hp] by (apply IH; by exists pre1, m, mid').
        unfold collapse_step. rewrite Hx, Hc, Hp.
        by rewrite (proj2 (Z.ltb_lt _ _) Hlt).
Qed.

Lemma hidden_by_iff_marked pre r :
  hidden_by (collapse_loop pre) r = true
  <-> Not_appear r = false /\
      exists pre1 m mid,
        pre = pre1 ++ m :: mid /\ Not_appear m = true /\
        Forall (fun x => Not_appear x = false /\
                         Outline_Level m < Outline_Level x) mid /\
        Outline_Level m < Outline_Level r.
Proof.
  unfold hidden_by.
  rewrite !andb_true_iff, negb_true_iff, Z.ltb_lt. split.
  - intros [[Hr Hc] Hlt]. split; [done|].
    destruct (proj1 (collapse_loop_state pre _) (conj Hc eq_refl))
      as (pre1 & m & mid & -> & Hm & Hl & Hmid).
    exists pre1, m, mid. rewrite Hl. by repeat split.
  - intros [Hr (pre1 & m & mid & Hpre & Hm & Hmid & Hlt)].
    destruct (proj2 (collapse_loop_state pre (Outline_Level m))) as [Hc Hp].
    { by exists pre1, m, mid. }
    rewrite Hp. by repeat split.
Qed.

(** X6. Which rows the collapse filter hides, said without a scan: a row is
    hidden exactly when it is unmarked and some marked row before it is
    shallower than it and is followed, up to the row, only by unmarked rows
    deeper than that marked row. *)
Theorem hidden_iff_under_marked_row raw df pre r suf :
  normalize raw = Ok df ->
  df = pre ++ r :: suf ->
  index r ∈ indices_to_hide (collapse_loop df)
  <-> Not_appear r = false /\
      exists pre1 m mid,
        pre = pre1 ++ m :: mid /\ Not_appear m = true /\
        Forall (fun x => Not_appear x = false /\
                         Outline_Level m < Outline_Level x) mid /\
        Outline_Level m < Outline_Level r.
Proof.
  intros H ->. pose proof (normalize_NoDup _ _ H) as Hnd.
  rewrite hidden_iff by done. apply hidden_by_iff_marked.
Qed.

(** X7. A row with no marked row before it is never hidden; so when no row
    of the sheet is marked nothing is hidden, and the two frames hold every
    row whose level is 1 to 4. *)
Theorem unmarked_prefix_never_hidden raw df :
  normalize raw = Ok df ->
  (forall pre r suf,
     df = pre ++ r :: suf -> Forall (fun x => Not_appear x = false) pre ->
     index r ∉ indices_to_hide (collapse_loop df)) /\
  (Forall (fun x => Not_appear x = false) df ->
   indices_to_hide (collapse_loop df) = ∅ /\
   forall r, r ∈ (select_frames df).1 ++ (select_frames df).2
             <-> r ∈ df /\ Outline_Level r ∈ selected_outline_levels).
Proof.
  intros H.
  assert (forall pre r suf,
            df = pre ++ r :: suf -> Forall (fun x => Not_appear x = false) pre ->
            index r ∉ indices_to_hide (collapse_loop df)) as Hpre.
  { intros pre r suf -> Hall.
    rewrite hidden_iff by (by eapply normalize_NoDup).
    rewrite hidden_by_iff_marked.
    intros [_ (pre1 & m & mid & -> & Hm & _)].
    apply Forall_app in Hall as [_ Hall]. apply Forall_cons in Hall as [Hm' _].
    congruence. }
  split; [done|]. intros Hall.
  assert (indices_to_hide (collapse_loop df) = ∅) as Hempty.
  { apply set_eq. intros i. split; [|by intros ?%not_elem_of_empty].
    intros Hi. exfalso. pose proof (collapse_loop_subset _ _ Hi) as Hin.
    apply list_elem_of_fmap in Hin as (r & -> & Hr).
    apply list_elem_of_split in Hr as (pre & suf & ->).
    apply (Hpre pre r suf eq_refl); [|done].
    by apply Forall_app in Hall as [? _]. }
  split; [done|]. intros r. rewrite elem_of_select_frames. unfold visible.
  rewrite Hempty. split; [tauto|]. intros [? ?]. by repeat split.
Qed.

(** X8. A marked row whose level is outside 1 to 4 is dropped by the level
    filter and still collapses what follows it: neither the marked row nor
    the unmarked deeper rows after it are in the frames. *)
Theorem excluded_marker_still_collapses raw df pre m mid suf :
  normalize raw = Ok df ->
  df = pre ++ m :: mid ++ suf ->
  Not_appear m = true ->
  Outline_Level m ∉ selected_outline_levels ->
  Forall (fun x => Not_appear x = false /\ Outline_Level m < Outline_Level x) mid ->
  forall r, r ∈ m :: mid ->
    r ∉ (select_frames df).1 ++ (select_frames df).2.
Proof.
  intros H -> Hm Hlevel Hmid r Hr.
  rewrite elem_of_select_frames. unfold visible. intros (_ & Hl & Hh).
  apply elem_of_cons in Hr as [->|Hr]; [done|].
  apply list_elem_of_split in Hr as (mid1 & mid2 & ->).
  apply Forall_app in Hmid as [Hmid1 Hmid2].
  apply Forall_cons in Hmid2 as [[Hr Hlt] _].
  apply Hh.
  replace (pre ++ m :: (mid1 ++ r :: mid2) ++ suf)
    with ((pre ++ m :: mid1) ++ r :: (mid2 ++ suf)) in * by list_assoc.
  apply hidden_iff; [by eapply normalize_NoDup|].
  apply hidden_by_iff_marked. split; [done|]. by exists pre, m, mid1.
Qed.

(** ** The two frames *)

Lemma length_filter_split {A} (P Q : A -> Prop)
    `{!forall x, Decision (P x), !forall x, Decision (Q x)} (l : list A) :
  (forall x, Q x <-> ~ P x) ->
  (length (filter P l) + length (filter Q l))%nat = length l.
Proof.
  intros HPQ. induction l as [|a l IH]; [done|]. rewrite !filter_cons.
  destruct (decide (P a)) as [Ha|Ha].
  - rewrite decide_False by (rewrite HPQ; tauto). simpl. lia.
  - rewrite decide_True by (by apply HPQ). simpl. lia.
Qed.

Lemma index_inj_on df r r' :
  NoDup (index <$> df) -> r ∈ df -> r' ∈ df -> index r = index r' -> r = r'.
Proof.
  intros Hnd Hr Hr' Heq.
  pose proof (find_row_unique df r Hnd Hr) as H1.
  pose proof (find_row_unique df r' Hnd Hr') as H2.
  rewrite Heq in H1. congruence.
Qed.

Lemma frames_length raw df reg mil :
  process_dataframe raw = Ok (df, reg, mil) ->
  (length reg + length mil)%nat = length (visible_rows df) /\
  (length (visible_rows df) <= length raw)%nat.
Proof.
  intros H. pose proof (process_dataframe_length _ _ _ _ H) as Hlen.
  apply process_dataframe_Ok in H as (ss & fs & ds & _ & _ & _ & _ & -> & ->).
  split.
  - apply length_filter_split.
    intros x. split; [by intros -> ?|]. intros Hx.
    destruct (decide (Duration_days x = 0)); tauto.
  - rewrite <- Hlen. apply length_filter.
Qed.

Lemma frames_index_NoDup raw df reg mil :
  process_dataframe raw = Ok (df, reg, mil) -> NoDup (index <$> (reg ++ mil)).
Proof.
  intros H. pose proof (process_dataframe_NoDup _ _ _ _ H) as Hnd.
  pose proof (frames_kinds _ _ _ _ H) as Hk.
  pose proof H as H'.
  apply process_dataframe_Ok in H' as (ss & fs & ds & _ & _ & _ & Hdf & Hreg & Hmil).
  assert (StronglySorted index_lt (visible_rows df)) as Hvs
    by (rewrite Hdf; apply sorted_filter, assemble_sorted).
  rewrite fmap_app. apply NoDup_app. split; [|split].
  - apply sorted_index_NoDup. rewrite Hreg. by apply sorted_filter.
  - intros i (r & -> & Hr)%list_elem_of_fmap (r' & Heq & Hr')%list_elem_of_fmap.
    assert (r = r') as <-.
    { apply (index_inj_on df); [done| | |done].
      - by apply Hk in Hr as [? _].
      - by apply Hk in Hr' as [? _]. }
    apply Hk in Hr, Hr'. tauto.
  - apply sorted_index_NoDup. rewrite Hmil. by apply sorted_filter.
Qed.

(** X9. The regular and the milestone frame of a run are two selections of
    the rows of the sheet in their original order, each with increasing
    indices; no row is in both and no index occurs twice in the two
    together, so a predecessor id names at most one visible row; together
    they hold exactly the visible rows, each once: a row is in one of them
    exactly when it is a visible row of the sheet, the two put together are
    a rearrangement of the visible rows, and they have as many rows as
    there are visible rows, at most the rows of the sheet. *)
Theorem frames_invariants raw df reg mil :
  process_dataframe raw = Ok (df, reg, mil) ->
  sublist reg df /\ sublist mil df /\
  StronglySorted index_lt reg /\ StronglySorted index_lt mil /\
  (forall r, r ∈ reg -> r ∉ mil) /\
  NoDup (index <$> (reg ++ mil)) /\
  (forall r, r ∈ reg ++ mil <-> r ∈ visible_rows df) /\
  reg ++ mil ≡ₚ visible_rows df /\
  (length reg + length mil)%nat = length (visible_rows df) /\
  (length (visible_rows df) <= length raw)%nat.
Proof.
  intros H. pose proof (process_dataframe_NoDup _ _ _ _ H) as Hnd.
  pose proof (process_dataframe_length _ _ _ _ H) as Hlen.
  pose proof (frames_kinds _ _ _ _ H) as Hk.
  pose proof H as H'.
  apply process_dataframe_Ok in H' as (ss & fs & ds & _ & _ & _ & Hdf & Hreg & Hmil).
  assert (StronglySorted index_lt df) as Hsorted
    by (rewrite Hdf; apply assemble_sorted).
  assert (StronglySorted index_lt (visible_rows df)) as Hvs
    by (by apply sorted_filter).
  assert (forall r, r ∈ reg -> r ∉ mil) as Hdisj.
  { intros r Hr%Hk Hr'%Hk. tauto. }
  split; [|split; [|split; [|split; [|split; [|split; [|split; [|split; [|split]]]]]]]].
  - rewrite Hreg. etrans; apply sublist_filter.
  - rewrite Hmil. etrans; apply sublist_filter.
  - rewrite Hreg. by apply sorted_filter.
  - rewrite Hmil. by apply sorted_filter.
  - done.
  - by eapply frames_index_NoDup.
  - intros r. rewrite (elem_of_frames _ _ _ _ r H). unfold visible_rows.
    rewrite list_elem_of_filter. tauto.
  - rewrite Hreg, Hmil, Permutation_app_comm.
    apply (filter_app_complement (fun r => Duration_days r = 0)).
  - by apply (frames_length _ _ _ _ H).
  - by apply (frames_length _ _ _ _ H).
Qed.

(** ** The outcome of a run *)

(** X10. A run returns a chart exactly when every row is convertible (its
    dates parse and the first integer of its duration exists and is at most
    2^63 - 1) and the label columns of both frames can be assigned.
    Otherwise it raises an error of the conversions, when some row is not
    convertible, or the error of an assignment on an empty frame, when all
    are: the look-ups of the chart in the position dictionary and in the
    frames never fail. *)
Theorem main_outcome raw :
  ((exists fig st, main raw = Ok (fig, st))
   <-> Forall convertible raw /\ frames_assignable (frame_of raw)) /\
  (forall e, main raw = Raise e ->
     e <> KeyError /\
     ((parse_error e /\ ~ Forall convertible raw) \/
      (e = ValueError /\ empty_apply_raises = true /\ Forall convertible raw /\
       (regular_rows (frame_of raw) = [] \/ milestone_rows (frame_of raw) = [])))).
Proof.
  split; [exact (main_Ok_iff raw)|].
  intros e He%main_raise. unfold frame_of.
  destruct (normalize raw) as [df|e'] eqn:Hn.
  - destruct (process_dataframe_raise_inv _ _ _ Hn He) as (-> & Hb & Hempty).
    split; [done|]. right. repeat split; try done.
    by eapply normalize_convertible.
  - rewrite process_dataframe_unfold, Hn in He. injection He as ->.
    pose proof (normalize_raises _ _ Hn) as Hpe.
    split; [unfold parse_error in Hpe; by destruct Hpe as [->|[->|[->| ->]]]|].
    left. split; [done|]. intros [df Hdf]%normalize_total. congruence.
Qed.

(** ** The lines of the chart *)

Lemma length_drop_duplicates_from seen l :
  (length (drop_duplicates_from seen l) <= length l)%nat.
Proof.
  revert seen. induction l as [|a l IH]; intros seen; simpl; [done|].
  destruct (bool_decide (a ∈ seen)); simpl; [|apply le_n_S]; etrans; try apply IH; lia.
Qed.

Lemma drop_duplicates_from_NoDup seen l :
  NoDup l -> (forall x, x ∈ l -> x ∉ seen) -> drop_duplicates_from seen l = l.
Proof.
  intros Hnd. revert seen. induction Hnd as [|a l Ha Hnd IH]; intros seen Hs; [done|].
  simpl. rewrite bool_decide_eq_false_2 by (apply Hs; left). f_equal.
  apply IH. intros x Hx. rewrite elem_of_cons. intros [->|Hin]; [done|].
  by apply (Hs x); [right|].
Qed.

(** X11. In the chart of a run the tick values are 0 to n-1 for the n
    distinct labels of the visible rows, the tick texts are these labels
    without repetition, and the vertical position of every bar and of every
    marker point is a tick value whose text is the label of its row.  The
    chart is at least 600 high and has at least 25 per line. *)
Theorem ticks_index_the_labels raw df reg mil :
  process_dataframe raw = Ok (df, reg, mil) ->
  exists fig st,
    main raw = Ok (fig, st) /\
    tickvals fig = seq 0 (length (ticktext fig)) /\
    NoDup (ticktext fig) /\
    (forall l, l ∈ ticktext fig <-> exists r, r ∈ reg ++ mil /\ Y_Label r = l) /\
    (length (ticktext fig) <= length reg + length mil)%nat /\
    Forall2 (fun r b => y_pos b ∈ tickvals fig /\
                        ticktext fig !! y_pos b = Some (Y_Label r))
      reg (shapes fig) /\
    (forall sym xs ys names,
       MilestoneTrace sym xs ys names ∈ traces fig ->
       Forall2 (fun r y => y ∈ tickvals fig /\
                           ticktext fig !! y = Some (Y_Label r)) mil ys) /\
    600 <= height fig /\ 25 * Z.of_nat (length (ticktext fig)) <= height fig.
Proof.
  intros H. exists (chart_of df reg mil), (stats_of df reg mil).
  split; [by apply main_eq|].
  pose proof (sort_index_frames _ _ _ _ H) as Hsort.
  assert (forall r, r ∈ reg ++ mil ->
            position_of (positions reg mil) r
              ∈ seq 0 (length (drop_duplicates (Y_Label <$> visible_rows df))) /\
            drop_duplicates (Y_Label <$> visible_rows df)
              !! position_of (positions reg mil) r = Some (Y_Label r)) as Hpos.
  { intros r Hr. pose proof (position_of_lookup _ _ _ _ r H Hr) as Hl.
    split; [|done]. apply elem_of_seq. apply lookup_lt_Some in Hl. lia. }
  simpl. rewrite Hsort.
  split; [done|]. split; [apply NoDup_drop_duplicates_from|].
  split; [|split; [|split; [|split; [|split]]]].
  - intros l. rewrite elem_of_drop_duplicates, list_elem_of_fmap. split.
    + intros (r & -> & [Hv Hr]%list_elem_of_filter). exists r. split; [|done].
      by apply (elem_of_frames _ _ _ _ r H).
    + intros (r & Hr & <-). exists r. split; [done|].
      apply (elem_of_frames _ _ _ _ r H) in Hr as [? ?].
      by apply list_elem_of_filter.
  - etrans; [apply length_drop_duplicates_from|].
    rewrite length_fmap, <- Hsort.
    destruct (frames_length _ _ _ _ H) as [Hlen _].
    rewrite Hsort. lia.
  - apply Forall2_fmap_r, Forall_Forall2_diag, Forall_forall.
    intros r Hr. simpl. apply Hpos, elem_of_app. by left.
  - intros sym xs ys names Hin.
    apply elem_of_app in Hin as [Hin|Hin].
    { by apply list_elem_of_fmap in Hin as (r & [=] & _). }
    apply elem_of_app in Hin as [Hin|Hin].
    + assert (ys = position_of (positions reg mil) <$> mil) as ->.
      { unfold marker_traces in Hin.
        destruct mil; [by apply elem_of_nil in Hin|].
        apply list_elem_of_singleton in Hin. by injection Hin. }
      apply Forall2_fmap_r, Forall_Forall2_diag, Forall_forall.
      intros r Hr. apply Hpos, elem_of_app. by right.
    + apply elem_of_concat in Hin as (l & Hl & (row & -> & _)%list_elem_of_fmap).
      by apply elem_of_connectors_of in Hl as (pred & _ & _ & [=]).
  - lia.
  - lia.
Qed.

(** X12. A visible row is never drawn below its rank: the k-th visible row
    (counting from 0) has a position of at most k.  When no two visible
    rows have the same label each row has its own line, the k-th visible
    row is at position k. *)
Theorem position_at_most_rank raw df reg mil :
  process_dataframe raw = Ok (df, reg, mil) ->
  (forall k r, visible_rows df !! k = Some r ->
     exists p, positions reg mil !! Y_Label r = Some p /\ (p <= k)%nat) /\
  (NoDup (Y_Label <$> visible_rows df) ->
   forall k r, visible_rows df !! k = Some r ->
     positions reg mil !! Y_Label r = Some k).
Proof.
  intros H. split.
  - intros k r Hk. destruct (lookup_split _ _ _ Hk) as (pre & suf & Hv & <-).
    destruct (decide (Y_Label r ∈ Y_Label <$> pre)) as [Hin|Hnew].
    + apply elem_of_drop_duplicates, list_elem_of_lookup in Hin as [p Hp].
      exists p. split.
      * apply (positions_lookup _ _ _ _ r p H). rewrite Hv, fmap_app.
        unfold drop_duplicates in *. rewrite drop_duplicates_from_app.
        by apply lookup_app_l_Some.
      * apply lookup_lt_Some in Hp.
        pose proof (length_drop_duplicates_from [] (Y_Label <$> pre)) as Hle.
        rewrite length_fmap in Hle. unfold drop_duplicates in Hp. lia.
    + exists (length (drop_duplicates (Y_Label <$> pre))). split.
      * apply (positions_lookup _ _ _ _ r _ H). rewrite Hv, fmap_app, fmap_cons.
        by apply drop_duplicates_first.
      * pose proof (length_drop_duplicates_from [] (Y_Label <$> pre)) as Hle.
        rewrite length_fmap in Hle. done.
  - intros Hnd k r Hk. apply (positions_lookup _ _ _ _ r k H).
    unfold drop_duplicates. rewrite drop_duplicates_from_NoDup; [|done|].
    + by rewrite list_lookup_fmap, Hk.
    + intros x _. apply not_elem_of_nil.
Qed.

Lemma length_append s1 s2 :
  String.length (s1 +:+ s2) = (String.length s1 + String.length s2)%nat.
Proof.
  induction s1 as [|c s1 IH]; [done|].
  change (S (String.length (s1 +:+ s2))
          = S (String.length s1 + String.length s2)). by rewrite IH.
Qed.

Lemma length_Y_Label r :
  String.length (Y_Label r)
  = (2 * Z.to_nat (Outline_Level r - 1) + String.length (Name r))%nat.
Proof.
  unfold Y_Label, str_mul. rewrite length_append. f_equal.
  induction (Z.to_nat (Outline_Level r - 1)) as [|n IH]; [done|].
  cbn [repeat_nat]. rewrite length_append, IH. simpl. lia.
Qed.

(** X13. Two visible rows with the same name at different levels are never
    drawn on the same line: their labels differ by the indent. *)
Theorem same_name_other_level_other_line raw df reg mil r r' :
  process_dataframe raw = Ok (df, reg, mil) ->
  r ∈ reg ++ mil -> r' ∈ reg ++ mil ->
  Name r = Name r' -> Outline_Level r <> Outline_Level r' ->
  Y_Label r <> Y_Label r' /\
  position_of (positions reg mil) r <> position_of (positions reg mil) r'.
Proof.
  intros H Hr Hr' Hname Hlevel.
  assert (Y_Label r <> Y_Label r') as Hlabel.
  { intros Heq. apply (f_equal String.length) in Heq.
    rewrite !length_Y_Label, Hname in Heq.
    apply (elem_of_frames _ _ _ _ r H) in Hr as (_ & Hl & _).
    apply (elem_of_frames _ _ _ _ r' H) in Hr' as (_ & Hl' & _).
    unfold selected_outline_levels in Hl, Hl'.
    repeat (apply elem_of_cons in Hl as [Hl|Hl]);
      repeat (apply elem_of_cons in Hl' as [Hl'|Hl']);
      try (by apply elem_of_nil in Hl); try (by apply elem_of_nil in Hl');
      rewrite Hl, Hl' in *; simpl in Heq; try lia; done. }
  split; [done|]. intros Hpos.
  pose proof (position_of_lookup _ _ _ _ r H Hr) as H1.
  pose proof (position_of_lookup _ _ _ _ r' H Hr') as H2.
  rewrite Hpos in H1. congruence.
Qed.

(** ** Bars, markers and metrics *)

(** X14. The bars of the chart have one of four colours, fixed by the level
    of their row: black at level 1, dimgray at level 2, darkgray at level 3
    and steelblue at level 4, the only levels a bar can have. *)
Theorem bar_colours_by_level raw df reg mil :
  process_dataframe raw = Ok (df, reg, mil) ->
  exists fig st,
    main raw = Ok (fig, st) /\
    Forall2 (fun r b =>
               (Outline_Level r = 1 /\ fillcolor b = "black"%string) \/
               (Outline_Level r = 2 /\ fillcolor b = "dimgray"%string) \/
               (Outline_Level r = 3 /\ fillcolor b = "darkgray"%string) \/
               (Outline_Level r = 4 /\ fillcolor b = "steelblue"%string))
      reg (shapes fig).
Proof.
  intros H. exists (chart_of df reg mil), (stats_of df reg mil).
  split; [by apply main_eq|]. simpl.
  apply Forall2_fmap_r, Forall_Forall2_diag, Forall_forall.
  intros r Hr. simpl. unfold bar_color.
  apply (frames_kinds _ _ _ _ H) in Hr as (_ & [Hl _] & _).
  unfold selected_outline_levels in Hl.
  repeat (apply elem_of_cons in Hl as [->|Hl]); [tauto..|].
  by apply elem_of_nil in Hl.
Qed.

(** X15. The metrics agree with the chart: the first metric is the number
    of bars, the second the number of points of the marker trace, which is
    the one marker trace of the chart whenever the second metric is not 0,
    and together they count the visible rows, at most the rows of the sheet.
    When the assignment of a label column on an empty frame raises, as with
    pandas, a run that shows metrics shows neither count as 0. *)
Theorem metrics_count_the_chart raw df reg mil :
  process_dataframe raw = Ok (df, reg, mil) ->
  exists fig st,
    main raw = Ok (fig, st) /\
    regular_count st = length (shapes fig) /\
    (forall sym xs ys names,
       MilestoneTrace sym xs ys names ∈ traces fig ->
       length xs = milestone_count st /\ length ys = milestone_count st /\
       length names = milestone_count st) /\
    ((0 < milestone_count st)%nat ->
     exists xs ys names,
       List.filter is_marker_trace (traces fig)
       = [MilestoneTrace "diamond" xs ys names]) /\
    (empty_apply_raises = true ->
     (0 < regular_count st)%nat /\ (0 < milestone_count st)%nat) /\
    (regular_count st + milestone_count st)%nat = length (visible_rows df) /\
    (regular_count st + milestone_count st <= length raw)%nat.
Proof.
  intros H. exists (chart_of df reg mil), (stats_of df reg mil).
  split; [by apply main_eq|].
  destruct (frames_length _ _ _ _ H) as [Hlen Hle].
  simpl. split; [by rewrite length_fmap|]. split; [|split; [|split; [|split]]].
  - intros sym xs ys names Hin.
    apply elem_of_app in Hin as [Hin|Hin].
    { by apply list_elem_of_fmap in Hin as (r & [=] & _). }
    apply elem_of_app in Hin as [Hin|Hin].
    + unfold marker_traces in Hin.
      destruct mil as [|a mil'] eqn:Hmil; [by apply elem_of_nil in Hin|].
      apply list_elem_of_singleton in Hin. unfold marker_trace in Hin.
      injection Hin as _ -> -> ->. repeat split; apply (length_fmap _ (a :: mil')).
    + apply elem_of_concat in Hin as (l & Hl & (row & -> & _)%list_elem_of_fmap).
      by apply elem_of_connectors_of in Hl as (pred & _ & _ & [=]).
  - intros Hpos. destruct mil as [|a mil'] eqn:Hmil; [simpl in Hpos; lia|].
    rewrite !List.filter_app, filter_is_marker_hover, filter_is_marker_connectors.
    by eexists _, _, _.
  - intros Hraise.
    apply process_dataframe_inv in H as (_ & -> & -> & Ha).
    destruct (Ha Hraise) as [Hr Hm].
    destruct (regular_rows df), (milestone_rows df); try done. simpl. lia.
  - done.
  - lia.
Qed.

Lemma normalize_Plot_Duration raw df r :
  normalize raw = Ok df -> r ∈ df ->
  Plot_Duration r = days (Finish_Date r - Start_Date r).
Proof.
  intros H [k Hk]%list_elem_of_lookup.
  destruct (Forall2_lookup_r _ _ _ _ _ (normalize_rows _ _ H) Hk)
    as (rr & _ & i & s & f & d & _ & _ & _ & ->). done.
Qed.

(** X16. The project duration of the metrics is at least the span in days
    of every row of the sheet, hidden or not; so it is not negative as soon
    as one row does not finish before it starts. *)
Theorem project_duration_covers_rows raw df reg mil r :
  process_dataframe raw = Ok (df, reg, mil) ->
  r ∈ df ->
  exists fig st d,
    main raw = Ok (fig, st) /\ project_duration st = Some d /\
    Plot_Duration r <= d /\
    (Start_Date r <= Finish_Date r -> 0 <= d).
Proof.
  intros H Hr. pose proof (process_dataframe_inv _ _ _ _ H) as (Hn & _).
  destruct (max_of_spec (Finish_Date <$> df)) as (mx & Hmx & _ & Hmax).
  { intros Hnil. destruct df; [by apply elem_of_nil in Hr|done]. }
  destruct (min_of_spec (Start_Date <$> df)) as (mn & Hmn & _ & Hmin).
  { intros Hnil. destruct df; [by apply elem_of_nil in Hr|done]. }
  exists (chart_of df reg mil), (stats_of df reg mil), (days (mx - mn)).
  split; [by apply main_eq|]. simpl. rewrite Hmx, Hmn. split; [done|].
  assert (Finish_Date r <= mx) as Hf
    by (apply Hmax, list_elem_of_fmap; by exists r).
  assert (mn <= Start_Date r) as Hs
    by (apply Hmin, list_elem_of_fmap; by exists r).
  split.
  - rewrite (normalize_Plot_Duration _ _ _ Hn Hr). unfold days.
    apply Z.div_le_mono; [done|lia].
  - intros Hle. unfold days. apply Z.div_pos; [lia|done].
Qed.

(** X17. The x-axis leaves room around every row of the sheet: its lower
    bound is 5 days before the earliest start, so below the left end of
    every bar, and its upper bound 30 days after the latest finish, so above
    the right end of every bar; a bar of a row that does not finish before
    it starts lies wholly inside. *)
Theorem axis_contains_the_bars raw df reg mil :
  process_dataframe raw = Ok (df, reg, mil) ->
  raw <> [] ->
  exists fig st lo hi,
    main raw = Ok (fig, st) /\
    xaxis_range fig = (Some lo, Some hi) /\
    (forall r, r ∈ df ->
       lo + Timedelta 5 <= Start_Date r /\ Finish_Date r + Timedelta 30 <= hi) /\
    (forall b, b ∈ shapes fig ->
       lo < x0 b /\ x1 b < hi /\ (x0 b <= x1 b -> lo < x1 b /\ x0 b < hi)).
Proof.
  intros H Hraw. pose proof (process_dataframe_length _ _ _ _ H) as Hlen.
  assert (df <> []) as Hdf by (intros ->; by destruct raw).
  destruct (min_of_spec (Start_Date <$> df)) as (mn & Hmn & _ & Hmin);
    [by destruct df|].
  destruct (max_of_spec (Finish_Date <$> df)) as (mx & Hmx & _ & Hmax);
    [by destruct df|].
  exists (chart_of df reg mil), (stats_of df reg mil),
    (mn - Timedelta 5), (mx + Timedelta 30).
  split; [by apply main_eq|]. simpl. rewrite Hmn, Hmx. split; [done|].
  assert (forall r, r ∈ df ->
            mn - Timedelta 5 + Timedelta 5 <= Start_Date r /\
            Finish_Date r + Timedelta 30 <= mx + Timedelta 30) as Hall.
  { intros r Hr.
    assert (Finish_Date r <= mx) by (apply Hmax, list_elem_of_fmap; by exists r).
    assert (mn <= Start_Date r) by (apply Hmin, list_elem_of_fmap; by exists r).
    lia. }
  split; [done|].
  intros b (r & -> & Hr)%list_elem_of_fmap. simpl.
  apply (frames_kinds _ _ _ _ H) in Hr as (Hr & _).
  destruct (Hall r Hr) as [Hlo Hhi].
  assert (0 < Timedelta 5 /\ 0 < Timedelta 30) as [H5 H30] by (by vm_compute).
  lia.
Qed.

(** ** Predecessors *)

Lemma visible_predecessor_index raw df reg mil pred :
  process_dataframe raw = Ok (df, reg, mil) ->
  pred ∈ reg ++ mil ->
  visible_predecessor reg mil (index pred) = Some pred.
Proof.
  intros H Hpred. pose proof (frames_index_NoDup _ _ _ _ H) as Hnd.
  rewrite fmap_app in Hnd. apply NoDup_app in Hnd as (Hreg & Hdisj & Hmil).
  unfold visible_predecessor. apply elem_of_app in Hpred as [Hp|Hp].
  - by rewrite (find_row_unique reg pred Hreg Hp).
  - assert (find_row reg (index pred) = None) as ->.
    { apply find_row_None. intros Hin. apply (Hdisj _ Hin).
      apply list_elem_of_fmap. by exists pred. }
    by apply find_row_unique.
Qed.

(** X18. Every reference of a visible regular row to a visible row is
    drawn: when the index of a visible row, regular or milestone, is among
    the parsed predecessors of a visible regular row, the chart has the
    connector from that row to the dependent.  The code does not set a row
    naming itself apart: it gets a connector from its own finish to its own
    start. *)
Theorem visible_references_are_drawn raw df reg mil :
  process_dataframe raw = Ok (df, reg, mil) ->
  exists fig st,
    main raw = Ok (fig, st) /\
    (forall row pred,
       row ∈ reg -> pred ∈ reg ++ mil ->
       index pred ∈ Parsed_Predecessors row ->
       DependencyTrace (Finish_Date pred, Start_Date row)
         (position_of (positions reg mil) pred,
          position_of (positions reg mil) row)
         (Name pred) (Name row) ∈ traces fig) /\
    (forall row,
       row ∈ reg -> index row ∈ Parsed_Predecessors row ->
       exists y,
         DependencyTrace (Finish_Date row, Start_Date row) (y, y)
           (Name row) (Name row) ∈ traces fig).
Proof.
  intros H. exists (chart_of df reg mil), (stats_of df reg mil).
  split; [by apply main_eq|].
  assert (forall row pred,
            row ∈ reg -> pred ∈ reg ++ mil ->
            index pred ∈ Parsed_Predecessors row ->
            connector (positions reg mil) row pred
              ∈ traces (chart_of df reg mil)) as Hdrawn.
  { intros row pred Hrow Hpred Hk. simpl.
    apply elem_of_app. right. apply elem_of_app. right.
    apply elem_of_concat. exists (connectors_of (positions reg mil) reg mil row).
    split; [|apply list_elem_of_fmap; by exists row].
    unfold connectors_of. apply elem_of_concat.
    exists [connector (positions reg mil) row pred]. split; [left|].
    apply list_elem_of_fmap. exists (index pred). split; [|done].
    by rewrite (visible_predecessor_index _ _ _ _ pred H Hpred). }
  split; [exact Hdrawn|].
  intros row Hrow Hself. exists (position_of (positions reg mil) row).
  apply (Hdrawn row row); [done| |done]. apply elem_of_app. by left.
Qed.

(** X19. Only the numbers 1 to n, for a sheet of n rows, can name a row: a
    predecessor id below 1 or above n resolves to nothing, without an
    error, and a row all of whose ids are such has no connector. *)
Theorem ids_outside_the_sheet_resolve_to_nothing raw df reg mil :
  process_dataframe raw = Ok (df, reg, mil) ->
  (forall k, k < 1 \/ Z.of_nat (length raw) < k ->
     predecessor_data reg mil k = Ok None) /\
  (forall row,
     row ∈ reg ->
     Forall (fun k => k < 1 \/ Z.of_nat (length raw) < k)
       (Parsed_Predecessors row) ->
     dependency_traces_of (positions reg mil) df reg mil row = Ok []).
Proof.
  intros H.
  assert (forall k, k < 1 \/ Z.of_nat (length raw) < k ->
            visible_predecessor reg mil k = None) as Hnone.
  { intros k Hk. apply visible_predecessor_None.
    intros (r & -> & Hr)%list_elem_of_fmap.
    apply (elem_of_frames _ _ _ _ r H) in Hr as [Hr _].
    pose proof (process_dataframe_inv _ _ _ _ H) as (Hn & _).
    pose proof (Forall2_length _ _ _ (normalize_rows _ _ Hn)) as Hlen.
    apply normalize_Ok in Hn as (ss & fs & ds & _ & _ & _ & ->).
    assert (index r ∈ index <$> assemble 1 raw ss fs ds) as Hin
      by (apply list_elem_of_fmap; by exists r).
    rewrite assemble_index, <- Hlen in Hin. apply elem_of_seqZ in Hin. lia. }
  split.
  - intros k Hk. by rewrite predecessor_data_eq, Hnone.
  - intros row Hrow Hall.
    rewrite (dependency_traces_of_eq _ _ _ _ row H Hrow). f_equal.
    unfold connectors_of.
    induction (Parsed_Predecessors row) as [|k ks IH]; [done|].
    apply Forall_cons in Hall as [Hk Hks]. csimpl.
    by rewrite (Hnone k Hk), IH.
Qed.

Lemma strip_all_space w : all_space w = true -> strip w = EmptyString.
Proof.
  intros Hw. unfold strip.
  assert (lstrip w = EmptyString) as ->; [|done].
  induction w as [|c w IH]; [done|]. simpl in *.
  apply andb_true_iff in Hw as [-> Hw]. auto.
Qed.

Lemma split_snoc_sep sep s :
  exists t ts, split sep (s +:+ String sep EmptyString) = (t :: ts) ++ [EmptyString].
Proof.
  induction s as [|c s (t & ts & IH)].
  - exists EmptyString, []. simpl. by rewrite Ascii.eqb_refl.
  - change (String c s +:+ String sep EmptyString)
      with (String c (s +:+ String sep EmptyString)).
    simpl. rewrite IH. destruct (Ascii.eqb c sep).
    + by exists EmptyString, (t :: ts).
    + by exists (String c t), ts.
Qed.

(** X20. A blank piece empties the list: when the text between two commas,
    before the first or after the last comma is empty or white space, the
    predecessors of the row parse to the empty list.  So the empty text, a
    text that ends with a comma and a text that starts with one give no
    predecessor at all. *)
Theorem blank_token_empties_predecessors :
  (forall s tok,
     tok ∈ split "," s -> all_space tok = true ->
     parse_predecessors (Some s) = []) /\
  parse_predecessors (Some EmptyString) = [] /\
  (forall s, parse_predecessors (Some (s +:+ ",")) = []) /\
  (forall s, parse_predecessors (Some (String "," s)) = []).
Proof.
  assert (forall s tok,
            tok ∈ split "," s -> all_space tok = true ->
            parse_predecessors (Some s) = []) as Hblank.
  { intros s tok Hin Hw. apply (parse_predecessors_any s tok Hin).
    by rewrite strip_all_space. }
  split; [exact Hblank|]. split; [done|]. split.
  - intros s. destruct (split_snoc_sep "," s) as (t & ts & Hs).
    apply (Hblank _ EmptyString); [|done].
    rewrite Hs. apply elem_of_app. right. left.
  - intros s. apply (Hblank _ EmptyString); [|done]. simpl. left.
Qed.

(** ** The traces of the chart *)

(** X21. The traces of the chart come in a fixed order: first one hover
    trace for each bar, in the order of the bars and on the line of its bar,
    then the marker trace if there is a visible milestone, then the
    connectors. *)
Theorem traces_in_order raw df reg mil :
  process_dataframe raw = Ok (df, reg, mil) ->
  exists fig st hovers markers connectors,
    main raw = Ok (fig, st) /\
    traces fig = hovers ++ markers ++ connectors /\
    Forall2 (fun r h =>
               h = HoverTrace (Start_Date r) (Finish_Date r)
                     (position_of (positions reg mil) r) (Name r))
      reg hovers /\
    Forall2 (fun b h =>
               exists name, h = HoverTrace (x0 b) (x1 b) (y_pos b) name)
      (shapes fig) hovers /\
    (markers = [] <-> mil = []) /\ (length markers <= 1)%nat /\
    Forall (fun t => is_marker_trace t = true) markers /\
    Forall (fun t => is_connector t = true) connectors.
Proof.
  intros H.
  exists (chart_of df reg mil), (stats_of df reg mil),
    (hover_trace (positions reg mil) <$> reg),
    (marker_traces (positions reg mil) mil),
    (concat (connectors_of (positions reg mil) reg mil <$> reg)).
  split; [by apply main_eq|]. split; [done|].
  split; [|split; [|split; [|split; [|split]]]].
  - by apply Forall2_fmap_r, Forall_Forall2_diag, Forall_forall.
  - simpl. apply Forall2_fmap, Forall_Forall2_diag, Forall_forall.
    intros r _. by exists (Name r).
  - by destruct mil.
  - destruct mil; simpl; lia.
  - destruct mil; by repeat constructor.
  - apply Forall_forall. intros t Ht.
    assert (t ∈ List.filter is_connector
                  (concat (connectors_of (positions reg mil) reg mil <$> reg)))
      as Hin by (by rewrite filter_is_connector_connectors).
    by apply list_elem_of_In, filter_In in Hin as [_ ?].
Qed.
End Pipeline.

(** * The properties on the sample inputs

    The samples are run with the assignment of the label column raising on
    a frame without rows ([empty_apply_raises = true]). *)

(** Every row of a concrete sample is convertible. *)
Ltac convertible_sample :=
  lazymatch goal with
  | |- Forall convertible ?l =>
      let l' := eval hnf in l in change (Forall convertible l')
  end;
  repeat (apply Forall_cons_2;
          [eapply convertible_task;
           [vm_compute; reflexivity|vm_compute; discriminate]|]);
  apply Forall_nil_2.

Lemma C4_parse_predecessors_witness :
  "x"%string ∈ split "," "7, 1_0 ,x" /\ py_int (strip "x") = None /\
  parse_predecessors (Some "7, 1_0 ,x"%string) = [].
Proof.
  assert ("x"%string ∈ split "," "7, 1_0 ,x") as Hin
    by (vm_compute; repeat constructor).
  assert (py_int (strip "x") = None) as Hx by reflexivity.
  split; [exact Hin|]. split; [exact Hx|].
  exact (proj1 (proj2 (proj2 (proj2 (proj2 C4_parse_predecessors_all_or_nothing))))
           "7, 1_0 ,x"%string "x"%string Hin Hx).
Defined.

Lemma C1_collapse_witness :
  normalize sample_collapse = Ok (frame_of sample_collapse) /\
  indices_to_hide (collapse_loop (frame_of sample_collapse)) = {[ 3 ]}.
Proof.
  assert (normalize sample_collapse = Ok (frame_of sample_collapse)) as H
    by (vm_compute; reflexivity).
  split; [exact H|].
  exact (proj1 (proj2 C1_collapse_single_forward_pass _ _ H eq_refl eq_refl)).
Defined.

Lemma C10_marker_row_witness :
  normalize sample_nested = Ok (frame_of sample_nested) /\
  (forall r, r ∈ frame_of sample_nested -> Not_appear r = true ->
     index r ∉ indices_to_hide (collapse_loop (frame_of sample_nested))).
Proof.
  assert (normalize sample_nested = Ok (frame_of sample_nested)) as H
    by (vm_compute; reflexivity).
  split; [exact H|].
  exact (proj1 (C10_marker_row_resets_parent_level _ _ H)).
Defined.

(** In [sample_nested] only the second row is hidden: the fourth row, at
    level 3 below the outer parent level 1, is shown again. *)
Example sample_nested_visible :
  index <$> sort_index ((frames_of true sample_nested).1.2
                        ++ (frames_of true sample_nested).2)
  = [1; 3; 4; 5].
Proof. vm_compute. reflexivity. Qed.

Lemma C8_parse_errors_witness :
  (exists e, main true sample_no_digit = Raise e /\ parse_error e) /\
  (exists e, main true sample_int64 = Raise e /\ parse_error e) /\
  Forall convertible sample_collapse /\
  (exists df,
     normalize sample_collapse = Ok df /\
     Duration_days <$> df = [60; 19; 9; 31; 0]).
Proof.
  destruct (C8_parse_errors_are_fatal true) as (Hbad & _ & Hgood).
  split; [|split].
  - apply (Hbad sample_no_digit
             (task "Design" (date 2024 1 1) (date 2024 1 20) "soon" 2 None false)).
    + right. left.
    + right. right. left. reflexivity.
  - apply (Hbad sample_int64
             (task "Project" (date 2024 1 1) (date 2024 3 1)
                "9223372036854775808 days" 1 None false)).
    + left.
    + right. right. right. exists (2 ^ 63). split; [|vm_compute; reflexivity].
      exists EmptyString, "9223372036854775808"%string, " days"%string.
      repeat split; try reflexivity. discriminate.
  - assert (Forall convertible sample_collapse) as Hc by convertible_sample.
    split; [exact Hc|].
    destruct (Hgood sample_collapse Hc) as (df & Hn & _).
    exists df. split; [exact Hn|].
    vm_compute in Hn. injection Hn as <-. vm_compute. reflexivity.
Defined.

(** The claim as the specification states it fails: in [sample_int64] the
    dates of both rows parse and both durations have a digit, yet the run
    raises, because the first integer of the first duration, 2^63, is not a
    64-bit integer; no frame with a Duration_days column comes back. *)
Lemma C8_parse_errors_counterexample :
  ~ (forall raw,
       Forall parsable raw ->
       exists df,
         normalize raw = Ok df /\
         Forall2 (fun rr r => first_integer (raw_Duration rr) (Duration_days r))
           raw df).
Proof.
  intros Hclaim.
  destruct (Hclaim sample_int64) as (df & Hn & _).
  - repeat constructor; discriminate.
  - vm_compute in Hn. discriminate Hn.
Qed.

Example sample_int64_raises :
  Forall parsable sample_int64 /\ main true sample_int64 = Raise OverflowError.
Proof. split; [repeat constructor; discriminate|vm_compute; reflexivity]. Qed.

(** The first row that cannot be cast decides the exception. *)
Example sample_overflow_first_raises :
  main true sample_overflow_first = Raise OverflowError /\
  main true sample_no_digit_first = Raise IntCastingNaNError.
Proof. split; vm_compute; reflexivity. Qed.

Lemma C9_backwards_row_witness :
  Forall convertible sample_backwards /\
  frames_assignable true (frame_of sample_backwards) /\
  exists fig st b,
    main true sample_backwards = Ok (fig, st) /\
    b ∈ shapes fig /\ x0 b = date 2024 1 20 /\ x1 b = date 2024 1 5 /\
    x1 b < x0 b.
Proof.
  assert (Forall convertible sample_backwards) as H by convertible_sample.
  assert (frames_assignable true (frame_of sample_backwards)) as Ha
    by (intros _; split; vm_compute; discriminate).
  split; [exact H|]. split; [exact Ha|].
  destruct (C9_backwards_row_keeps_its_bar true sample_backwards)
    as (_ & Hok & Hbar).
  destruct (Hok H Ha) as (fig & st & Hm).
  destruct (Hbar fig st 1%nat
              (task "Design" (date 2024 1 20) (date 2024 1 5) "15 days" 2
                 (Some "1") false)
              (date 2024 1 20) (date 2024 1 5) Hm eq_refl eq_refl eq_refl eq_refl)
    as (r & Hr & _ & _ & _ & Hb).
  vm_compute in Hr. injection Hr as <-.
  destruct Hb as (b & Hb); [vm_compute; right; left|].
  by exists fig, st, b.
Defined.

(** Putting the dates of the backwards row in order changes neither the
    outcome nor the metrics of the counts. *)
Example sample_forwards_same_outcome :
  match main true sample_backwards, main true sample_forwards with
  | Ok (_, st), Ok (_, st') =>
      regular_count st = regular_count st' /\
      milestone_count st = milestone_count st'
  | _, _ => False
  end.
Proof. vm_compute. split; reflexivity. Qed.

(** The backwards row of [sample_backwards] is a visible regular row, and
    its bar runs from 2024-01-20 back to 2024-01-05. *)
Example sample_backwards_bar :
  match main true sample_backwards with
  | Ok (fig, _) =>
      (fun b => (x0 b, x1 b, y_pos b)) <$> shapes fig
      = [(date 2024 1 1, date 2024 3 1, 0%nat);
         (date 2024 1 20, date 2024 1 5, 1%nat)]
  | Raise _ => False
  end.
Proof. vm_compute. reflexivity. Qed.

Lemma C5_milestones_witness :
  normalize sample_no_milestone = Ok (frame_of sample_no_milestone) /\
  milestone_rows (frame_of sample_no_milestone) = [] /\
  main true sample_no_milestone = Raise ValueError.
Proof.
  assert (normalize sample_no_milestone = Ok (frame_of sample_no_milestone)) as H
    by (vm_compute; reflexivity).
  assert (milestone_rows (frame_of sample_no_milestone) = []) as Hnil
    by (vm_compute; reflexivity).
  split; [exact H|]. split; [exact Hnil|].
  exact (proj2 (proj2 (proj2 (proj2 (proj2
           (C5_milestones_are_markers_only true _ _ H))))) eq_refl Hnil).
Defined.

(** With a visible milestone the chart has its one marker trace: the
    milestone of [sample_collapse] on the third line. *)
Example sample_collapse_markers :
  match main true sample_collapse with
  | Ok (fig, _) =>
      List.filter is_marker_trace (traces fig)
      = [MilestoneTrace "diamond" [date 2024 3 1] [3%nat] ["Launch"%string]]
  | Raise _ => False
  end.
Proof. vm_compute. reflexivity. Qed.

(** Without a visible milestone the run returns no chart when the
    assignment on an empty frame raises, and a chart without a marker trace
    when it does not. *)
Example sample_no_milestone_raises :
  main true sample_no_milestone = Raise ValueError.
Proof. vm_compute. reflexivity. Qed.

Example sample_no_milestone_chart :
  match main false sample_no_milestone with
  | Ok (fig, _) =>
      List.filter is_marker_trace (traces fig) = [] /\ length (shapes fig) = 2%nat
  | Raise _ => False
  end.
Proof. vm_compute. split; reflexivity. Qed.

Lemma C3_connectors_witness :
  process_dataframe true sample_collapse = Ok (frames_of true sample_collapse) /\
  exists fig st, main true sample_collapse = Ok (fig, st).
Proof.
  assert (process_dataframe true sample_collapse
          = Ok ((frames_of true sample_collapse).1.1,
                (frames_of true sample_collapse).1.2,
                (frames_of true sample_collapse).2)) as H
    by (vm_compute; reflexivity).
  split; [vm_compute; reflexivity|].
  destruct (C3_connectors_join_visible_rows true _ _ _ _ H) as (fig & st & Hm & _).
  by exists fig, st.
Defined.

(** The connectors of [sample_collapse]: the predecessor 2 of the fourth
    row is visible, the fifth row is a milestone and is no dependent. *)
Example sample_collapse_connectors :
  match main true sample_collapse with
  | Ok (fig, _) =>
      List.filter is_connector (traces fig)
      = [DependencyTrace (date 2024 1 20, date 2024 1 20) (1%nat, 2%nat)
           "Design" "Build"]
  | Raise _ => False
  end.
Proof. vm_compute. reflexivity. Qed.

Lemma C6_positions_witness :
  process_dataframe true sample_same_label
  = Ok (frames_of true sample_same_label) /\
  exists fig st,
    main true sample_same_label = Ok (fig, st) /\
    ticktext fig !! 1%nat = Some "  Test"%string /\
    (fun p : Row * nat => (index p.1, Name p.1, Some p.2))
      <$> drawn_positions fig (frames_of true sample_same_label).1.2
            (frames_of true sample_same_label).2
    = [(1, "Project"%string, Some 0%nat); (2, "Test"%string, Some 1%nat);
       (3, "Test"%string, Some 1%nat); (4, "Launch"%string, Some 2%nat)].
Proof.
  assert (process_dataframe true sample_same_label
          = Ok ((frames_of true sample_same_label).1.1,
                (frames_of true sample_same_label).1.2,
                (frames_of true sample_same_label).2)) as H
    by (vm_compute; reflexivity).
  split; [vm_compute; reflexivity|].
  destruct (C6_positions_by_first_appearance true _ _ _ _ H)
    as (_ & _ & fig & st & Hm & Ht & Heq & _).
  exists fig, st. split; [exact Hm|]. split.
  - apply Ht. vm_compute. reflexivity.
  - apply (f_equal (fmap (fun q : Row * option nat => (index q.1, Name q.1, q.2))))
      in Heq.
    rewrite <- !list_fmap_compose in Heq.
    etrans; [exact Heq|]. vm_compute. reflexivity.
Defined.

(** Two visible rows with the same name at the same level share a row of
    the chart. *)
Example sample_same_label_positions :
  match main true sample_same_label with
  | Ok (fig, _) =>
      ticktext fig = ["Project"; "  Test"; "Launch"]%string /\
      y_pos <$> shapes fig = [0; 1; 1]%nat
  | Raise _ => False
  end.
Proof. vm_compute. split; reflexivity. Qed.

Lemma C7_stats_witness :
  process_dataframe true sample_hidden_span
  = Ok (frames_of true sample_hidden_span) /\
  exists fig st,
    main true sample_hidden_span = Ok (fig, st) /\
    regular_count st = 1%nat /\ milestone_count st = 1%nat /\
    project_duration st = Some 366.
Proof.
  assert (process_dataframe true sample_hidden_span
          = Ok ((frames_of true sample_hidden_span).1.1,
                (frames_of true sample_hidden_span).1.2,
                (frames_of true sample_hidden_span).2)) as H
    by (vm_compute; reflexivity).
  split; [vm_compute; reflexivity|].
  destruct (C7_stats true _ _ _ _ H) as (fig & st & Hm & _).
  exists fig, st. split; [exact Hm|].
  assert (Ok (fig, st) = main true sample_hidden_span) as H'
    by (symmetry; exact Hm).
  vm_compute in H'. injection H' as _ ->. vm_compute. repeat split; reflexivity.
Defined.

(** The claim as the specification states it fails: in
    [sample_hidden_span] the hidden second row starts on 2023-06-01 and
    finishes on 2024-06-01, and the axis goes from 2023-05-27 to 2024-07-01
    although the visible rows span 2024-01-01 to 2024-03-01. *)
Lemma C2_axis_range_counterexample :
  ~ (forall raw fig st df reg mil,
       main true raw = Ok (fig, st) ->
       process_dataframe true raw = Ok (df, reg, mil) ->
       xaxis_range fig = spec_xaxis_range reg mil).
Proof.
  intros Hclaim.
  assert (process_dataframe true sample_hidden_span
          = Ok ((frames_of true sample_hidden_span).1.1,
                (frames_of true sample_hidden_span).1.2,
                (frames_of true sample_hidden_span).2)) as H
    by (vm_compute; reflexivity).
  pose proof (Hclaim _ _ _ _ _ _ (main_eq true _ _ _ _ H) H) as Heq.
  vm_compute in Heq. discriminate Heq.
Qed.

Example sample_hidden_span_axis :
  match main true sample_hidden_span with
  | Ok (fig, _) =>
      xaxis_range fig = (Some (date 2023 5 27), Some (date 2024 7 1)) /\
      spec_xaxis_range (frames_of true sample_hidden_span).1.2
        (frames_of true sample_hidden_span).2
      = (Some (date 2023 12 27), Some (date 2024 3 31))
  | Raise _ => False
  end.
Proof. vm_compute. split; reflexivity. Qed.

Lemma C2_axis_range_witness :
  process_dataframe true sample_collapse = Ok (frames_of true sample_collapse) /\
  exists fig st,
    main true sample_collapse = Ok (fig, st) /\
    xaxis_range fig = (Some (date 2023 12 27), Some (date 2024 3 31)).
Proof.
  assert (process_dataframe true sample_collapse
          = Ok ((frames_of true sample_collapse).1.1,
                (frames_of true sample_collapse).1.2,
                (frames_of true sample_collapse).2)) as H
    by (vm_compute; reflexivity).
  split; [vm_compute; reflexivity|].
  destruct (C2_axis_range_over_all_rows true _ _ _ _ H)
    as (fig & st & Hm & _ & _ & _ & Hex).
  exists fig, st. split; [exact Hm|]. apply Hex.
  - split; [vm_compute; left|].
    intros x Hx. vm_compute in Hx.
    repeat (apply elem_of_cons in Hx as [->|Hx]; [vm_compute; discriminate|]).
    by apply elem_of_nil in Hx.
  - split; [vm_compute; left|].
    intros x Hx. vm_compute in Hx.
    repeat (apply elem_of_cons in Hx as [->|Hx]; [vm_compute; discriminate|]).
    by apply elem_of_nil in Hx.
Defined.

(** * The further properties on the sample inputs *)

Lemma normalize_reindexes_witness :
  normalize sample_collapse = Ok (frame_of sample_collapse) /\
  index <$> frame_of sample_collapse = [1; 2; 3; 4; 5].
Proof.
  assert (normalize sample_collapse = Ok (frame_of sample_collapse)) as H
    by (vm_compute; reflexivity).
  split; [exact H|].
  exact (proj1 (normalize_reindexes _ _ H)).
Defined.

Lemma parse_error_by_column_witness :
  main true sample_bad_cells = Raise (DateParseError "Start_Date") /\
  main true sample_overflow_first = Raise OverflowError.
Proof.
  split.
  - refine (proj1 (parse_error_by_column true sample_bad_cells
                     {| raw_Name := "Design"; raw_Start_Date := Unparsable;
                        raw_Finish_Date := Parsable (date 2024 1 20);
                        raw_Duration := "soon"; raw_Outline_Level := 2;
                        raw_Predecessors := None; raw_Not_appear := false |} _)
              eq_refl).
    right. left.
  - refine (proj2 (proj1 (proj2 (proj2
              (parse_error_by_column true sample_overflow_first
                 (task "Project" (date 2024 1 1) (date 2024 3 1)
                    "9223372036854775808 days" 1 None false) _)) _)
              [] _ eq_refl (Forall_nil_2 _)) _).
    + left.
    + repeat constructor; discriminate.
    + exists (2 ^ 63). split; [|vm_compute; reflexivity].
      exists EmptyString, "9223372036854775808"%string, " days"%string.
      repeat split; try reflexivity. discriminate.
Defined.

Lemma duration_days_zero_iff_witness :
  normalize sample_half_day = Ok (frame_of sample_half_day) /\
  Forall (fun r => 0 <= Duration_days r) (frame_of sample_half_day).
Proof.
  assert (normalize sample_half_day = Ok (frame_of sample_half_day)) as H
    by (vm_compute; reflexivity).
  split; [exact H|].
  eapply Forall_impl; [exact (duration_days_zero_iff _ _ H)|].
  by intros r [? _].
Defined.

(** The row with the duration "0.5 days" is a milestone. *)
Example sample_half_day_milestone :
  Name <$> milestone_rows (frame_of sample_half_day) = ["Review"]%string.
Proof. vm_compute. reflexivity. Qed.

Lemma hidden_iff_under_marked_row_witness :
  normalize sample_collapse = Ok (frame_of sample_collapse) /\
  3 ∈ indices_to_hide (collapse_loop (frame_of sample_collapse)).
Proof.
  assert (normalize sample_collapse = Ok (frame_of sample_collapse)) as H
    by (vm_compute; reflexivity).
  split; [exact H|].
  set (row := fun i n s f d lvl h => make_row i (task n s f d lvl None h) s f).
  apply (proj2 (hidden_iff_under_marked_row sample_collapse
                  (frame_of sample_collapse)
                  [row 1 "Project" (date 2024 1 1) (date 2024 3 1) "60 days" 1 false 60;
                   row 2 "Design" (date 2024 1 1) (date 2024 1 20) "19 days" 2 true 19]
                  (row 3 "Sketch" (date 2024 1 1) (date 2024 1 10) "9 days" 3 false 9)
                  (drop 3 (frame_of sample_collapse)) H
                  ltac:(vm_compute; reflexivity))).
  split; [reflexivity|].
  exists [row 1 "Project" (date 2024 1 1) (date 2024 3 1) "60 days" 1 false 60],
    (row 2 "Design" (date 2024 1 1) (date 2024 1 20) "19 days" 2 true 19), [].
  repeat split; first [reflexivity | constructor].
Defined.

Lemma unmarked_prefix_never_hidden_witness :
  normalize sample_half_day = Ok (frame_of sample_half_day) /\
  Forall (fun x => Not_appear x = false) (frame_of sample_half_day) /\
  indices_to_hide (collapse_loop (frame_of sample_half_day)) = ∅.
Proof.
  assert (normalize sample_half_day = Ok (frame_of sample_half_day)) as H
    by (vm_compute; reflexivity).
  assert (Forall (fun x => Not_appear x = false) (frame_of sample_half_day)) as Hall
    by (vm_compute; repeat constructor).
  split; [exact H|]. split; [exact Hall|].
  exact (proj1 (proj2 (unmarked_prefix_never_hidden _ _ H) Hall)).
Defined.

Lemma excluded_marker_still_collapses_witness :
  normalize sample_excluded_marker = Ok (frame_of sample_excluded_marker) /\
  forall r,
    r ∈ drop 1 (take 3 (frame_of sample_excluded_marker)) ->
    r ∉ (select_frames (frame_of sample_excluded_marker)).1
        ++ (select_frames (frame_of sample_excluded_marker)).2.
Proof.
  assert (normalize sample_excluded_marker = Ok (frame_of sample_excluded_marker))
    as H by (vm_compute; reflexivity).
  split; [exact H|].
  set (row := fun i n s f d lvl h => make_row i (task n s f d lvl None h) s f).
  apply (excluded_marker_still_collapses sample_excluded_marker
           (frame_of sample_excluded_marker)
           (take 1 (frame_of sample_excluded_marker))
           (row 2 "Detail" (date 2024 1 1) (date 2024 1 20) "19 days" 5 true 19)
           [row 3 "Step" (date 2024 1 1) (date 2024 1 10) "9 days" 6 false 9]
           (drop 3 (frame_of sample_excluded_marker)) H).
  - vm_compute. reflexivity.
  - reflexivity.
  - vm_compute. intros Hin.
    repeat (apply elem_of_cons in Hin as [Hin|Hin]; [discriminate Hin|]).
    by apply elem_of_nil in Hin.
  - repeat constructor.
Defined.

Lemma frames_invariants_witness :
  process_dataframe true sample_collapse = Ok (frames_of true sample_collapse) /\
  NoDup (index <$> ((frames_of true sample_collapse).1.2
                    ++ (frames_of true sample_collapse).2)) /\
  (frames_of true sample_collapse).1.2 ++ (frames_of true sample_collapse).2
  ≡ₚ visible_rows (frames_of true sample_collapse).1.1.
Proof.
  assert (process_dataframe true sample_collapse
          = Ok ((frames_of true sample_collapse).1.1,
                (frames_of true sample_collapse).1.2,
                (frames_of true sample_collapse).2)) as H
    by (vm_compute; reflexivity).
  split; [vm_compute; reflexivity|].
  by destruct (frames_invariants true _ _ _ _ H)
    as (_ & _ & _ & _ & _ & ? & _ & ? & _).
Defined.

(** The visible rows of [sample_collapse], by index: the regular frame and
    the milestone frame. *)
Example sample_collapse_frames :
  index <$> (frames_of true sample_collapse).1.2 = [1; 2; 4] /\
  index <$> (frames_of true sample_collapse).2 = [5] /\
  index <$> visible_rows (frames_of true sample_collapse).1.1 = [1; 2; 4; 5].
Proof. vm_compute. repeat split; reflexivity. Qed.

Lemma ticks_index_the_labels_witness :
  process_dataframe true sample_same_label
  = Ok (frames_of true sample_same_label) /\
  exists fig st,
    main true sample_same_label = Ok (fig, st) /\
    tickvals fig = seq 0 (length (ticktext fig)) /\ NoDup (ticktext fig).
Proof.
  assert (process_dataframe true sample_same_label
          = Ok ((frames_of true sample_same_label).1.1,
                (frames_of true sample_same_label).1.2,
                (frames_of true sample_same_label).2)) as H
    by (vm_compute; reflexivity).
  split; [vm_compute; reflexivity|].
  destruct (ticks_index_the_labels true _ _ _ _ H) as (fig & st & Hm & Ht & Hn & _).
  by exists fig, st.
Defined.

Lemma position_at_most_rank_witness :
  process_dataframe true sample_same_label
  = Ok (frames_of true sample_same_label) /\
  forall k r,
    visible_rows (frames_of true sample_same_label).1.1 !! k = Some r ->
    exists p,
      positions (frames_of true sample_same_label).1.2
        (frames_of true sample_same_label).2 !! Y_Label r = Some p /\
      (p <= k)%nat.
Proof.
  assert (process_dataframe true sample_same_label
          = Ok ((frames_of true sample_same_label).1.1,
                (frames_of true sample_same_label).1.2,
                (frames_of true sample_same_label).2)) as H
    by (vm_compute; reflexivity).
  split; [vm_compute; reflexivity|].
  exact (proj1 (position_at_most_rank true _ _ _ _ H)).
Defined.

Lemma same_name_other_level_other_line_witness :
  process_dataframe true sample_same_name = Ok (frames_of true sample_same_name) /\
  exists r r',
    Name r = Name r' /\ Outline_Level r <> Outline_Level r' /\
    Y_Label r <> Y_Label r'.
Proof.
  assert (process_dataframe true sample_same_name
          = Ok ((frames_of true sample_same_name).1.1,
                (frames_of true sample_same_name).1.2,
                (frames_of true sample_same_name).2)) as H
    by (vm_compute; reflexivity).
  split; [vm_compute; reflexivity|].
  set (row := fun i n s f d lvl h => make_row i (task n s f d lvl None h) s f).
  exists (row 1 "Test" (date 2024 1 1) (date 2024 3 1) "60 days" 1 false 60),
    (row 2 "Test" (date 2024 1 1) (date 2024 1 20) "19 days" 2 false 19).
  split; [reflexivity|]. split; [discriminate|].
  refine (proj1 (same_name_other_level_other_line true _ _ _ _
                   (row 1 "Test" (date 2024 1 1) (date 2024 3 1) "60 days" 1 false 60)
                   (row 2 "Test" (date 2024 1 1) (date 2024 1 20) "19 days" 2 false 19)
                   H _ _ eq_refl _)).
  - vm_compute. left.
  - vm_compute. right. left.
  - discriminate.
Defined.

Lemma bar_colours_by_level_witness :
  process_dataframe true sample_collapse = Ok (frames_of true sample_collapse) /\
  exists fig st, main true sample_collapse = Ok (fig, st).
Proof.
  assert (process_dataframe true sample_collapse
          = Ok ((frames_of true sample_collapse).1.1,
                (frames_of true sample_collapse).1.2,
                (frames_of true sample_collapse).2)) as H
    by (vm_compute; reflexivity).
  split; [vm_compute; reflexivity|].
  destruct (bar_colours_by_level true _ _ _ _ H) as (fig & st & Hm & _).
  by exists fig, st.
Defined.

(** The colours of the bars of [sample_collapse], at levels 1, 2 and 2. *)
Example sample_collapse_colours :
  match main true sample_collapse with
  | Ok (fig, _) =>
      fillcolor <$> shapes fig = ["black"; "dimgray"; "dimgray"]%string
  | Raise _ => False
  end.
Proof. vm_compute. reflexivity. Qed.

Lemma metrics_count_the_chart_witness :
  process_dataframe true sample_collapse = Ok (frames_of true sample_collapse) /\
  exists fig st,
    main true sample_collapse = Ok (fig, st) /\
    regular_count st = length (shapes fig) /\
    (0 < regular_count st)%nat /\ (0 < milestone_count st)%nat.
Proof.
  assert (process_dataframe true sample_collapse
          = Ok ((frames_of true sample_collapse).1.1,
                (frames_of true sample_collapse).1.2,
                (frames_of true sample_collapse).2)) as H
    by (vm_compute; reflexivity).
  split; [vm_compute; reflexivity|].
  destruct (metrics_count_the_chart true _ _ _ _ H)
    as (fig & st & Hm & Hc & _ & _ & Hpos & _).
  exists fig, st. split; [exact Hm|]. split; [exact Hc|]. exact (Hpos eq_refl).
Defined.

Lemma project_duration_covers_rows_witness :
  process_dataframe true sample_hidden_span
  = Ok (frames_of true sample_hidden_span) /\
  exists fig st d,
    main true sample_hidden_span = Ok (fig, st) /\
    project_duration st = Some d /\ 366 <= d.
Proof.
  assert (process_dataframe true sample_hidden_span
          = Ok ((frames_of true sample_hidden_span).1.1,
                (frames_of true sample_hidden_span).1.2,
                (frames_of true sample_hidden_span).2)) as H
    by (vm_compute; reflexivity).
  split; [vm_compute; reflexivity|].
  set (row := fun i n s f d lvl h => make_row i (task n s f d lvl None h) s f).
  destruct (project_duration_covers_rows true _ _ _ _
              (row 2 "Survey" (date 2023 6 1) (date 2024 6 1) "366 days" 2 false 366)
              H ltac:(vm_compute; right; left))
    as (fig & st & d & Hm & Hd & Hle & _).
  exists fig, st, d. split; [exact Hm|]. split; [exact Hd|].
  exact Hle.
Defined.

Lemma axis_contains_the_bars_witness :
  process_dataframe true sample_backwards = Ok (frames_of true sample_backwards) /\
  exists fig st lo hi,
    main true sample_backwards = Ok (fig, st) /\
    xaxis_range fig = (Some lo, Some hi) /\
    forall b, b ∈ shapes fig -> lo < x0 b /\ x1 b < hi.
Proof.
  assert (process_dataframe true sample_backwards
          = Ok ((frames_of true sample_backwards).1.1,
                (frames_of true sample_backwards).1.2,
                (frames_of true sample_backwards).2)) as H
    by (vm_compute; reflexivity).
  split; [vm_compute; reflexivity|].
  destruct (axis_contains_the_bars true _ _ _ _ H ltac:(discriminate))
    as (fig & st & lo & hi & Hm & Hx & _ & Hb).
  exists fig, st, lo, hi. split; [exact Hm|]. split; [exact Hx|].
  intros b Hin. destruct (Hb b Hin) as (? & ? & _). by split.
Defined.

Lemma visible_references_are_drawn_witness :
  process_dataframe true sample_self_reference
  = Ok (frames_of true sample_self_reference) /\
  exists fig st y,
    main true sample_self_reference = Ok (fig, st) /\
    DependencyTrace (date 2024 1 20, date 2024 1 1) (y, y) "Design" "Design"
      ∈ traces fig.
Proof.
  assert (process_dataframe true sample_self_reference
          = Ok ((frames_of true sample_self_reference).1.1,
                (frames_of true sample_self_reference).1.2,
                (frames_of true sample_self_reference).2)) as H
    by (vm_compute; reflexivity).
  split; [vm_compute; reflexivity|].
  destruct (visible_references_are_drawn true _ _ _ _ H) as (fig & st & Hm & _ & Hself).
  destruct (Hself (make_row 2 (task "Design" (date 2024 1 1) (date 2024 1 20)
                                 "19 days" 2 (Some "2") false)
                     (date 2024 1 1) (date 2024 1 20) 19)) as [y Hy].
  - vm_compute. right. left.
  - vm_compute. left.
  - by exists fig, st, y.
Defined.

Lemma ids_outside_the_sheet_witness :
  process_dataframe true sample_self_reference
  = Ok (frames_of true sample_self_reference) /\
  predecessor_data (frames_of true sample_self_reference).1.2
    (frames_of true sample_self_reference).2 99 = Ok None.
Proof.
  assert (process_dataframe true sample_self_reference
          = Ok ((frames_of true sample_self_reference).1.1,
                (frames_of true sample_self_reference).1.2,
                (frames_of true sample_self_reference).2)) as H
    by (vm_compute; reflexivity).
  split; [vm_compute; reflexivity|].
  apply (proj1 (ids_outside_the_sheet_resolve_to_nothing true _ _ _ _ H)).
  right. reflexivity.
Defined.

(** The first row of [sample_self_reference] names the rows 0 and 99 and has
    no connector; the second names itself and has one. *)
Example sample_self_reference_connectors :
  match main true sample_self_reference with
  | Ok (fig, _) =>
      List.filter is_connector (traces fig)
      = [DependencyTrace (date 2024 1 20, date 2024 1 1) (1%nat, 1%nat)
           "Design" "Design"]
  | Raise _ => False
  end.
Proof. vm_compute. reflexivity. Qed.

Lemma traces_in_order_witness :
  process_dataframe true sample_collapse = Ok (frames_of true sample_collapse) /\
  exists fig st, main true sample_collapse = Ok (fig, st).
Proof.
  assert (process_dataframe true sample_collapse
          = Ok ((frames_of true sample_collapse).1.1,
                (frames_of true sample_collapse).1.2,
                (frames_of true sample_collapse).2)) as H
    by (vm_compute; reflexivity).
  split; [vm_compute; reflexivity|].
  destruct (traces_in_order true _ _ _ _ H) as (fig & st & _ & _ & _ & Hm & _).
  by exists fig, st.
Defined.

Lemma missing_columns_spec_witness :
  (forall c, c ∈ required_columns -> c ∈ sample_all_columns) /\
  missing_columns sample_all_columns = [].
Proof.
  assert (forall c, c ∈ required_columns -> c ∈ sample_all_columns) as H.
  { apply Forall_forall. apply (bool_decide_unpack _). vm_compute. reflexivity. }
  split; [exact H|].
  exact (proj2 (proj1 (missing_columns_spec sample_all_columns)) H).
Defined.

(** The sheet of [sample_columns] lacks one required column. *)
Example sample_columns_missing :
  app true (Some {| columns := sample_columns; rows := sample_bad_cells |})
  = MissingColumnsPage "Finish_Date".
Proof. vm_compute. reflexivity. Qed.

Lemma app_shows_chart_iff_witness :
  Forall convertible sample_collapse /\
  frames_assignable true (frame_of sample_collapse) /\
  exists fig stats,
    app true (Some {| columns := sample_all_columns; rows := sample_collapse |})
    = ChartPage fig stats.
Proof.
  assert (Forall convertible sample_collapse) as H by convertible_sample.
  assert (frames_assignable true (frame_of sample_collapse)) as Ha
    by (intros _; split; vm_compute; discriminate).
  split; [exact H|]. split; [exact Ha|].
  apply (proj1 (app_shows_chart_iff true _)).
  exists {| columns := sample_all_columns; rows := sample_collapse |}.
  split; [reflexivity|]. split; [|by split].
  apply Forall_forall. apply (bool_decide_unpack _). vm_compute. reflexivity.
Defined.

Lemma main_outcome_witness :
  Forall convertible sample_nested /\
  frames_assignable true (frame_of sample_nested) /\
  exists fig st, main true sample_nested = Ok (fig, st).
Proof.
  assert (Forall convertible sample_nested) as H by convertible_sample.
  assert (frames_assignable true (frame_of sample_nested)) as Ha
    by (intros _; split; vm_compute; discriminate).
  split; [exact H|]. split; [exact Ha|].
  apply (proj1 (main_outcome true sample_nested)). by split.
Defined.

Lemma blank_token_empties_predecessors_witness :
  " "%string ∈ split "," "3, ,4" /\
  parse_predecessors (Some "3, ,4"%string) = [].
Proof.
  assert (" "%string ∈ split "," "3, ,4") as H by (vm_compute; right; left).
  split; [exact H|].
  exact (proj1 blank_token_empties_predecessors _ _ H eq_refl).
Defined.
